(** * GenericInstrumentConnection: remote control of bench instruments

    A shallow embedding of [src/python3/GenericInstrumentConnection.py]:
    the connection object, its two public calls [write] and [query], the
    direct TCP/IP transfer, the GPIB-over-Ethernet transfer built on it, and
    the small helpers they share.

    Python text is a list of Unicode code points, wire data a list of bytes,
    Python integers are [Z].  Socket calls act on an explicit world that
    scripts what each connection does and logs every call made.  A Python
    call either returns, raises, or is still inside the receive loop when the
    fuel given to that loop is used up. *)

From Stdlib Require Import List ZArith NArith Bool Lia String Ascii.
From Stdlib Require Import DecimalString Strings.Byte.
Import ListNotations.

Set Implicit Arguments.

(** ** Text and wire data *)

Definition codepoint := N.
Definition str := list codepoint.
Definition bytes := list byte.

(** A literal of the source, as code points. *)
Definition py (s : string) : str :=
  map N_of_ascii (list_ascii_of_string s).

Definition LF : codepoint := 10%N.
Definition PIPE : codepoint := 124%N.

Definition str_eqb (a b : str) : bool :=
  if list_eq_dec N.eq_dec a b then true else false.

(** [str(n)] for a Python integer. *)
Definition str_of_int (z : Z) : str :=
  py (NilZero.string_of_int (Z.to_int z)).

(** [str(x)] where [x] is an integer or [None]. *)
Definition str_of_opt_int (x : option Z) : str :=
  match x with
  | Some z => str_of_int z
  | None => py "None"
  end.

(** [str(x)] where [x] is a string or [None]. *)
Definition str_of_opt_str (x : option str) : str :=
  match x with
  | Some s => s
  | None => py "None"
  end.

(** ** UTF-8, the codec of [str.encode()] and [bytes.decode()] *)

Section Utf8.
Local Open Scope N_scope.

Definition byte_of (n : N) : byte :=
  match Byte.of_N n with
  | Some b => b
  | None => x00
  end.

Definition utf8_encode_char (c : codepoint) : option bytes :=
  if c <? 0x80 then Some [byte_of c]
  else if c <? 0x800 then
    Some [byte_of (0xC0 + c / 0x40); byte_of (0x80 + c mod 0x40)]
  else if c <? 0x10000 then
    if (0xD800 <=? c) && (c <=? 0xDFFF) then None
    else Some [byte_of (0xE0 + c / 0x1000);
               byte_of (0x80 + (c / 0x40) mod 0x40);
               byte_of (0x80 + c mod 0x40)]
  else if c <? 0x110000 then
    Some [byte_of (0xF0 + c / 0x40000);
          byte_of (0x80 + (c / 0x1000) mod 0x40);
          byte_of (0x80 + (c / 0x40) mod 0x40);
          byte_of (0x80 + c mod 0x40)]
  else None.

Fixpoint utf8_encode (s : str) : option bytes :=
  match s with
  | [] => Some []
  | c :: s' =>
      match utf8_encode_char c, utf8_encode s' with
      | Some b, Some bs => Some (b ++ bs)
      | _, _ => None
      end
  end.

(** A continuation byte, 10xxxxxx. *)
Definition cont (b : N) : bool := (0x80 <=? b) && (b <=? 0xBF).

Definition lead2 (b0 : N) : bool := (0xC2 <=? b0) && (b0 <=? 0xDF).

(** Three-byte forms, without overlong encodings and surrogates. *)
Definition lead3 (b0 b1 : N) : bool :=
  ((b0 =? 0xE0) && (0xA0 <=? b1) && (b1 <=? 0xBF))
  || ((0xE1 <=? b0) && (b0 <=? 0xEC) && cont b1)
  || ((b0 =? 0xED) && (0x80 <=? b1) && (b1 <=? 0x9F))
  || ((0xEE <=? b0) && (b0 <=? 0xEF) && cont b1).

(** Four-byte forms, up to U+10FFFF. *)
Definition lead4 (b0 b1 : N) : bool :=
  ((b0 =? 0xF0) && (0x90 <=? b1) && (b1 <=? 0xBF))
  || ((0xF1 <=? b0) && (b0 <=? 0xF3) && cont b1)
  || ((b0 =? 0xF4) && (0x80 <=? b1) && (b1 <=? 0x8F)).

Definition cons_opt (c : codepoint) (r : option str) : option str :=
  match r with
  | Some s => Some (c :: s)
  | None => None
  end.

Fixpoint utf8_decode (bs : bytes) : option str :=
  match bs with
  | [] => Some []
  | x0 :: r0 =>
      let b0 := Byte.to_N x0 in
      if b0 <? 0x80 then cons_opt b0 (utf8_decode r0)
      else
        match r0 with
        | [] => None
        | x1 :: r1 =>
            let b1 := Byte.to_N x1 in
            if lead2 b0 && cont b1 then
              cons_opt ((b0 - 0xC0) * 0x40 + (b1 - 0x80)) (utf8_decode r1)
            else
              match r1 with
              | [] => None
              | x2 :: r2 =>
                  let b2 := Byte.to_N x2 in
                  if lead3 b0 b1 && cont b2 then
                    cons_opt ((b0 - 0xE0) * 0x1000 + (b1 - 0x80) * 0x40
                              + (b2 - 0x80))
                             (utf8_decode r2)
                  else
                    match r2 with
                    | [] => None
                    | x3 :: r3 =>
                        let b3 := Byte.to_N x3 in
                        if lead4 b0 b1 && cont b2 && cont b3 then
                          cons_opt ((b0 - 0xF0) * 0x40000
                                    + (b1 - 0x80) * 0x1000
                                    + (b2 - 0x80) * 0x40 + (b3 - 0x80))
                                   (utf8_decode r3)
                        else None
                    end
              end
        end
  end.
End Utf8.

(** ASCII wire data of a literal. *)
Definition wire (s : string) : bytes := list_byte_of_string s.

(** ** Exceptions and outcomes *)

(** The exception classes this program meets.  The first three derive from
    [BaseException] only; every other one derives from [Exception]. *)
Inductive ExcClass :=
| KeyboardInterrupt | SystemExit | GeneratorExit
| OSError | SocketTimeout | ConnectionError | MemoryError
| IndexError | ValueError | TypeError | AttributeError
| UnicodeDecodeError | UnicodeEncodeError.

(** [isinstance(err, Exception)], the test of [except Exception]. *)
Definition is_Exception (c : ExcClass) : bool :=
  match c with
  | KeyboardInterrupt | SystemExit | GeneratorExit => false
  | _ => true
  end.

(** An element of [err.args]: an integer (an errno) or a text. *)
Inductive Arg :=
| AInt (z : Z)
| AStr (s : str).

Definition str_of_arg (a : Arg) : str :=
  match a with
  | AInt z => str_of_int z
  | AStr s => s
  end.

Record PyExc := mkExc { exc_class : ExcClass; exc_args : list Arg }.

(** What a call does: it returns a value, raises, or has not left the receive
    loop within the iterations granted. *)
Inductive Res (A : Type) :=
| Return (a : A)
| Raise (e : PyExc)
| OutOfFuel.
Arguments Return {A} a.
Arguments Raise {A} e.
Arguments OutOfFuel {A}.

Definition res_bind {A B} (r : Res A) (k : A -> Res B) : Res B :=
  match r with
  | Return a => k a
  | Raise e => Raise e
  | OutOfFuel => OutOfFuel
  end.

Definition returns {A} (r : Res A) : bool :=
  match r with Return _ => true | _ => false end.

Definition raises {A} (r : Res A) : bool :=
  match r with Raise _ => true | _ => false end.

Definition raises_class {A} (c : ExcClass) (r : Res A) : Prop :=
  exists args, r = Raise (mkExc c args).

(** [s[-1]], a one-character string. *)
Definition index_last (s : str) : Res str :=
  match rev s with
  | c :: _ => Return [c]
  | [] => Raise (mkExc IndexError [AStr (py "string index out of range")])
  end.

(** [err.args[0]]. *)
Definition args_0 (e : PyExc) : Res Arg :=
  match exc_args e with
  | a :: _ => Return a
  | [] => Raise (mkExc IndexError [AStr (py "tuple index out of range")])
  end.

(** [message.encode()]; of the error's five arguments only the codec name,
    the first, is kept. *)
Definition encode (s : str) : Res bytes :=
  match utf8_encode s with
  | Some b => Return b
  | None => Raise (mkExc UnicodeEncodeError [AStr (py "utf-8")])
  end.

(** [recv_buffer.decode()], with the same convention for the error. *)
Definition decode (b : bytes) : Res str :=
  match utf8_decode b with
  | Some s => Return s
  | None => Raise (mkExc UnicodeDecodeError [AStr (py "utf-8")])
  end.

(** ** The interpreter's tables

    What [int()] accepts outside ASCII depends on the Unicode tables of the
    interpreter, and the text of its error on [repr]; recent interpreters
    also refuse literals with too many digits.  These are parameters. *)
Class PyRuntime := {
  (** decimal value of a non-ASCII code point of category Nd *)
  unicode_decimal : codepoint -> option N;
  (** whether a non-ASCII code point is white space *)
  unicode_space : codepoint -> bool;
  (** [sys.get_int_max_str_digits()]: the most digits [int()] converts, 0
      when there is no limit *)
  int_max_str_digits : nat;
  (** [repr(s)] *)
  repr : str -> str
}.

Section Builtins.
Context {rt : PyRuntime}.
Local Open Scope N_scope.

(** White space for [int()]: in ASCII the tabulator, the line feed, the
    vertical tabulator, the form feed, the carriage return and the space,
    and no other control character; outside ASCII what the tables say. *)
Definition is_space (c : codepoint) : bool :=
  if c <? 128 then
    ((9 <=? c) && (c <=? 13)) || (c =? 32)
  else unicode_space c.

(** The value of a decimal digit; outside ASCII a code point is looked up
    as white space first. *)
Definition decimal (c : codepoint) : option N :=
  if c <? 128 then
    if (48 <=? c) && (c <=? 57) then Some (c - 48) else None
  else if unicode_space c then None
  else unicode_decimal c.

Fixpoint lstrip (s : str) : str :=
  match s with
  | c :: s' => if is_space c then lstrip s' else s
  | [] => []
  end.

(** What precedes the current position in a run of digits. *)
Inductive Prev := AtStart | AfterDigit | AfterUnderscore.

(** Digits with single underscores between them: value, number of digits
    and the rest of the text, or nothing when the run is malformed. *)
Fixpoint scan_digits (prev : Prev) (acc : N) (n : nat) (s : str)
  : option (N * nat * str) :=
  let stop :=
    match prev with
    | AfterDigit => Some (acc, n, s)
    | _ => None
    end in
  match s with
  | [] => stop
  | c :: s' =>
      if c =? 95 then
        match prev with
        | AfterDigit => scan_digits AfterUnderscore acc n s'
        | _ => None
        end
      else
        match decimal c with
        | Some d => scan_digits AfterDigit (10 * acc + d) (S n) s'
        | None => stop
        end
  end.

(** The message shows at most 200 characters of [repr(s)]. *)
Definition invalid_literal (s : str) : PyExc :=
  mkExc ValueError
    [AStr (py "invalid literal for int() with base 10: "
           ++ firstn 200 (repr s))].

(** A run of more than 640 digits is held against the limit, when there is
    one. *)
Definition exceeds_limit (n : nat) : bool :=
  Nat.ltb 640 n && Nat.ltb 0 int_max_str_digits
  && Nat.ltb int_max_str_digits n.

Definition too_many_digits (n : nat) : PyExc :=
  mkExc ValueError
    [AStr (py "Exceeds the limit ("
           ++ str_of_int (Z.of_nat int_max_str_digits)
           ++ py " digits) for integer string conversion: value has "
           ++ str_of_int (Z.of_nat n)
           ++ py " digits; use sys.set_int_max_str_digits() to increase the limit")].

(** [int(s)] for a text [s]: white space, an optional sign, digits, white
    space.  The digits are counted, and the limit applied, before what
    follows them is looked at. *)
Definition py_int (s : str) : Res Z :=
  let body := lstrip s in
  let '(negative, digits) :=
    match body with
    | c :: r => if c =? 45 then (true, r)
                else if c =? 43 then (false, r)
                else (false, body)
    | [] => (false, body)
    end in
  match scan_digits AtStart 0 O digits with
  | Some (v, n, rest) =>
      if exceeds_limit n then Raise (too_many_digits n)
      else
        match lstrip rest with
        | [] => Return (if negative then (- Z.of_N v)%Z else Z.of_N v)
        | _ :: _ => Raise (invalid_literal s)
        end
  | None => Raise (invalid_literal s)
  end.

(** An ASCII character that is neither white space for [int()] nor a
    digit, a sign or an underscore. *)
Definition foreign (c : codepoint) : bool :=
  (c <? 128) && negb (is_space c) && negb ((48 <=? c) && (c <=? 57))
  && negb (c =? 95) && negb (c =? 43) && negb (c =? 45).

(** [s.split(sep, 1)] for a one-character separator. *)
Fixpoint split1 (sep : codepoint) (s : str) : list str :=
  match s with
  | [] => [[]]
  | c :: s' =>
      if c =? sep then [[]; s']
      else
        match split1 sep s' with
        | h :: t => (c :: h) :: t
        | [] => [[c]]
        end
  end.
End Builtins.

(** ** A runtime that knows ASCII only

    Its tables hold no digit, no white space and no printable character
    outside ASCII, and it limits nothing. *)

Definition hex_digit (d : N) : codepoint :=
  if (d <? 10)%N then (48 + d)%N else (87 + d)%N.

(** The last [width] hexadecimal digits of [c]. *)
Fixpoint hex_fixed (width : nat) (c : N) : str :=
  match width with
  | O => []
  | S width' => hex_fixed width' (c / 16)%N ++ [hex_digit (c mod 16)%N]
  end.

Definition BACKSLASH : codepoint := 92%N.

(** One character inside [repr(s)], between quotes [quote]. *)
Definition repr_char (quote c : codepoint) : str :=
  if (c =? quote)%N || (c =? BACKSLASH)%N then [BACKSLASH; c]
  else if (c =? 9)%N then py "\t"
  else if (c =? 10)%N then py "\n"
  else if (c =? 13)%N then py "\r"
  else if (32 <=? c)%N && (c <? 127)%N then [c]
  else if (c <? 256)%N then py "\x" ++ hex_fixed 2 c
  else if (c <? 65536)%N then py "\u" ++ hex_fixed 4 c
  else py "\U" ++ hex_fixed 8 c.

(** [repr(s)]: between single quotes, or between double quotes when the
    text holds a single quote and no double one. *)
Definition ascii_repr (s : str) : str :=
  let quote :=
    if existsb (N.eqb 39) s && negb (existsb (N.eqb 34) s)
    then 34%N else 39%N in
  quote :: List.concat (map (repr_char quote) s) ++ [quote].

Definition ascii_runtime : PyRuntime := {|
  unicode_decimal := fun _ => None;
  unicode_space := fun _ => false;
  int_max_str_digits := 0;
  repr := ascii_repr
|}.


(** ** The network

    Every call of [socket.socket] opens the next connection; a [Peer] scripts
    what that connection does: which calls fail and with what, and what the
    successive [recv] calls deliver ([recv_script], then [recv_after] for
    ever: a time-out, or the empty data of a closed connection). *)
Record Peer := mkPeer {
  socket_fault : option PyExc;
  settimeout_fault : option PyExc;
  connect_fault : option PyExc;
  sendall_fault : option PyExc;
  recv_script : list (PyExc + bytes);
  recv_after : PyExc + bytes;
  shutdown_fault : option PyExc;
  close_fault : option PyExc
}.

(** The calls made, in order.  [EvTransfer] marks the entry into the direct
    transfer with the message handed to it; the others are the socket calls,
    logged when made, whether they fail or not. *)
Inductive Event :=
| EvTransfer (message : str) (read_response : bool)
| EvSocket (fd : nat)
| EvSetTimeout (fd : nat) (seconds : Z)
| EvConnect (fd : nat) (host : option str) (port : Z)
| EvSendall (fd : nat) (data : bytes)
| EvRecv (fd : nat) (bufsize : Z) (got : option bytes)
| EvShutdown (fd : nat)
| EvClose (fd : nat).

Record World := mkWorld {
  peers : nat -> Peer;
  sockets : nat;
  log : list Event
}.

Definition M (A : Type) : Type := World -> Res A * World.

Definition ret {A} (a : A) : M A := fun w => (Return a, w).

Definition raise {A} (e : PyExc) : M A := fun w => (Raise e, w).

Definition out_of_fuel {A} : M A := fun w => (OutOfFuel, w).

Definition lift {A} (r : Res A) : M A := fun w => (r, w).

Definition bind {A B} (c : M A) (k : A -> M B) : M B :=
  fun w =>
    match c w with
    | (Return a, w') => k a w'
    | (Raise e, w') => (Raise e, w')
    | (OutOfFuel, w') => (OutOfFuel, w')
    end.

(** [try: body  except Exception as err: handler(err)]. *)
Definition try_except_Exception {A} (body : M A) (handler : PyExc -> M A)
  : M A :=
  fun w =>
    match body w with
    | (Raise err, w') =>
        if is_Exception (exc_class err) then handler err w'
        else (Raise err, w')
    | other => other
    end.

Declare Scope py_scope.
Delimit Scope py_scope with py.
Notation "x <- c ;; k" := (bind c (fun x => k))
  (at level 61, c at next level, right associativity) : py_scope.
Notation "c ;; k" := (bind c (fun _ => k))
  (at level 61, right associativity) : py_scope.
Local Open Scope py_scope.

Definition emit (ev : Event) (w : World) : World :=
  mkWorld (peers w) (sockets w) (log w ++ [ev]).

Definition fail_or_unit (f : option PyExc) : Res unit :=
  match f with
  | Some e => Raise e
  | None => Return tt
  end.

(** A socket call that returns nothing. *)
Definition socket_call (fd : nat) (ev : Event) (fault : Peer -> option PyExc)
  : M unit :=
  fun w => (fail_or_unit (fault (peers w fd)), emit ev w).

(** [socket.socket(socket.AF_INET, socket.SOCK_STREAM)] *)
Definition socket_socket : M nat :=
  fun w =>
    let fd := sockets w in
    let w' := mkWorld (peers w) (S fd) (log w ++ [EvSocket fd]) in
    match socket_fault (peers w fd) with
    | Some e => (Raise e, w')
    | None => (Return fd, w')
    end.

Definition settimeout (fd : nat) (seconds : Z) : M unit :=
  socket_call fd (EvSetTimeout fd seconds) settimeout_fault.

Definition connect (fd : nat) (host : option str) (port : Z) : M unit :=
  socket_call fd (EvConnect fd host port) connect_fault.

Definition sendall (fd : nat) (data : bytes) : M unit :=
  socket_call fd (EvSendall fd data) sendall_fault.

Definition shutdown (fd : nat) : M unit :=
  socket_call fd (EvShutdown fd) shutdown_fault.

Definition close (fd : nat) : M unit :=
  socket_call fd (EvClose fd) close_fault.

(** The [recv] calls already made on a socket. *)
Fixpoint recv_count (fd : nat) (l : list Event) : nat :=
  match l with
  | EvRecv fd' _ _ :: l' =>
      if Nat.eqb fd fd' then S (recv_count fd l') else recv_count fd l'
  | _ :: l' => recv_count fd l'
  | [] => O
  end.

(** [connection_handle.recv(bufsize)] *)
Definition recv (fd : nat) (bufsize : Z) : M bytes :=
  fun w =>
    let p := peers w fd in
    match nth (recv_count fd (log w)) (recv_script p) (recv_after p) with
    | inl e => (Raise e, emit (EvRecv fd bufsize None) w)
    | inr data => (Return data, emit (EvRecv fd bufsize (Some data)) w)
    end.

(** ** The connection object *)

Record Connection := mkConnection {
  connection_type : option str;
  device_ip_address : option str;
  device_port : Z;
  device_gpib_address : option Z;
  message_termination_character : str
}.

(** The two-element status list [[code, text]]. *)
Record Status := mkStatus { status_0 : Z; status_1 : str }.

(** Values as a caller sees them. *)
#[warnings="-register-all"]
Inductive PyVal :=
| PNone
| PInt (z : Z)
| PStr (s : str)
| PList (l : list PyVal).

Definition value_of_status (s : Status) : PyVal :=
  PList [PInt (status_0 s); PStr (status_1 s)].

Section GenericInstrumentConnection.
Context {rt : PyRuntime}.

Definition opt_str_eqb (a : option str) (b : str) : bool :=
  match a with
  | Some s => str_eqb s b
  | None => false
  end.

(** VALIDATE GPIB ADDRESS: comparing [None] with an integer is a
    [TypeError]. *)
Definition __ValidateGpibAddress (gpib_address : option Z) : Res Z :=
  match gpib_address with
  | None =>
      Raise (mkExc TypeError
        [AStr (py "'>=' not supported between instances of 'NoneType' and 'int'")])
  | Some a =>
      if ((a >=? 1) && (a <=? 30))%Z then Return 1%Z else Return 0%Z
  end.

(** The constructor. *)
Definition __init__ (connection_type : option str)
  (device_ip_address : option str) (device_gpib_address : option Z)
  : M Connection :=
  if negb (opt_str_eqb connection_type (py "tcpip")
           || opt_str_eqb connection_type (py "gpiboe"))
  then raise (mkExc AttributeError
         [AStr (py "Connection type " ++ [34%N]
                ++ str_of_opt_str connection_type
                ++ [34%N] ++ py " not supported!")])
  else
    (if opt_str_eqb connection_type (py "gpiboe")
     then
       valid <- lift (__ValidateGpibAddress device_gpib_address) ;;
       if (valid =? 0)%Z
       then raise (mkExc ValueError [AStr (py "GPIB address out of range!")])
       else ret tt
     else ret tt) ;;
    ret (mkConnection connection_type device_ip_address 5025
           device_gpib_address [LF]).

Definition tcpip (device_ip_address : option str) : M Connection :=
  __init__ (Some (py "tcpip")) device_ip_address None.

Definition gpiboe (device_gpib_address : option Z)
  (gpib_gateway_ip_address : option str) : M Connection :=
  __init__ (Some (py "gpiboe")) gpib_gateway_ip_address device_gpib_address.

(** The [while True] loop of the direct transfer. *)
Fixpoint recv_loop (fuel : nat) (self : Connection) (connection_handle : nat)
  (recv_msg : str) : M str :=
  match fuel with
  | O => out_of_fuel
  | S fuel' =>
      recv_buffer <- recv connection_handle 4096 ;;
      text <- lift (decode recv_buffer) ;;
      let recv_msg := recv_msg ++ text in
      last_char <- lift (index_last recv_msg) ;;
      if str_eqb last_char (message_termination_character self)
      then ret recv_msg
      else recv_loop fuel' self connection_handle recv_msg
  end.

(** The [try] block of the direct transfer. *)
Definition TcpipTransfer_try (fuel : nat) (self : Connection) (message : str)
  (read_response : bool) (connection_timeout : Z) : M Status :=
  connection_handle <- socket_socket ;;
  settimeout connection_handle connection_timeout ;;
  connect connection_handle (device_ip_address self) (device_port self) ;;
  data <- lift (encode message) ;;
  sendall connection_handle data ;;
  recv_msg <- (if read_response
               then recv_loop fuel self connection_handle []
               else ret []) ;;
  shutdown connection_handle ;;
  close connection_handle ;;
  ret (mkStatus 0 recv_msg).

(** Its [except Exception as err] clause. *)
Definition TcpipTransfer_except (err : PyExc) : M Status :=
  arg <- lift (args_0 err) ;;
  ret (mkStatus (-1) (py "[ERROR] during TCPIP transfer: " ++ str_of_arg arg)).

(** TCPIP TRANSFER *)
Definition __TcpipTransfer (fuel : nat) (self : Connection) (message : str)
  (read_response : bool) (connection_timeout : Z) : M Status :=
  fun w =>
    try_except_Exception
      (TcpipTransfer_try fuel self message read_response connection_timeout)
      TcpipTransfer_except
      (emit (EvTransfer message read_response) w).

(** GPIBOE STATUS DECODE *)
Definition __ParseGpiboeReceiveMessage (message : str) : Res Status :=
  let message := split1 PIPE message in
  if (1 <? List.length message)%nat
  then res_bind (py_int (nth 0 message []))
         (fun code => Return (mkStatus code (nth 1 message [])))
  else res_bind (py_int (nth 0 message []))
         (fun code => Return (mkStatus code [])).

(** GPIBoE transfer *)
Definition __GpiboeTransfer (fuel : nat) (self : Connection) (message : str)
  (read_response : bool) (connection_timeout : Z) : M Status :=
  let gpib_cmd :=
    py "W|" ++ str_of_opt_int (device_gpib_address self) ++ py "|" ++ message in
  status <- __TcpipTransfer fuel self gpib_cmd true connection_timeout ;;
  if negb (status_0 status =? 0)%Z then ret status
  else
    gpiboe_status <- lift (__ParseGpiboeReceiveMessage (status_1 status)) ;;
    if negb (status_0 gpiboe_status =? 0)%Z then ret gpiboe_status
    else if read_response then
      let gpib_cmd :=
        py "R|" ++ str_of_opt_int (device_gpib_address self)
        ++ message_termination_character self in
      status <- __TcpipTransfer fuel self gpib_cmd true connection_timeout ;;
      if negb (status_0 status =? 0)%Z then ret status
      else
        gpiboe_status <- lift (__ParseGpiboeReceiveMessage (status_1 status)) ;;
        ret gpiboe_status
    else ret gpiboe_status.

(** HANDLE STATUS LIST *)
Definition __HandleStatus (status : Status) : Res Status :=
  if (status_0 status =? 0)%Z then Return status
  else Raise (mkExc ConnectionError
         [AStr (py "ERROR: " ++ str_of_int (status_0 status) ++ py ", "
                ++ status_1 status)]).

(** WRITE *)
Definition write (fuel : nat) (self : Connection) (message : str)
  (connection_timeout : Z) : M Status :=
  last_char <- lift (index_last message) ;;
  let message :=
    if negb (str_eqb last_char (message_termination_character self))
    then message ++ message_termination_character self
    else message in
  status <-
    (if opt_str_eqb (connection_type self) (py "gpiboe")
     then __GpiboeTransfer fuel self message false connection_timeout
     else __TcpipTransfer fuel self message false connection_timeout) ;;
  lift (__HandleStatus status).

(** QUERY *)
Definition query (fuel : nat) (self : Connection) (message : str)
  (connection_timeout : Z) : M Status :=
  last_char <- lift (index_last message) ;;
  let message :=
    if negb (str_eqb last_char (message_termination_character self))
    then message ++ message_termination_character self
    else message in
  status <-
    (if opt_str_eqb (connection_type self) (py "gpiboe")
     then __GpiboeTransfer fuel self message true connection_timeout
     else __TcpipTransfer fuel self message true connection_timeout) ;;
  lift (__HandleStatus status).

End GenericInstrumentConnection.

(** ** Reading the log *)

(** The messages handed to the direct transfer, in order. *)
Fixpoint requests (l : list Event) : list (str * bool) :=
  match l with
  | EvTransfer m r :: l' => (m, r) :: requests l'
  | _ :: l' => requests l'
  | [] => []
  end.

(** The data handed to [sendall], in order. *)
Fixpoint sent (l : list Event) : list bytes :=
  match l with
  | EvSendall _ d :: l' => d :: sent l'
  | _ :: l' => sent l'
  | [] => []
  end.

(** The data the [recv] calls returned, in order. *)
Fixpoint received (l : list Event) : list bytes :=
  match l with
  | EvRecv _ _ (Some d) :: l' => d :: received l'
  | _ :: l' => received l'
  | [] => []
  end.

Definition socket_event (e : Event) : bool :=
  match e with
  | EvTransfer _ _ => false
  | _ => true
  end.

(** Sockets created, shut down and closed. *)
Fixpoint opened (l : list Event) : list nat :=
  match l with
  | EvSocket fd :: l' => fd :: opened l'
  | _ :: l' => opened l'
  | [] => []
  end.

Definition shut_down (fd : nat) (l : list Event) : bool :=
  existsb (fun e => match e with EvShutdown fd' => Nat.eqb fd fd' | _ => false end) l.

Definition closed (fd : nat) (l : list Event) : bool :=
  existsb (fun e => match e with EvClose fd' => Nat.eqb fd fd' | _ => false end) l.

(** ** Notions the statements use *)

Definition ends_with (t : codepoint) (s : str) : bool :=
  match rev s with
  | c :: _ => N.eqb c t
  | [] => false
  end.

(** The text up to and including the first [t]; all of it when there is
    none. *)
Fixpoint upto_first (t : codepoint) (s : str) : str :=
  match s with
  | [] => []
  | c :: s' => if N.eqb c t then [c] else c :: upto_first t s'
  end.

Fixpoint starts_with (p s : str) : bool :=
  match p, s with
  | [], _ => true
  | a :: p', b :: s' => N.eqb a b && starts_with p' s'
  | _ :: _, [] => false
  end.

(** [needle in hay] *)
Fixpoint contains (needle hay : str) : bool :=
  starts_with needle hay
  || match hay with
     | [] => false
     | _ :: hay' => contains needle hay'
     end.

(** The text of a gateway reply before its first ['|'], or all of it. *)
Definition status_field (reply : str) : str :=
  nth 0 (split1 PIPE reply) [].

(** The command with the terminator [t] at its end, once. *)
Definition terminated (t : codepoint) (message : str) : str :=
  if ends_with t message then message else message ++ [t].

(** The two frames of the gateway's protocol. *)
Definition write_frame (self : Connection) (message : str) : str :=
  py "W|" ++ str_of_opt_int (device_gpib_address self) ++ py "|" ++ message.

Definition read_frame (self : Connection) : str :=
  py "R|" ++ str_of_opt_int (device_gpib_address self)
  ++ message_termination_character self.

(** The message the transport layer hands to the direct transfer first: the
    command itself, or its Write frame. *)
Definition first_frame (self : Connection) (message : str) : str :=
  if opt_str_eqb (connection_type self) (py "gpiboe")
  then write_frame self message
  else message.

(** What one direct transfer of [message] hands to [sendall] on a connection
    that behaves as [p]: the encoded message, once [socket], [settimeout] and
    [connect] have succeeded and the message encodes; nothing otherwise. *)
Definition handed_to_sendall (p : Peer) (message : str) : list bytes :=
  match socket_fault p, settimeout_fault p, connect_fault p,
        utf8_encode message with
  | None, None, None, Some data => [data]
  | _, _, _, _ => []
  end.

(** An exception that [except Exception as err] catches and whose
    [err.args[0]] exists. *)
Definition tame (e : PyExc) : bool :=
  is_Exception (exc_class e)
  && match exc_args e with [] => false | _ :: _ => true end.

Definition tame_fault (f : option PyExc) : bool :=
  match f with
  | Some e => tame e
  | None => true
  end.

Definition tame_recv (r : PyExc + bytes) : bool :=
  match r with
  | inl e => tame e
  | inr _ => true
  end.

Definition tame_peer (p : Peer) : bool :=
  tame_fault (socket_fault p) && tame_fault (settimeout_fault p)
  && tame_fault (connect_fault p) && tame_fault (sendall_fault p)
  && forallb tame_recv (recv_script p) && tame_recv (recv_after p)
  && tame_fault (shutdown_fault p) && tame_fault (close_fault p).

(** A world all of whose scripted faults [except Exception as err] catches
    and can report. *)
Definition tame_world (w : World) : Prop :=
  forall n, tame_peer (peers w n) = true.

(** The text of the status the [except] clause returns. *)
Definition error_text (a : Arg) : str :=
  py "[ERROR] during TCPIP transfer: " ++ str_of_arg a.

(** The bytes up to and including the first [b]; all of them when there is
    none. *)
Fixpoint bytes_upto_first (b : byte) (bs : bytes) : bytes :=
  match bs with
  | [] => []
  | x :: bs' => if Byte.eqb x b then [x] else x :: bytes_upto_first b bs'
  end.

Section Selection.
Context {rt : PyRuntime}.

(** The transfer [write] and [query] select by connection type. *)
Definition transport (fuel : nat) (self : Connection) (message : str)
  (read_response : bool) (connection_timeout : Z) : M Status :=
  if opt_str_eqb (connection_type self) (py "gpiboe")
  then __GpiboeTransfer fuel self message read_response connection_timeout
  else __TcpipTransfer fuel self message read_response connection_timeout.

(** The command as [write] and [query] pass it on. *)
Definition outgoing (self : Connection) (message : str) : str :=
  match index_last message with
  | Return last_char =>
      if str_eqb last_char (message_termination_character self)
      then message
      else message ++ message_termination_character self
  | _ => message
  end.

(** The Write transfer went through and the gateway acknowledged it with
    status 0. *)
Definition accepted (ack : Res Status) : bool :=
  match ack with
  | Return st =>
      (status_0 st =? 0)%Z
      && match __ParseGpiboeReceiveMessage (status_1 st) with
         | Return g => (status_0 g =? 0)%Z
         | _ => false
         end
  | _ => false
  end.

(** The first request of a call, with the flag the transport passes. *)
Definition first_request (self : Connection) (message : str)
  (read_response : bool) : str * bool :=
  (first_frame self message,
   if opt_str_eqb (connection_type self) (py "gpiboe") then true
   else read_response).

End Selection.

(** ** Scenarios *)

Definition timed_out : PyExc := mkExc SocketTimeout [AStr (py "timed out")].

Definition interrupted : PyExc := mkExc KeyboardInterrupt [].

(** A device that accepts the connection, delivers the given data and then
    stays silent. *)
Definition answering (chunks : list bytes) : Peer :=
  mkPeer None None None None (map inr chunks) (inl timed_out) None None.

Definition newline : string := String "010" EmptyString.

Definition supply : Connection :=
  mkConnection (Some (py "tcpip")) (Some (py "192.168.0.10")) 5025 None [LF].

Definition behind_gateway : Connection :=
  mkConnection (Some (py "gpiboe")) (Some (py "192.168.0.20")) 5025
    (Some 5%Z) [LF].

Definition fresh (p : nat -> Peer) : World := mkWorld p 0 [].

(** The supply answers a measurement query with 12.500. *)
Definition w_volt : World :=
  fresh (fun _ => answering [wire ("12.500" ++ newline)]).

(** Two answer lines arrive in one segment. *)
Definition w_two_lines : World :=
  fresh (fun _ => answering [wire ("1.0" ++ newline ++ "2.0" ++ newline)]).

(** The device accepts the command and never answers. *)
Definition w_silent : World := fresh (fun _ => answering []).

(** The operator interrupts the program while it waits for the answer. *)
Definition w_interrupt : World :=
  fresh (fun _ => mkPeer None None None None [] (inl interrupted) None None).

(** The gateway acknowledges with a word instead of a number. *)
Definition w_bad_ack : World :=
  fresh (fun _ => answering [wire ("BUSY|try later" ++ newline)]).

(** The gateway's acknowledgement begins with the control character U+001C,
    a separator that is no white space for [int()]. *)
Definition w_separator_ack : World :=
  fresh (fun _ => answering [wire (String "028" ("0|" ++ newline))]).

(** No route leads to the gateway. *)
Definition unreachable : PyExc :=
  mkExc OSError [AInt 113; AStr (py "No route to host")].

Definition w_unreachable : World :=
  fresh (fun _ => mkPeer None None (Some unreachable) None []
                    (inl timed_out) None None).

(** The gateway acknowledges the write, then delivers the reading. *)
Definition w_gateway : World :=
  fresh (fun n => match n with
                  | O => answering [wire ("0|" ++ newline)]
                  | _ => answering [wire ("0|1.5" ++ newline)]
                  end).

(** The gateway reports a bus error for the write. *)
Definition w_gateway_error : World :=
  fresh (fun _ => answering [wire ("2|no listener" ++ newline)]).

(** ** Notions the proofs use *)

(** A computation that leaves the peers alone and logs socket calls only. *)
Definition quiet {A} (c : M A) : Prop :=
  forall w,
    peers (snd (c w)) = peers w
    /\ exists evs, log (snd (c w)) = log w ++ evs
                   /\ forallb socket_event evs = true.

(** A computation that keeps the peers and, in a tame world, raises tame
    exceptions only. *)
Definition safe {A} (c : M A) : Prop :=
  forall w,
    peers (snd (c w)) = peers w
    /\ (tame_world w -> forall e, fst (c w) = Raise e -> tame e = true).

Definition recv_event (e : Event) : bool :=
  match e with
  | EvRecv _ _ _ => true
  | _ => false
  end.

(** A computation indexed by the fuel of the receive loop whose outcome,
    once it is not [OutOfFuel], is the same with any larger fuel. *)
Definition stable {A} (f : nat -> M A) : Prop :=
  forall n w r w',
    f n w = (r, w') -> r <> OutOfFuel ->
    forall m, (n <= m)%nat -> f m w = (r, w').

(** ** Notions of the further properties *)

Definition prefix_of {A} (l full : list A) : Prop :=
  exists rest, full = l ++ rest.

(** A [recv] call on socket [fd] with the buffer size of the source. *)
Definition recv_on (fd : nat) (e : Event) : bool :=
  match e with
  | EvRecv fd' n _ => Nat.eqb fd fd' && (n =? 4096)%Z
  | _ => false
  end.

(** The bytes of a message, nothing when it does not encode. *)
Definition wire_data (message : str) : bytes :=
  match utf8_encode message with
  | Some d => d
  | None => []
  end.

(** The socket calls of one complete direct transfer on socket [fd], in
    the order of the source. *)
Definition full_trace (fd : nat) (self : Connection) (seconds : Z)
  (message : str) (recvs : list Event) : list Event :=
  [EvSocket fd; EvSetTimeout fd seconds;
   EvConnect fd (device_ip_address self) (device_port self);
   EvSendall fd (wire_data message)]
  ++ recvs ++ [EvShutdown fd; EvClose fd].

Definition no_fault (f : option PyExc) : bool :=
  match f with
  | None => true
  | Some _ => false
  end.

(** A peer that lets the connection come about and takes the message. *)
Definition accepts (p : Peer) : bool :=
  no_fault (socket_fault p) && no_fault (settimeout_fault p)
  && no_fault (connect_fault p) && no_fault (sendall_fault p).

(** A peer whose [shutdown] and [close] succeed as well. *)
Definition releases (p : Peer) : bool :=
  no_fault (shutdown_fault p) && no_fault (close_fault p).

(** The world once the message has been sent on a new socket. *)
Definition connected (w : World) (self : Connection) (seconds : Z)
  (data : bytes) : World :=
  mkWorld (peers w) (S (sockets w))
    (log w ++ [EvSocket (sockets w); EvSetTimeout (sockets w) seconds;
               EvConnect (sockets w) (device_ip_address self)
                 (device_port self);
               EvSendall (sockets w) data]).

(** Texts that, added one after the other to [acc], never leave it empty
    and never make it end with the terminator. *)
Fixpoint unterminated (term acc : str) (texts : list str) : Prop :=
  match texts with
  | [] => True
  | x :: texts' =>
      acc ++ x <> []
      /\ index_last (acc ++ x) <> Return term
      /\ unterminated term (acc ++ x) texts'
  end.

(** The [recv] events of the given chunks. *)
Definition recv_events (fd : nat) (chunks : list bytes) : list Event :=
  map (fun d => EvRecv fd 4096 (Some d)) chunks.

(** ** The power supply driver, [src/python3/Agilent6632B.py]

    The driver formats floats with [str()] and reads them with [float()];
    the float type and these two conversions are parameters. *)
Class PyFloat := {
  float : Type;
  (** [str(value)] *)
  str_of_float : float -> str;
  (** [float(text)], which raises when the text is no number *)
  float_of_str : str -> Res float
}.

Section Agilent6632B.
Context {rt : PyRuntime} {fl : PyFloat}.

Definition set_voltage (fuel : nat) (self : Connection) (value : float)
  : M unit :=
  write fuel self (py "VOLT " ++ str_of_float value ++ py "V") 1 ;;
  ret tt.

Definition set_current (fuel : nat) (self : Connection) (value : float)
  : M unit :=
  write fuel self (py "CURR " ++ str_of_float value ++ py "A") 1 ;;
  ret tt.

(** [value == 0] holds for [False] and fails for [True]. *)
Definition set_output_state (fuel : nat) (self : Connection) (value : bool)
  : M unit :=
  if negb value
  then write fuel self (py "OUTP 0") 1 ;; ret tt
  else write fuel self (py "OUTP 1") 1 ;; ret tt.

Definition measure_voltage (fuel : nat) (self : Connection) : M float :=
  read_data <- query fuel self (py "MEAS:VOLT?") 1 ;;
  lift (float_of_str (status_1 read_data)).

Definition measure_current (fuel : nat) (self : Connection) : M float :=
  read_data <- query fuel self (py "MEAS:CURR?") 1 ;;
  lift (float_of_str (status_1 read_data)).

End Agilent6632B.

(** Floats stood for by their text, for the scenarios. *)
Definition textual_floats : PyFloat := {|
  float := str;
  str_of_float := fun x => x;
  float_of_str := fun s => Return s
|}.

(** ** Further scenarios *)

(** The device closes the connection without an answer. *)
Definition w_closed : World :=
  fresh (fun _ => mkPeer None None None None [] (inr []) None None).

(** The device sends a reading without terminator and closes. *)
Definition w_cut_off : World :=
  fresh (fun _ => mkPeer None None None None [inr (wire "12.5")] (inr [])
                    None None).

(** The reading arrives in two segments. *)
Definition w_split : World :=
  fresh (fun _ => answering [wire "12."; wire ("500" ++ newline)]).

(** The device sends the identification query back. *)
Definition w_echo : World :=
  fresh (fun _ => answering [wire ("*IDN?" ++ newline)]).

(** A check of ASCII text that computes. *)
Definition is_ascii (s : str) : bool := forallb (fun c => N.ltb c 128) s.

(** * Properties *)

Unset Implicit Arguments.

Section Properties.
Context {rt : PyRuntime}.

(** ** Text helpers *)

Lemma str_eqb_eq a b : str_eqb a b = true <-> a = b.
Proof.
  unfold str_eqb; destruct (list_eq_dec N.eq_dec a b); split; congruence.
Qed.

Lemma str_eqb_refl a : str_eqb a a = true.
Proof. now apply str_eqb_eq. Qed.

Lemma str_eqb_neq a b : str_eqb a b = false <-> a <> b.
Proof.
  unfold str_eqb; destruct (list_eq_dec N.eq_dec a b); split; congruence.
Qed.

Lemma opt_str_eqb_eq k s : opt_str_eqb k s = true <-> k = Some s.
Proof.
  destruct k as [x|]; simpl.
  - rewrite str_eqb_eq; split; congruence.
  - split; discriminate.
Qed.

Lemma opt_str_eqb_neq k s : opt_str_eqb k s = false <-> k <> Some s.
Proof.
  rewrite <- opt_str_eqb_eq. destruct (opt_str_eqb k s); split; congruence.
Qed.

Lemma index_last_snoc s c : index_last (s ++ [c]) = Return [c].
Proof. unfold index_last. now rewrite rev_app_distr. Qed.

Lemma index_last_nonempty s :
  s <> [] -> exists c, index_last s = Return [c] /\ ends_with c s = true.
Proof.
  intros Hs. destruct (exists_last Hs) as (s' & c & ->).
  exists c. split; [apply index_last_snoc|].
  unfold ends_with. rewrite rev_app_distr. simpl. apply N.eqb_refl.
Qed.

Lemma ends_with_snoc t s c : ends_with t (s ++ [c]) = N.eqb c t.
Proof. unfold ends_with. now rewrite rev_app_distr. Qed.

Lemma index_last_ends_with s c t :
  index_last s = Return [c] -> ends_with t s = N.eqb c t.
Proof.
  unfold index_last, ends_with. destruct (rev s); [discriminate|].
  now intros [= ->].
Qed.

(** ** Construction *)

Lemma ValidateGpibAddress_range a :
  __ValidateGpibAddress (Some a)
  = Return (if ((1 <=? a) && (a <=? 30))%Z then 1%Z else 0%Z).
Proof.
  unfold __ValidateGpibAddress. rewrite Z.geb_leb.
  now destruct ((1 <=? a) && (a <=? 30))%Z.
Qed.

(** C4. The constructor touches no socket; it returns exactly for the kind
    ['tcpip'] (whatever the GPIB address) and for the kind ['gpiboe'] with a
    GPIB address between 1 and 30; every other kind raises the
    [AttributeError] of an unsupported connection type, and a gateway
    address outside 1..30 raises the [ValueError] of the range check, so 1
    and 30 are accepted and 0 and 31 refused; a gateway without an address
    fails in the comparison, with a [TypeError]. *)
Theorem construction_validates
  (kind ip : option str) (gpib : option Z) (w : World) :
  snd (__init__ kind ip gpib w) = w
  /\ (returns (fst (__init__ kind ip gpib w)) = true <->
      kind = Some (py "tcpip")
      \/ (kind = Some (py "gpiboe")
          /\ exists a, gpib = Some a /\ (1 <= a <= 30)%Z))
  /\ (forall c, fst (__init__ kind ip gpib w) = Return c ->
                c = mkConnection kind ip 5025 gpib [LF])
  /\ (kind <> Some (py "tcpip") -> kind <> Some (py "gpiboe") ->
      raises_class AttributeError (fst (__init__ kind ip gpib w)))
  /\ (forall a, (a < 1 \/ 30 < a)%Z ->
        raises_class ValueError
          (fst (__init__ (Some (py "gpiboe")) ip (Some a) w)))
  /\ returns (fst (__init__ (Some (py "gpiboe")) ip (Some 1%Z) w)) = true
  /\ returns (fst (__init__ (Some (py "gpiboe")) ip (Some 30%Z) w)) = true
  /\ raises_class ValueError (fst (__init__ (Some (py "gpiboe")) ip (Some 0%Z) w))
  /\ raises_class ValueError (fst (__init__ (Some (py "gpiboe")) ip (Some 31%Z) w))
  /\ raises_class TypeError (fst (__init__ (Some (py "gpiboe")) ip None w)).
Proof.
  assert (Hout : forall a, (a < 1 \/ 30 < a)%Z ->
            raises_class ValueError
              (fst (__init__ (Some (py "gpiboe")) ip (Some a) w))).
  { intros a Ha. unfold __init__, bind, lift, raise, ret.
    replace (opt_str_eqb (Some (py "gpiboe")) (py "tcpip")) with false
      by reflexivity.
    replace (opt_str_eqb (Some (py "gpiboe")) (py "gpiboe")) with true
      by reflexivity.
    cbn [negb orb]. rewrite ValidateGpibAddress_range.
    replace ((1 <=? a) && (a <=? 30))%Z with false by lia.
    cbn. now eexists. }
  repeat apply conj.
  - unfold __init__, bind, lift, raise, ret.
    destruct (opt_str_eqb kind (py "tcpip")) eqn:Ht;
      destruct (opt_str_eqb kind (py "gpiboe")) eqn:Hg; cbn [negb orb]; auto;
      destruct gpib as [a|]; cbn; auto;
      destruct ((a >=? 1) && (a <=? 30))%Z; cbn; auto.
  - unfold __init__, bind, lift, raise, ret.
    destruct (opt_str_eqb kind (py "tcpip")) eqn:Ht;
      destruct (opt_str_eqb kind (py "gpiboe")) eqn:Hg; cbn [negb orb].
    + apply opt_str_eqb_eq in Ht. auto.
    + apply opt_str_eqb_eq in Ht. auto.
    + apply opt_str_eqb_eq in Hg. subst kind.
      destruct gpib as [a|]; [|discriminate].
      rewrite ValidateGpibAddress_range.
      destruct ((1 <=? a) && (a <=? 30))%Z eqn:Hr; cbn; [|discriminate].
      intros _. right. split; [reflexivity|]. exists a. split; [reflexivity|lia].
    + discriminate.
  - intros [->|(-> & a & -> & Ha)].
    + reflexivity.
    + unfold __init__, bind, lift, raise, ret.
      replace (opt_str_eqb (Some (py "gpiboe")) (py "tcpip")) with false
        by reflexivity.
      replace (opt_str_eqb (Some (py "gpiboe")) (py "gpiboe")) with true
        by reflexivity.
      cbn [negb orb]. rewrite ValidateGpibAddress_range.
      replace ((1 <=? a) && (a <=? 30))%Z with true by lia.
      reflexivity.
  - unfold __init__, bind, lift, raise, ret. intros c.
    destruct (opt_str_eqb kind (py "tcpip")) eqn:Ht;
      destruct (opt_str_eqb kind (py "gpiboe")) eqn:Hg; cbn [negb orb];
      try discriminate;
      try (destruct gpib as [a|]; [rewrite ValidateGpibAddress_range|];
           cbn; try discriminate;
           destruct ((1 <=? a) && (a <=? 30))%Z; cbn; try discriminate);
      now intros [= <-].
  - intros Ht Hg. apply opt_str_eqb_neq in Ht, Hg.
    unfold __init__, raise. rewrite Ht, Hg. cbn. now eexists.
  - exact Hout.
  - reflexivity.
  - reflexivity.
  - apply Hout; lia.
  - apply Hout; lia.
  - now eexists.
Qed.

(** ** Reading the log: what the transport adds to it *)

Lemma requests_app l1 l2 : requests (l1 ++ l2) = requests l1 ++ requests l2.
Proof.
  induction l1 as [|e l1 IH]; [reflexivity|].
  destruct e; simpl; now rewrite ?IH.
Qed.

Lemma requests_socket_events evs :
  forallb socket_event evs = true -> requests evs = [].
Proof.
  induction evs as [|e evs IH]; [reflexivity|].
  simpl. intros H. apply andb_true_iff in H as [He H].
  destruct e; try discriminate; auto.
Qed.

Lemma quiet_ret {A} (a : A) : quiet (ret a).
Proof. intros w. split; [reflexivity|]. exists []. now rewrite app_nil_r. Qed.

Lemma quiet_lift {A} (r : Res A) : quiet (lift r).
Proof. intros w. split; [reflexivity|]. exists []. now rewrite app_nil_r. Qed.

Lemma quiet_out_of_fuel {A} : quiet (@out_of_fuel A).
Proof. intros w. split; [reflexivity|]. exists []. now rewrite app_nil_r. Qed.

Lemma quiet_bind {A B} (c : M A) (k : A -> M B) :
  quiet c -> (forall a, quiet (k a)) -> quiet (bind c k).
Proof.
  intros Hc Hk w. unfold bind.
  destruct (Hc w) as (Hp & evs & Hl & Hs).
  destruct (c w) as [[a| |] w1]; simpl in *.
  - destruct (Hk a w1) as (Hp' & evs' & Hl' & Hs').
    split; [congruence|]. exists (evs ++ evs').
    rewrite Hl', Hl, app_assoc, forallb_app, Hs, Hs'. auto.
  - split; [assumption|]. now exists evs.
  - split; [assumption|]. now exists evs.
Qed.

Lemma quiet_try {A} (body : M A) (handler : PyExc -> M A) :
  quiet body -> (forall e, quiet (handler e)) ->
  quiet (try_except_Exception body handler).
Proof.
  intros Hb Hh w. unfold try_except_Exception.
  destruct (Hb w) as (Hp & evs & Hl & Hs).
  destruct (body w) as [[a|e|] w1]; simpl in *.
  - split; [assumption|]. now exists evs.
  - destruct (is_Exception (exc_class e)).
    + destruct (Hh e w1) as (Hp' & evs' & Hl' & Hs').
      split; [congruence|]. exists (evs ++ evs').
      rewrite Hl', Hl, app_assoc, forallb_app, Hs, Hs'. auto.
    + split; [assumption|]. now exists evs.
  - split; [assumption|]. now exists evs.
Qed.

Lemma quiet_socket_call fd ev fault :
  socket_event ev = true -> quiet (socket_call fd ev fault).
Proof.
  intros He w. split; [reflexivity|]. exists [ev]. simpl. now rewrite He.
Qed.

Lemma quiet_socket_socket : quiet socket_socket.
Proof.
  intros w. unfold socket_socket.
  destruct (socket_fault (peers w (sockets w))); simpl;
    (split; [reflexivity|]); now exists [EvSocket (sockets w)].
Qed.

Lemma quiet_recv fd n : quiet (recv fd n).
Proof.
  intros w. unfold recv.
  destruct (nth _ _ _) as [e|d]; simpl; (split; [reflexivity|]);
    eexists [_]; split; reflexivity.
Qed.

Create HintDb quiet.
#[local] Hint Resolve quiet_ret quiet_lift quiet_out_of_fuel quiet_bind
  quiet_try quiet_socket_call quiet_socket_socket quiet_recv : quiet.

Lemma quiet_recv_loop fuel self fd acc : quiet (recv_loop fuel self fd acc).
Proof.
  revert acc. induction fuel as [|fuel IH]; intros acc; simpl.
  - apply quiet_out_of_fuel.
  - apply quiet_bind; [apply quiet_recv|]. intros b.
    apply quiet_bind; [apply quiet_lift|]. intros s.
    apply quiet_bind; [apply quiet_lift|]. intros c.
    destruct (str_eqb _ _); auto with quiet.
Qed.

Lemma quiet_TcpipTransfer_try fuel self message rr t :
  quiet (TcpipTransfer_try fuel self message rr t).
Proof.
  unfold TcpipTransfer_try, settimeout, connect, sendall, shutdown, close.
  repeat (apply quiet_bind; [|intros ?]);
    try (destruct rr); auto using quiet_recv_loop with quiet.
Qed.

Lemma quiet_TcpipTransfer_except e : quiet (TcpipTransfer_except e).
Proof. unfold TcpipTransfer_except. auto with quiet. Qed.

(** The direct transfer logs its request, then socket calls only. *)
Lemma TcpipTransfer_log fuel self message rr t w :
  peers (snd (__TcpipTransfer fuel self message rr t w)) = peers w
  /\ exists evs,
       log (snd (__TcpipTransfer fuel self message rr t w))
       = log w ++ EvTransfer message rr :: evs
       /\ forallb socket_event evs = true.
Proof.
  unfold __TcpipTransfer.
  destruct (quiet_try _ _ (quiet_TcpipTransfer_try fuel self message rr t)
              quiet_TcpipTransfer_except (emit (EvTransfer message rr) w))
    as (Hp & evs & Hl & Hs).
  split; [exact Hp|]. exists evs. split; [|exact Hs].
  rewrite Hl. simpl. now rewrite <- app_assoc.
Qed.

Lemma TcpipTransfer_requests fuel self message rr t w :
  requests (log (snd (__TcpipTransfer fuel self message rr t w)))
  = requests (log w) ++ [(message, rr)].
Proof.
  destruct (TcpipTransfer_log fuel self message rr t w) as (_ & evs & -> & Hs).
  rewrite requests_app. simpl. now rewrite (requests_socket_events _ Hs).
Qed.

(** ** Fuel

    The fuel bounds the iterations of the receive loop and nothing else: an
    outcome other than [OutOfFuel] is the outcome with any larger fuel. *)

Lemma stable_const {A} (c : M A) : stable (fun _ => c).
Proof. intros n w r w' H _ m _. exact H. Qed.

Lemma stable_bind {A B} (f : nat -> M A) (k : A -> nat -> M B) :
  stable f -> (forall a, stable (k a)) ->
  stable (fun n => bind (f n) (fun a => k a n)).
Proof.
  intros Hf Hk n w r w' H Hr m Hm. unfold bind in *.
  destruct (f n w) as [[a|e|] w1] eqn:E.
  - rewrite (Hf n w _ _ E ltac:(discriminate) m Hm).
    exact (Hk a n w1 r w' H Hr m Hm).
  - rewrite (Hf n w _ _ E ltac:(discriminate) m Hm). exact H.
  - injection H as <- <-. now contradiction Hr.
Qed.

Lemma stable_try {A} (f : nat -> M A) (h : PyExc -> M A) :
  stable f -> stable (fun n => try_except_Exception (f n) h).
Proof.
  intros Hf n w r w' H Hr m Hm. unfold try_except_Exception in *.
  destruct (f n w) as [[a|e|] w1] eqn:E.
  - now rewrite (Hf n w _ _ E ltac:(discriminate) m Hm).
  - now rewrite (Hf n w _ _ E ltac:(discriminate) m Hm).
  - injection H as <- <-. now contradiction Hr.
Qed.

Lemma stable_recv_loop self fd acc :
  stable (fun n => recv_loop n self fd acc).
Proof.
  intros n. revert acc.
  induction n as [|n IH]; intros acc w r w' H Hr m Hm; simpl in H.
  - injection H as <- <-. now contradiction Hr.
  - destruct m as [|m]; [lia|]. simpl. unfold bind in *.
    destruct (recv fd 4096 w) as [[b|e|] w1]; try exact H.
    destruct (lift (decode b) w1) as [[s|e|] w2]; try exact H.
    destruct (lift (index_last (acc ++ s)) w2) as [[c|e|] w3]; try exact H.
    destruct (str_eqb c (message_termination_character self)); [exact H|].
    apply (IH _ _ _ _ H Hr). lia.
Qed.

Lemma stable_TcpipTransfer self message rr T :
  stable (fun n => __TcpipTransfer n self message rr T).
Proof.
  intros n w r w' H Hr m Hm. unfold __TcpipTransfer in *.
  refine (stable_try
            (fun n => TcpipTransfer_try n self message rr T) _ _
            n _ r w' H Hr m Hm).
  unfold TcpipTransfer_try.
  apply (stable_bind (fun _ => socket_socket)); [apply stable_const|].
  intros fd.
  apply (stable_bind (fun _ => settimeout fd T)); [apply stable_const|].
  intros _.
  apply (stable_bind (fun _ => connect fd _ _)); [apply stable_const|].
  intros _.
  apply (stable_bind (fun _ => lift (encode message))); [apply stable_const|].
  intros data.
  apply (stable_bind (fun _ => sendall fd data)); [apply stable_const|].
  intros _.
  apply (stable_bind
           (fun n => if rr then recv_loop n self fd [] else ret []));
    [destruct rr; [apply stable_recv_loop|apply stable_const]|].
  intros s. apply stable_const.
Qed.

Lemma stable_GpiboeTransfer self message rr T :
  stable (fun n => __GpiboeTransfer n self message rr T).
Proof.
  unfold __GpiboeTransfer.
  apply (stable_bind (fun n => __TcpipTransfer n self _ true T));
    [apply stable_TcpipTransfer|].
  intros st. destruct (negb (status_0 st =? 0)%Z); [apply stable_const|].
  apply (stable_bind (fun _ => lift (__ParseGpiboeReceiveMessage _)));
    [apply stable_const|].
  intros g. destruct (negb (status_0 g =? 0)%Z); [apply stable_const|].
  destruct rr; [|apply stable_const].
  apply (stable_bind (fun n => __TcpipTransfer n self _ true T));
    [apply stable_TcpipTransfer|].
  intros st2. apply stable_const.
Qed.

(** [write] and [query] do not depend on the fuel once they come to an
    end. *)
Lemma stable_write_query self message T :
  stable (fun n => write n self message T)
  /\ stable (fun n => query n self message T).
Proof.
  split; unfold write, query.
  - apply (stable_bind (fun _ => lift (index_last message)));
      [apply stable_const|].
    intros c.
    apply (stable_bind
             (fun n => if opt_str_eqb (connection_type self) (py "gpiboe")
                       then __GpiboeTransfer n self _ false T
                       else __TcpipTransfer n self _ false T)).
    + destruct (opt_str_eqb _ _);
        [apply stable_GpiboeTransfer|apply stable_TcpipTransfer].
    + intros st. apply stable_const.
  - apply (stable_bind (fun _ => lift (index_last message)));
      [apply stable_const|].
    intros c.
    apply (stable_bind
             (fun n => if opt_str_eqb (connection_type self) (py "gpiboe")
                       then __GpiboeTransfer n self _ true T
                       else __TcpipTransfer n self _ true T)).
    + destruct (opt_str_eqb _ _);
        [apply stable_GpiboeTransfer|apply stable_TcpipTransfer].
    + intros st. apply stable_const.
Qed.


(** ** The gateway transfer *)

(** The requests a gateway transfer adds: the Write frame, then the Read
    frame exactly when the write was accepted and a response is wanted. *)
Lemma GpiboeTransfer_requests fuel self message rr t w :
  requests (log (snd (__GpiboeTransfer fuel self message rr t w)))
  = requests (log w)
    ++ (write_frame self message, true)
       :: (if accepted
                (fst (__TcpipTransfer fuel self (write_frame self message)
                        true t w)) && rr
           then [(read_frame self, true)] else []).
Proof.
  unfold __GpiboeTransfer, bind, lift, ret.
  fold (write_frame self message). fold (read_frame self).
  pose proof (TcpipTransfer_requests fuel self (write_frame self message)
                true t w) as H1.
  destruct (__TcpipTransfer fuel self (write_frame self message) true t w)
    as [[st| |] w1]; simpl in *; try exact H1.
  destruct (status_0 st =? 0)%Z; simpl; [|exact H1].
  destruct (__ParseGpiboeReceiveMessage (status_1 st)) as [g| |];
    simpl; try exact H1.
  destruct (status_0 g =? 0)%Z; simpl; [|exact H1].
  destruct rr; simpl; [|exact H1].
  pose proof (TcpipTransfer_requests fuel self (read_frame self) true t w1)
    as H2.
  assert (Hw : requests (log (snd
            (let (r, w') := __TcpipTransfer fuel self (read_frame self) true t w1 in
             (r, w')))) = requests (log w) ++
            [(write_frame self message, true); (read_frame self, true)]).
  { destruct (__TcpipTransfer fuel self (read_frame self) true t w1).
    simpl in *. rewrite H2, H1, <- app_assoc. reflexivity. }
  destruct (__TcpipTransfer fuel self (read_frame self) true t w1)
    as [[st2| |] w2]; simpl in *; try exact Hw.
  destruct (status_0 st2 =? 0)%Z; simpl; [|exact Hw].
  destruct (__ParseGpiboeReceiveMessage (status_1 st2)); exact Hw.
Qed.

(** ** What goes out on the wire *)

Lemma recv_loop_log fuel self fd acc w :
  peers (snd (recv_loop fuel self fd acc w)) = peers w
  /\ sockets (snd (recv_loop fuel self fd acc w)) = sockets w
  /\ exists evs,
       log (snd (recv_loop fuel self fd acc w)) = log w ++ evs
       /\ forallb recv_event evs = true.
Proof.
  revert acc w. induction fuel as [|fuel IH]; intros acc w; simpl.
  - repeat split. exists []. now rewrite app_nil_r.
  - unfold bind, recv, lift, ret.
    destruct (nth _ _ _) as [e|d]; simpl.
    + repeat split. now eexists [_].
    + destruct (decode d) as [s|e|]; simpl;
        try (repeat split; now eexists [_]).
      destruct (index_last (acc ++ s)) as [c|e|]; simpl;
        try (repeat split; now eexists [_]).
      destruct (str_eqb c (message_termination_character self)); simpl;
        try (repeat split; now eexists [_]).
      destruct (IH (acc ++ s) (emit (EvRecv fd 4096 (Some d)) w))
        as (Hp & Hs & evs & Hl & He).
      split; [exact Hp|]. split; [exact Hs|].
      exists (EvRecv fd 4096 (Some d) :: evs). rewrite Hl. simpl.
      rewrite <- app_assoc. auto.
Qed.

Lemma sent_app l1 l2 : sent (l1 ++ l2) = sent l1 ++ sent l2.
Proof.
  induction l1 as [|e l1 IH]; [reflexivity|].
  destruct e; simpl; now rewrite ?IH.
Qed.

Lemma sent_recv_events evs : forallb recv_event evs = true -> sent evs = [].
Proof.
  induction evs as [|e evs IH]; [reflexivity|].
  simpl. intros H. apply andb_true_iff in H as [He H].
  destruct e; try discriminate; auto.
Qed.

Ltac sent_simpl := rewrite ?sent_app; simpl; rewrite ?app_nil_r.

(** The [try] block hands [sendall] the encoded message, once, or nothing;
    when it returns it has handed it over. *)
Lemma TcpipTransfer_try_sent fuel self message rr T w :
  exists l,
    sent (log (snd (TcpipTransfer_try fuel self message rr T w)))
    = sent (log w) ++ l
    /\ (l = [] \/ exists data, encode message = Return data /\ l = [data])
    /\ (returns (fst (TcpipTransfer_try fuel self message rr T w)) = true ->
        exists data, encode message = Return data /\ l = [data]).
Proof.
  unfold TcpipTransfer_try, bind, socket_socket, settimeout, connect, sendall,
    shutdown, close, socket_call, lift, ret.
  destruct (socket_fault (peers w (sockets w))); simpl;
    [exists []; sent_simpl; split; [reflexivity|split; [auto|discriminate]]|].
  destruct (settimeout_fault (peers w (sockets w))); simpl;
    [exists []; sent_simpl; split; [reflexivity|split; [auto|discriminate]]|].
  destruct (connect_fault (peers w (sockets w))); simpl;
    [exists []; sent_simpl; split; [reflexivity|split; [auto|discriminate]]|].
  destruct (encode message) as [data|e|]; simpl;
    try (exists []; sent_simpl; split;
         [reflexivity|split; [auto|discriminate]]).
  destruct (sendall_fault (peers w (sockets w))); simpl;
    [exists [data]; sent_simpl; split;
       [reflexivity|split; [eauto|discriminate]]|].
  set (w4 := emit _ (emit _ (emit _ (mkWorld _ _ _)))).
  assert (H4 : sent (log w4) = sent (log w) ++ [data]).
  { subst w4. simpl. rewrite !sent_app. simpl. now rewrite !app_nil_r. }
  clearbody w4.
  assert (Hdone : exists d, Return data = Return d /\ [data] = [d])
    by (now exists data).
  destruct rr.
  - destruct (recv_loop_log fuel self (sockets w) [] w4)
      as (_ & _ & evs & Hl & He).
    apply sent_recv_events in He.
    destruct (recv_loop fuel self (sockets w) [] w4) as [[s|e|] w5];
      simpl in *.
    + exists [data].
      destruct (fail_or_unit (shutdown_fault (peers w5 (sockets w))));
        [destruct (fail_or_unit (close_fault (peers w5 (sockets w))))| |];
        simpl; rewrite ?sent_app, Hl, sent_app, He, H4; simpl;
        rewrite ?app_nil_r; auto.
    + exists [data]. rewrite Hl, sent_app, He, H4, app_nil_r. auto.
    + exists [data]. rewrite Hl, sent_app, He, H4, app_nil_r. auto.
  - exists [data]. simpl.
    destruct (fail_or_unit (shutdown_fault (peers w4 (sockets w))));
      [destruct (fail_or_unit (close_fault (peers w4 (sockets w))))| |];
      simpl; rewrite ?sent_app, H4; simpl; rewrite ?app_nil_r; auto.
Qed.

Lemma TcpipTransfer_sent fuel self message rr T w :
  exists l,
    sent (log (snd (__TcpipTransfer fuel self message rr T w)))
    = sent (log w) ++ l
    /\ (l = [] \/ exists data, encode message = Return data /\ l = [data])
    /\ (forall st, fst (__TcpipTransfer fuel self message rr T w) = Return st ->
          status_0 st = 0%Z ->
          exists data, encode message = Return data /\ l = [data]).
Proof.
  destruct (TcpipTransfer_try_sent fuel self message rr T
              (emit (EvTransfer message rr) w)) as (l & Hl & Hshape & Hret).
  exists l. unfold __TcpipTransfer, try_except_Exception.
  assert (Hw : sent (log (emit (EvTransfer message rr) w)) = sent (log w)).
  { simpl. rewrite sent_app. simpl. apply app_nil_r. }
  rewrite Hw in Hl.
  destruct (TcpipTransfer_try fuel self message rr T
              (emit (EvTransfer message rr) w)) as [[st0|err|] w0];
    simpl in *.
  - split; [exact Hl|]. split; [exact Hshape|]. intros _ _ _. now apply Hret.
  - destruct (is_Exception (exc_class err)); simpl.
    + unfold TcpipTransfer_except, bind, lift, ret.
      destruct (args_0 err); simpl;
        (split; [exact Hl|]); (split; [exact Hshape|]);
        intros st; try discriminate.
      intros [= <-]. discriminate.
    + split; [exact Hl|]. split; [exact Hshape|]. discriminate.
  - split; [exact Hl|]. split; [exact Hshape|]. discriminate.
Qed.

(** On the wire a gateway transfer puts the encoded Write frame, then the
    encoded Read frame, each at most once, the second only after an accepted
    write when a response is expected. *)
Lemma GpiboeTransfer_sent fuel self message rr T w :
  exists l,
    sent (log (snd (__GpiboeTransfer fuel self message rr T w)))
    = sent (log w) ++ l
    /\ (l = []
        \/ exists dW,
             encode (write_frame self message) = Return dW
             /\ (l = [dW]
                 \/ exists dR,
                      encode (read_frame self) = Return dR
                      /\ l = [dW; dR]
                      /\ accepted
                           (fst (__TcpipTransfer fuel self
                                   (write_frame self message) true T w))
                         && rr = true)).
Proof.
  unfold __GpiboeTransfer, bind, lift, ret.
  fold (write_frame self message). fold (read_frame self).
  destruct (TcpipTransfer_sent fuel self (write_frame self message) true T w)
    as (l1 & H1 & Hs1 & Hok1).
  assert (Hone : l1 = []
            \/ exists dW,
                 encode (write_frame self message) = Return dW
                 /\ (l1 = [dW]
                     \/ exists dR,
                          encode (read_frame self) = Return dR
                          /\ l1 = [dW; dR]
                          /\ accepted
                               (fst (__TcpipTransfer fuel self
                                       (write_frame self message) true T w))
                             && rr = true)).
  { destruct Hs1 as [->|(dW & HW & ->)]; [now left|right; eauto]. }
  destruct (__TcpipTransfer fuel self (write_frame self message) true T w)
    as [[st| |] w1]; simpl in *; try (exists l1; now split).
  destruct (status_0 st =? 0)%Z eqn:E0; simpl; [|exists l1; now split].
  destruct (__ParseGpiboeReceiveMessage (status_1 st)) as [g| |];
    simpl; try (exists l1; now split).
  destruct (status_0 g =? 0)%Z; simpl; [|exists l1; now split].
  destruct rr; simpl; [|exists l1; now split].
  destruct (Hok1 st eq_refl (proj1 (Z.eqb_eq _ _) E0)) as (dW & HW & ->).
  destruct (TcpipTransfer_sent fuel self (read_frame self) true T w1)
    as (l2 & H2 & Hs2 & _).
  exists ([dW] ++ l2). split.
  - rewrite app_assoc, <- H1.
    destruct (__TcpipTransfer fuel self (read_frame self) true T w1)
      as [[st2| |] w2]; simpl in *; try exact H2.
    destruct (status_0 st2 =? 0)%Z; simpl; [|exact H2].
    destruct (__ParseGpiboeReceiveMessage (status_1 st2)); exact H2.
  - right. exists dW. split; [exact HW|].
    destruct Hs2 as [->|(dR & HR & ->)]; [now left|].
    right. exists dR. auto.
Qed.

(** The [try] block hands [sendall] the encoded message exactly when the
    three calls before it succeed and the message encodes. *)
Lemma TcpipTransfer_try_wire fuel self message rr T w :
  sent (log (snd (TcpipTransfer_try fuel self message rr T w)))
  = sent (log w) ++ handed_to_sendall (peers w (sockets w)) message
  /\ sockets (snd (TcpipTransfer_try fuel self message rr T w))
     = S (sockets w).
Proof.
  unfold TcpipTransfer_try, handed_to_sendall, bind, socket_socket,
    settimeout, connect, sendall, shutdown, close, socket_call, lift, ret,
    encode.
  destruct (socket_fault (peers w (sockets w))); simpl;
    [sent_simpl; split; reflexivity|].
  destruct (settimeout_fault (peers w (sockets w))); simpl;
    [sent_simpl; split; reflexivity|].
  destruct (connect_fault (peers w (sockets w))); simpl;
    [sent_simpl; split; reflexivity|].
  destruct (utf8_encode message) as [data|]; simpl;
    [|sent_simpl; split; reflexivity].
  destruct (sendall_fault (peers w (sockets w))); simpl;
    [sent_simpl; split; reflexivity|].
  set (w4 := emit _ (emit _ (emit _ (mkWorld _ _ _)))).
  assert (H4 : sent (log w4) = sent (log w) ++ [data]).
  { subst w4. simpl. rewrite !sent_app. simpl. now rewrite !app_nil_r. }
  assert (Hs4 : sockets w4 = S (sockets w)) by reflexivity.
  clearbody w4.
  destruct rr.
  - destruct (recv_loop_log fuel self (sockets w) [] w4)
      as (_ & Hs5 & evs & Hl & He).
    apply sent_recv_events in He.
    destruct (recv_loop fuel self (sockets w) [] w4) as [[s|e|] w5];
      simpl in *.
    + destruct (fail_or_unit (shutdown_fault (peers w5 (sockets w))));
        [destruct (fail_or_unit (close_fault (peers w5 (sockets w))))| |];
        simpl; rewrite ?sent_app, Hl, sent_app, He, H4, Hs5, Hs4; simpl;
        rewrite ?app_nil_r; split; reflexivity.
    + rewrite Hl, sent_app, He, H4, app_nil_r, Hs5, Hs4. split; reflexivity.
    + rewrite Hl, sent_app, He, H4, app_nil_r, Hs5, Hs4. split; reflexivity.
  - simpl.
    destruct (fail_or_unit (shutdown_fault (peers w4 (sockets w))));
      [destruct (fail_or_unit (close_fault (peers w4 (sockets w))))| |];
      simpl; rewrite ?sent_app, H4, Hs4; simpl; rewrite ?app_nil_r;
      split; reflexivity.
Qed.

(** So does the direct transfer, on the next connection of the world. *)
Lemma TcpipTransfer_wire fuel self message rr T w :
  sent (log (snd (__TcpipTransfer fuel self message rr T w)))
  = sent (log w) ++ handed_to_sendall (peers w (sockets w)) message
  /\ sockets (snd (__TcpipTransfer fuel self message rr T w)) = S (sockets w)
  /\ peers (snd (__TcpipTransfer fuel self message rr T w)) = peers w.
Proof.
  split; [|split; [|apply TcpipTransfer_log]].
  - destruct (TcpipTransfer_try_wire fuel self message rr T
                (emit (EvTransfer message rr) w)) as [Hl _].
    assert (Hw : sent (log (emit (EvTransfer message rr) w)) = sent (log w)).
    { simpl. rewrite sent_app. simpl. apply app_nil_r. }
    rewrite Hw in Hl. simpl in Hl.
    unfold __TcpipTransfer, try_except_Exception.
    destruct (TcpipTransfer_try fuel self message rr T
                (emit (EvTransfer message rr) w)) as [[st0|err|] w0];
      simpl in *; try exact Hl.
    destruct (is_Exception (exc_class err)); simpl; [|exact Hl].
    unfold TcpipTransfer_except, bind, lift, ret.
    destruct (args_0 err); exact Hl.
  - destruct (TcpipTransfer_try_wire fuel self message rr T
                (emit (EvTransfer message rr) w)) as [_ Hs].
    simpl in Hs.
    unfold __TcpipTransfer, try_except_Exception.
    destruct (TcpipTransfer_try fuel self message rr T
                (emit (EvTransfer message rr) w)) as [[st0|err|] w0];
      simpl in *; try exact Hs.
    destruct (is_Exception (exc_class err)); simpl; [|exact Hs].
    unfold TcpipTransfer_except, bind, lift, ret.
    destruct (args_0 err); exact Hs.
Qed.

(** A direct transfer that returned status 0 has handed its message to
    [sendall]. *)
Lemma TcpipTransfer_wire_done fuel self message rr T w st :
  fst (__TcpipTransfer fuel self message rr T w) = Return st ->
  status_0 st = 0%Z ->
  exists data,
    encode message = Return data
    /\ handed_to_sendall (peers w (sockets w)) message = [data].
Proof.
  intros Hr H0.
  destruct (TcpipTransfer_sent fuel self message rr T w)
    as (l & Hl & _ & Hdone).
  destruct (Hdone st Hr H0) as (data & He & ->).
  exists data. split; [exact He|].
  destruct (TcpipTransfer_wire fuel self message rr T w) as [Hw _].
  rewrite Hw in Hl. now apply app_inv_head in Hl.
Qed.

(** On the wire a gateway transfer puts what its Write transfer hands to
    [sendall] and then, after an accepted write when a response is expected,
    what its Read transfer does, on the connection after. *)
Lemma GpiboeTransfer_wire fuel self message rr T w :
  sent (log (snd (__GpiboeTransfer fuel self message rr T w)))
  = sent (log w)
    ++ handed_to_sendall (peers w (sockets w)) (write_frame self message)
    ++ (if accepted
             (fst (__TcpipTransfer fuel self (write_frame self message)
                     true T w)) && rr
        then handed_to_sendall (peers w (S (sockets w))) (read_frame self)
        else []).
Proof.
  unfold __GpiboeTransfer, bind, lift, ret.
  fold (write_frame self message). fold (read_frame self).
  destruct (TcpipTransfer_wire fuel self (write_frame self message) true T w)
    as (H1 & Hs1 & Hp1).
  destruct (__TcpipTransfer fuel self (write_frame self message) true T w)
    as [[st| |] w1]; simpl in *; try (now rewrite app_nil_r).
  destruct (status_0 st =? 0)%Z; simpl; [|now rewrite app_nil_r].
  destruct (__ParseGpiboeReceiveMessage (status_1 st)) as [g| |];
    simpl; try (now rewrite app_nil_r).
  destruct (status_0 g =? 0)%Z; simpl; [|now rewrite app_nil_r].
  destruct rr; simpl; [|now rewrite app_nil_r].
  destruct (TcpipTransfer_wire fuel self (read_frame self) true T w1)
    as (H2 & _ & _).
  rewrite H1, Hs1, Hp1, <- app_assoc in H2.
  destruct (__TcpipTransfer fuel self (read_frame self) true T w1)
    as [[st2| |] w2]; simpl in *; try exact H2.
  destruct (status_0 st2 =? 0)%Z; simpl; [|exact H2].
  destruct (__ParseGpiboeReceiveMessage (status_1 st2)); exact H2.
Qed.

(** C3. A gateway transfer hands the direct transport the Write frame
    ["W|" + address + "|" + message] first, always expecting the
    acknowledgement; it hands over the Read frame next, and nothing else,
    exactly when the Write transfer returned status 0, the acknowledgement
    parsed to status 0 and a response is expected; otherwise the Write frame
    is the only request.  When the acknowledgement parses to a non-zero
    status, the parsed status and payload are the result of the call.

    On the wire: the bytes handed to [sendall] are those of the Write frame,
    present exactly when the gateway could be connected to and the frame
    encodes, followed, after an accepted write when a response is expected
    and on the same condition for the connection after, by those of the Read
    frame.  So a Write transfer that returned status 0 has put the encoded
    Write frame on the wire first, and when the Read transfer has returned
    status 0 as well, the two encoded frames, in that order, are all that
    was sent. *)
Theorem gateway_frames_in_order fuel self message rr t w :
  write_frame self message
  = py "W|" ++ str_of_opt_int (device_gpib_address self) ++ py "|" ++ message
  /\ requests (log (snd (__GpiboeTransfer fuel self message rr t w)))
     = requests (log w)
       ++ (write_frame self message, true)
          :: (if accepted
                   (fst (__TcpipTransfer fuel self (write_frame self message)
                           true t w)) && rr
              then [(read_frame self, true)] else [])
  /\ (forall st w1 g,
        __TcpipTransfer fuel self (write_frame self message) true t w
        = (Return st, w1) ->
        status_0 st = 0%Z ->
        __ParseGpiboeReceiveMessage (status_1 st) = Return g ->
        status_0 g <> 0%Z ->
        __GpiboeTransfer fuel self message rr t w = (Return g, w1)
        /\ requests (log w1)
           = requests (log w) ++ [(write_frame self message, true)])
  /\ sent (log (snd (__GpiboeTransfer fuel self message rr t w)))
     = sent (log w)
       ++ handed_to_sendall (peers w (sockets w)) (write_frame self message)
       ++ (if accepted
                (fst (__TcpipTransfer fuel self (write_frame self message)
                        true t w)) && rr
           then handed_to_sendall (peers w (S (sockets w))) (read_frame self)
           else [])
  /\ (forall st,
        fst (__TcpipTransfer fuel self (write_frame self message) true t w)
        = Return st ->
        status_0 st = 0%Z ->
        exists dW tail,
          encode (write_frame self message) = Return dW
          /\ sent (log (snd (__GpiboeTransfer fuel self message rr t w)))
             = sent (log w) ++ dW :: tail
          /\ (accepted (Return st) && rr = false -> tail = []))
  /\ (forall st w1 st2,
        __TcpipTransfer fuel self (write_frame self message) true t w
        = (Return st, w1) ->
        accepted (Return st) = true ->
        rr = true ->
        fst (__TcpipTransfer fuel self (read_frame self) true t w1)
        = Return st2 ->
        status_0 st2 = 0%Z ->
        exists dW dR,
          encode (write_frame self message) = Return dW
          /\ encode (read_frame self) = Return dR
          /\ sent (log (snd (__GpiboeTransfer fuel self message rr t w)))
             = sent (log w) ++ [dW; dR]).
Proof.
  split; [reflexivity|]. split; [apply GpiboeTransfer_requests|].
  pose proof (GpiboeTransfer_wire fuel self message rr t w) as Hwire.
  split; [|split; [exact Hwire|split]].
  - intros st w1 g E1 H0 Hp Hg.
    pose proof (TcpipTransfer_requests fuel self (write_frame self message)
                  true t w) as H1.
    rewrite E1 in H1. simpl in H1. split; [|exact H1].
    unfold __GpiboeTransfer, bind, lift, ret.
    fold (write_frame self message). rewrite E1, H0. simpl. rewrite Hp.
    apply Z.eqb_neq in Hg. now rewrite Hg.
  - intros st Hr H0.
    destruct (TcpipTransfer_wire_done fuel self (write_frame self message)
                true t w st Hr H0) as (dW & HeW & HW).
    rewrite HW, Hr in Hwire. exists dW. eexists.
    split; [exact HeW|]. split; [exact Hwire|].
    intros ->. reflexivity.
  - intros st w1 st2 E1 Hacc -> Hr2 H2.
    assert (H0 : status_0 st = 0%Z).
    { unfold accepted in Hacc. apply andb_true_iff in Hacc as [H _].
      now apply Z.eqb_eq. }
    destruct (TcpipTransfer_wire_done fuel self (write_frame self message)
                true t w st ltac:(now rewrite E1) H0) as (dW & HeW & HW).
    destruct (TcpipTransfer_wire fuel self (write_frame self message) true t w)
      as (_ & Hs1 & Hp1).
    rewrite E1 in Hs1, Hp1. simpl in Hs1, Hp1.
    destruct (TcpipTransfer_wire_done fuel self (read_frame self)
                true t w1 st2 Hr2 H2) as (dR & HeR & HR).
    rewrite Hs1, Hp1 in HR.
    rewrite HW, HR, E1 in Hwire. simpl fst in Hwire. rewrite Hacc in Hwire.
    exists dW, dR. split; [exact HeW|]. split; [exact HeR|exact Hwire].
Qed.

(** ** Parsing a gateway reply *)

Lemma split1_no_sep sep s : ~ In sep s -> split1 sep s = [s].
Proof.
  induction s as [|c s IH]; [reflexivity|].
  intros H. simpl.
  destruct (N.eqb_spec c sep) as [->|_]; [exfalso; apply H; now left|].
  rewrite IH; [reflexivity|]. intros Hin. apply H. now right.
Qed.

Lemma split1_first sep a b :
  ~ In sep a -> split1 sep (a ++ sep :: b) = [a; b].
Proof.
  induction a as [|c a IH]; intros H; simpl.
  - now rewrite N.eqb_refl.
  - destruct (N.eqb_spec c sep) as [->|_]; [exfalso; apply H; now left|].
    rewrite IH; [reflexivity|]. intros Hin. apply H. now right.
Qed.

Lemma py_int_class s e : py_int s = Raise e -> exc_class e = ValueError.
Proof.
  unfold py_int.
  destruct (match lstrip s with
            | [] => (false, lstrip s)
            | c :: r => if (c =? 45)%N then (true, r)
                        else if (c =? 43)%N then (false, r)
                        else (false, lstrip s)
            end) as [negative digits].
  destruct (scan_digits AtStart 0 0 digits) as [[[v n] rest]|].
  - destruct (exceeds_limit n); [|destruct (lstrip rest)];
      intros [= <-]; reflexivity.
  - intros [= <-]; reflexivity.
Qed.

Lemma py_int_fuel s : py_int s <> OutOfFuel.
Proof.
  unfold py_int.
  destruct (match lstrip s with
            | [] => (false, lstrip s)
            | c :: r => if (c =? 45)%N then (true, r)
                        else if (c =? 43)%N then (false, r)
                        else (false, lstrip s)
            end) as [negative digits].
  destruct (scan_digits AtStart 0 0 digits) as [[[v n] rest]|];
    [destruct (exceeds_limit n); [|destruct (lstrip rest)]|]; discriminate.
Qed.

(** [int()] strips white space only: a text that begins or ends with an
    ASCII character that is neither white space nor a digit, a sign or an
    underscore is refused, whatever the runtime.  The separators U+001C to
    U+001F are such characters. *)

Lemma foreign_spec (c : codepoint) :
  foreign c = true ->
  is_space c = false /\ decimal c = None
  /\ (c =? 95)%N = false /\ (c =? 43)%N = false /\ (c =? 45)%N = false.
Proof.
  unfold foreign, decimal. intros H.
  repeat (apply andb_true_iff in H as [H ?]).
  rewrite H.
  repeat match goal with
         | Hn : negb _ = true |- _ => apply negb_true_iff in Hn
         end.
  repeat apply conj; try assumption.
  now destruct ((48 <=? c) && (c <=? 57))%N.
Qed.

Lemma separators_are_foreign (c : codepoint) : (28 <= c <= 31)%N -> foreign c = true.
Proof.
  intros [H1 H2].
  assert (Hc : c = 28%N \/ c = 29%N \/ c = 30%N \/ c = 31%N) by lia.
  destruct Hc as [-> | [-> | [-> | ->]]]; reflexivity.
Qed.

Lemma lstrip_snoc (c : codepoint) (s : str) :
  is_space c = false -> lstrip (s ++ [c]) = lstrip s ++ [c].
Proof.
  intros Hc. induction s as [|x s IH]; simpl.
  - now rewrite Hc.
  - now destruct (is_space x).
Qed.

Lemma scan_digits_snoc (c : codepoint) prev acc n (s : str) :
  (c =? 95)%N = false -> decimal c = None ->
  scan_digits prev acc n (s ++ [c])
  = match scan_digits prev acc n s with
    | Some (v, k, rest) => Some (v, k, rest ++ [c])
    | None => None
    end.
Proof.
  intros H95 Hd. revert prev acc n.
  induction s as [|x s IH]; intros prev acc n; simpl.
  - rewrite H95, Hd. now destruct prev.
  - destruct (x =? 95)%N.
    + destruct prev; try reflexivity. apply IH.
    + destruct (decimal x); [apply IH|]. now destruct prev.
Qed.

Lemma py_int_refuses_foreign (c : codepoint) (s : str) :
  foreign c = true ->
  raises (py_int (c :: s)) = true /\ raises (py_int (s ++ [c])) = true.
Proof.
  intros Hf. destruct (foreign_spec c Hf) as (Hsp & Hd & H95 & H43 & H45).
  split.
  - unfold py_int. simpl. rewrite Hsp, H45, H43. simpl.
    now rewrite H95, Hd.
  - assert (Htail : forall (negative : bool) D,
      raises
        (match scan_digits AtStart 0 0 (D ++ [c]) with
         | Some (v, n, rest) =>
             if exceeds_limit n then Raise (too_many_digits n)
             else
               match lstrip rest with
               | [] => Return (if negative then (- Z.of_N v)%Z else Z.of_N v)
               | _ :: _ => Raise (invalid_literal (s ++ [c]))
               end
         | None => Raise (invalid_literal (s ++ [c]))
         end) = true).
    { intros negative D.
      rewrite (scan_digits_snoc c AtStart 0 0 D H95 Hd).
      destruct (scan_digits AtStart 0 0 D) as [[[v n] rest]|];
        [|reflexivity].
      destruct (exceeds_limit n); [reflexivity|].
      rewrite (lstrip_snoc c rest Hsp).
      now destruct (lstrip rest). }
    unfold py_int. cbv zeta. rewrite (lstrip_snoc c s Hsp).
    destruct (lstrip s) as [|x r]; simpl app.
    + cbv iota. rewrite H45, H43. exact (Htail false []).
    + cbv iota.
      destruct (x =? 45)%N; [exact (Htail true r)|].
      destruct (x =? 43)%N; [exact (Htail false r)|].
      exact (Htail false (x :: r)).
Qed.

Lemma Parse_field reply :
  __ParseGpiboeReceiveMessage reply
  = res_bind (py_int (status_field reply))
      (fun code => Return (mkStatus code (nth 1 (split1 PIPE reply) []))).
Proof.
  unfold __ParseGpiboeReceiveMessage, status_field.
  destruct (split1 PIPE reply) as [|a [|b l]]; reflexivity.
Qed.

(** C7. A reply is split at its first ['|'] only: the text before it is
    converted to the integer status and everything after it, further ['|']
    included, is the payload; a reply without ['|'] is converted as a whole
    and has the empty payload. *)
Theorem parse_splits_on_first_pipe (status text : str) (code : Z) :
  ~ In PIPE status ->
  py_int status = Return code ->
  __ParseGpiboeReceiveMessage (status ++ PIPE :: text)
  = Return (mkStatus code text)
  /\ __ParseGpiboeReceiveMessage status = Return (mkStatus code []).
Proof.
  intros Hs Hi. unfold __ParseGpiboeReceiveMessage.
  rewrite split1_first, split1_no_sep by assumption.
  simpl. now rewrite Hi.
Qed.

(** ** [write] and [query] *)

Lemma str_eqb_single c t : str_eqb [c] [t] = N.eqb c t.
Proof.
  destruct (N.eqb_spec c t) as [->|H].
  - apply str_eqb_refl.
  - apply str_eqb_neq. congruence.
Qed.

Lemma outgoing_terminated self message t :
  message_termination_character self = [t] -> message <> [] ->
  outgoing self message = terminated t message.
Proof.
  intros Ht Hm. destruct (index_last_nonempty _ Hm) as (c & Hc & _).
  unfold outgoing, terminated. rewrite Hc, Ht, str_eqb_single.
  now rewrite (index_last_ends_with _ _ t Hc).
Qed.

Lemma write_unfold fuel self message T w :
  message <> [] ->
  write fuel self message T w
  = bind (transport fuel self (outgoing self message) false T)
      (fun status => lift (__HandleStatus status)) w.
Proof.
  intros Hm. destruct (index_last_nonempty _ Hm) as (c & Hc & _).
  unfold write, outgoing, transport, bind, lift. rewrite Hc.
  now destruct (str_eqb [c] (message_termination_character self)).
Qed.

Lemma query_unfold fuel self message T w :
  message <> [] ->
  query fuel self message T w
  = bind (transport fuel self (outgoing self message) true T)
      (fun status => lift (__HandleStatus status)) w.
Proof.
  intros Hm. destruct (index_last_nonempty _ Hm) as (c & Hc & _).
  unfold query, outgoing, transport, bind, lift. rewrite Hc.
  now destruct (str_eqb [c] (message_termination_character self)).
Qed.

Lemma snd_bind_lift {A B} (c : M A) (f : A -> Res B) w :
  snd (bind c (fun a => lift (f a)) w) = snd (c w).
Proof. unfold bind, lift. now destruct (c w) as [[a| |] w1]. Qed.

Lemma transport_requests fuel self message rr T w :
  exists rest,
    requests (log (snd (transport fuel self message rr T w)))
    = requests (log w) ++ first_request self message rr :: rest.
Proof.
  unfold transport, first_request, first_frame.
  destruct (opt_str_eqb (connection_type self) (py "gpiboe")).
  - rewrite GpiboeTransfer_requests. eexists. reflexivity.
  - rewrite TcpipTransfer_requests. now exists [].
Qed.

(** C6 (as the code has it). A non-empty command reaches the transport with
    the terminator at its end exactly once: unchanged when it already ends in the terminator, with
    the terminator appended otherwise; this is the first message [write] and
    [query] hand over, bare on a direct connection and inside the Write
    frame behind a gateway. *)
Theorem terminator_appended_once fuel self message t T w :
  message_termination_character self = [t] ->
  message <> [] ->
  ends_with t (terminated t message) = true
  /\ (ends_with t message = true -> terminated t message = message)
  /\ (ends_with t message = false -> terminated t message = message ++ [t])
  /\ (exists rest,
        requests (log (snd (write fuel self message T w)))
        = requests (log w)
          ++ first_request self (terminated t message) false :: rest)
  /\ (exists rest,
        requests (log (snd (query fuel self message T w)))
        = requests (log w)
          ++ first_request self (terminated t message) true :: rest).
Proof.
  intros Ht Hm. repeat apply conj.
  - unfold terminated. destruct (ends_with t message) eqn:E; [exact E|].
    rewrite ends_with_snoc. apply N.eqb_refl.
  - unfold terminated. now intros ->.
  - unfold terminated. now intros ->.
  - rewrite write_unfold, snd_bind_lift by assumption.
    rewrite (outgoing_terminated _ _ _ Ht Hm). apply transport_requests.
  - rewrite query_unfold, snd_bind_lift by assumption.
    rewrite (outgoing_terminated _ _ _ Ht Hm). apply transport_requests.
Qed.

(** C9. With the empty command [write] and [query] raise the [IndexError]
    of [message[-1]] and leave the world as it was: no transfer is requested
    and no socket call made.  With any other command the terminator check
    passes and a transfer is requested. *)
Theorem empty_command_raises_IndexError fuel self T w :
  write fuel self [] T w
  = (Raise (mkExc IndexError [AStr (py "string index out of range")]), w)
  /\ query fuel self [] T w
     = (Raise (mkExc IndexError [AStr (py "string index out of range")]), w)
  /\ (forall message, message <> [] ->
        returns (index_last message) = true
        /\ requests (log (snd (write fuel self message T w)))
           <> requests (log w)
        /\ requests (log (snd (query fuel self message T w)))
           <> requests (log w)).
Proof.
  split; [reflexivity|]. split; [reflexivity|].
  intros message Hm.
  assert (Hgrow : forall (l : list (str * bool)) x rest, l ++ x :: rest <> l).
  { intros l x rest H. apply (f_equal (@List.length _)) in H.
    rewrite length_app in H. simpl in H. lia. }
  repeat apply conj.
  - destruct (index_last_nonempty _ Hm) as (c & -> & _). reflexivity.
  - rewrite write_unfold, snd_bind_lift by assumption.
    destruct (transport_requests fuel self (outgoing self message) false T w)
      as (rest & ->). apply Hgrow.
  - rewrite query_unfold, snd_bind_lift by assumption.
    destruct (transport_requests fuel self (outgoing self message) true T w)
      as (rest & ->). apply Hgrow.
Qed.

(** C1 (as the code has it). When the transfer selected for a non-empty
    command returns a status whose code is 0, [write] and [query] alike
    return that two-element status itself, code and payload untouched;
    when the code is not 0 they raise a [ConnectionError] whose message is
    ["ERROR: " + str(code) + ", " + payload]. *)
Theorem status_gate fuel self message (rr : bool) T w st w1 :
  message <> [] ->
  transport fuel self (outgoing self message) rr T w = (Return st, w1) ->
  (status_0 st = 0%Z ->
     (if rr then query else write) fuel self message T w = (Return st, w1)
     /\ value_of_status st = PList [PInt 0; PStr (status_1 st)])
  /\ (status_0 st <> 0%Z ->
        (if rr then query else write) fuel self message T w
        = (Raise (mkExc ConnectionError
                    [AStr (py "ERROR: " ++ str_of_int (status_0 st)
                           ++ py ", " ++ status_1 st)]), w1)).
Proof.
  intros Hm Ht.
  assert (Hcall : (if rr then query else write) fuel self message T w
                  = (__HandleStatus st, w1)).
  { destruct rr; [rewrite query_unfold|rewrite write_unfold]; try assumption;
      unfold bind, lift; now rewrite Ht. }
  rewrite Hcall. unfold __HandleStatus, value_of_status. split.
  - intros H0. rewrite H0. split; reflexivity.
  - intros Hn. apply Z.eqb_neq in Hn. now rewrite Hn.
Qed.

(** C10. A gateway reply whose status field, the text before the first
    ['|'] or the whole reply, [int()] refuses makes the parser raise a
    [ValueError]; nothing between the parser and the caller catches it, so
    [write] and [query] raise it when the reply is the acknowledgement of
    the Write frame, and [query] raises it when the reply answers the Read
    frame. *)
Theorem malformed_status_raises_ValueError fuel self message T w reply :
  connection_type self = Some (py "gpiboe") ->
  message <> [] ->
  raises (py_int (status_field reply)) = true ->
  exists e,
    exc_class e = ValueError
    /\ __ParseGpiboeReceiveMessage reply = Raise e
    /\ (forall w1,
          __TcpipTransfer fuel self
            (write_frame self (outgoing self message)) true T w
          = (Return (mkStatus 0 reply), w1) ->
          write fuel self message T w = (Raise e, w1)
          /\ query fuel self message T w = (Raise e, w1))
    /\ (forall ack text w1 w2,
          __TcpipTransfer fuel self
            (write_frame self (outgoing self message)) true T w
          = (Return (mkStatus 0 ack), w1) ->
          __ParseGpiboeReceiveMessage ack = Return (mkStatus 0 text) ->
          __TcpipTransfer fuel self (read_frame self) true T w1
          = (Return (mkStatus 0 reply), w2) ->
          query fuel self message T w = (Raise e, w2)).
Proof.
  intros Hk Hm Hr.
  destruct (py_int (status_field reply)) as [z|e|] eqn:Hi; try discriminate.
  exists e. split; [exact (py_int_class _ _ Hi)|].
  assert (Hp : __ParseGpiboeReceiveMessage reply = Raise e)
    by (rewrite Parse_field, Hi; reflexivity).
  split; [exact Hp|].
  apply opt_str_eqb_eq in Hk. split.
  - intros w1 E1.
    rewrite write_unfold, query_unfold by assumption.
    unfold transport, __GpiboeTransfer, bind, lift. rewrite Hk.
    fold (write_frame self (outgoing self message)).
    rewrite E1. simpl. rewrite Hp. split; reflexivity.
  - intros ack text w1 w2 E1 Hack E2.
    rewrite query_unfold by assumption.
    unfold transport, __GpiboeTransfer, bind, lift, ret. rewrite Hk.
    fold (write_frame self (outgoing self message)). fold (read_frame self).
    rewrite E1. simpl. rewrite Hack. simpl. rewrite E2. simpl.
    now rewrite Hp.
Qed.

(** ** The direct transfer and exceptions *)

Lemma safe_ret {A} (a : A) : safe (ret a).
Proof. intros w. split; [reflexivity|]. intros _ e; discriminate. Qed.

Lemma safe_out_of_fuel {A} : safe (@out_of_fuel A).
Proof. intros w. split; [reflexivity|]. intros _ e; discriminate. Qed.

Lemma safe_lift {A} (r : Res A) :
  (forall e, r = Raise e -> tame e = true) -> safe (lift r).
Proof. intros H w. split; [reflexivity|]. intros _ e. apply H. Qed.

Lemma safe_bind {A B} (c : M A) (k : A -> M B) :
  safe c -> (forall a, safe (k a)) -> safe (bind c k).
Proof.
  intros Hc Hk w. unfold bind. destruct (Hc w) as (Hp & He).
  destruct (c w) as [[a|e|] w1]; simpl in *.
  - destruct (Hk a w1) as (Hp' & He'). split; [congruence|].
    intros Hw. apply He'. intros n. rewrite Hp. apply Hw.
  - split; [assumption|]. intros Hw e' [= <-]. now apply He.
  - split; [assumption|]. intros _ e'; discriminate.
Qed.

Lemma tame_peer_fields p :
  tame_peer p = true ->
  tame_fault (socket_fault p) = true /\ tame_fault (settimeout_fault p) = true
  /\ tame_fault (connect_fault p) = true /\ tame_fault (sendall_fault p) = true
  /\ forallb tame_recv (recv_script p) = true /\ tame_recv (recv_after p) = true
  /\ tame_fault (shutdown_fault p) = true /\ tame_fault (close_fault p) = true.
Proof.
  unfold tame_peer. intros H.
  repeat (apply andb_true_iff in H as [H ?]). auto 10.
Qed.

Lemma safe_socket_call fd ev fault :
  (forall p, tame_peer p = true -> tame_fault (fault p) = true) ->
  safe (socket_call fd ev fault).
Proof.
  intros Hf w. split; [reflexivity|]. intros Hw e. unfold socket_call. simpl.
  specialize (Hf _ (Hw fd)). destruct (fault (peers w fd)); simpl.
  - now intros [= <-].
  - discriminate.
Qed.

Lemma safe_socket_socket : safe socket_socket.
Proof.
  intros w. unfold socket_socket.
  destruct (socket_fault (peers w (sockets w))) eqn:E; simpl;
    (split; [reflexivity|]); intros Hw e'; [|discriminate].
  intros [= <-]. destruct (tame_peer_fields _ (Hw (sockets w))) as (H & _).
  now rewrite E in H.
Qed.

Lemma tame_nth k script rest :
  forallb tame_recv script = true -> tame_recv rest = true ->
  tame_recv (nth k script rest) = true.
Proof.
  revert k. induction script as [|r script IH]; intros [|k] Hs Hr; simpl in *;
    try assumption; apply andb_true_iff in Hs as [H1 H2]; auto.
Qed.

Lemma safe_recv fd n : safe (recv fd n).
Proof.
  intros w. unfold recv.
  destruct (nth _ _ _) as [e|d] eqn:E; simpl; (split; [reflexivity|]);
    intros Hw e'; [|discriminate].
  intros [= <-].
  destruct (tame_peer_fields _ (Hw fd)) as (_ & _ & _ & _ & Hs & Hr & _).
  pose proof (tame_nth (recv_count fd (log w)) _ _ Hs Hr) as H.
  now rewrite E in H.
Qed.

Lemma tame_index_last s e : index_last s = Raise e -> tame e = true.
Proof.
  unfold index_last. destruct (rev s); [|discriminate]. now intros [= <-].
Qed.

Lemma tame_decode b e : decode b = Raise e -> tame e = true.
Proof.
  unfold decode. destruct (utf8_decode b); [discriminate|]. now intros [= <-].
Qed.

Lemma tame_encode s e : encode s = Raise e -> tame e = true.
Proof.
  unfold encode. destruct (utf8_encode s); [discriminate|]. now intros [= <-].
Qed.

Lemma safe_recv_loop fuel self fd acc : safe (recv_loop fuel self fd acc).
Proof.
  revert acc. induction fuel as [|fuel IH]; intros acc; simpl.
  - apply safe_out_of_fuel.
  - apply safe_bind; [apply safe_recv|]. intros b.
    apply safe_bind; [apply safe_lift, tame_decode|]. intros s.
    apply safe_bind; [apply safe_lift, tame_index_last|]. intros c.
    destruct (str_eqb _ _); [apply safe_ret|apply IH].
Qed.

Lemma safe_TcpipTransfer_try fuel self message rr T :
  safe (TcpipTransfer_try fuel self message rr T).
Proof.
  unfold TcpipTransfer_try, settimeout, connect, sendall, shutdown, close.
  apply safe_bind; [apply safe_socket_socket|]. intros fd.
  apply safe_bind;
    [apply safe_socket_call; intros p Hp; apply (tame_peer_fields _ Hp)|].
  intros _.
  apply safe_bind;
    [apply safe_socket_call; intros p Hp; apply (tame_peer_fields _ Hp)|].
  intros _.
  apply safe_bind; [apply safe_lift, tame_encode|]. intros data.
  apply safe_bind;
    [apply safe_socket_call; intros p Hp; apply (tame_peer_fields _ Hp)|].
  intros _.
  apply safe_bind;
    [destruct rr; [apply safe_recv_loop|apply safe_ret]|].
  intros recv_msg.
  apply safe_bind;
    [apply safe_socket_call; intros p Hp; apply (tame_peer_fields _ Hp)|].
  intros _.
  apply safe_bind;
    [apply safe_socket_call; intros p Hp; apply (tame_peer_fields _ Hp)|].
  intros _. apply safe_ret.
Qed.

(** On the successful path the status code is 0. *)
Lemma TcpipTransfer_try_code fuel self message rr T w st w' :
  TcpipTransfer_try fuel self message rr T w = (Return st, w') ->
  status_0 st = 0%Z.
Proof.
  unfold TcpipTransfer_try, bind, ret.
  repeat match goal with
         | |- context [match ?c ?w with _ => _ end] =>
             destruct (c w) as [[?| |] ?]; try discriminate
         | |- context [match ?c with _ => _ end] =>
             destruct c as [[?| |] ?]; try discriminate
         end.
  now intros [= <- _].
Qed.

Lemma error_text_says_ERROR a :
  error_text a <> [] /\ contains (py "ERROR") (error_text a) = true.
Proof. split; [discriminate|reflexivity]. Qed.

(** C2 (as the code has it). In a world whose faults are all instances of
    [Exception] with at least one argument, the direct transfer never
    raises: when its [try] block raises, at the creation of the socket, at
    [settimeout], [connect], [encode], [sendall], [recv], [decode], the
    look at the last character, [shutdown] or [close], the call returns
    the status [-1] with the text ["[ERROR] during TCPIP transfer: "]
    followed by [str(err.args[0])], a non-empty text containing ["ERROR"];
    when the block returns, the call returns its status, of code 0. *)
Theorem direct_transfer_captures fuel self message rr T w :
  tame_world w ->
  raises (fst (__TcpipTransfer fuel self message rr T w)) = false
  /\ match TcpipTransfer_try fuel self message rr T
             (emit (EvTransfer message rr) w) with
     | (Return st, w') =>
         __TcpipTransfer fuel self message rr T w = (Return st, w')
         /\ status_0 st = 0%Z
     | (Raise err, w') =>
         exists a,
           args_0 err = Return a
           /\ __TcpipTransfer fuel self message rr T w
              = (Return (mkStatus (-1) (error_text a)), w')
           /\ error_text a <> []
           /\ contains (py "ERROR") (error_text a) = true
     | (OutOfFuel, w') =>
         __TcpipTransfer fuel self message rr T w = (OutOfFuel, w')
     end.
Proof.
  intros Hw.
  assert (Hw' : tame_world (emit (EvTransfer message rr) w)) by exact Hw.
  destruct (safe_TcpipTransfer_try fuel self message rr T
              (emit (EvTransfer message rr) w)) as (_ & Htame).
  specialize (Htame Hw').
  pose proof (TcpipTransfer_try_code fuel self message rr T
                (emit (EvTransfer message rr) w)) as Hcode.
  unfold __TcpipTransfer, try_except_Exception.
  destruct (TcpipTransfer_try fuel self message rr T
              (emit (EvTransfer message rr) w)) as [[st|err|] w'];
    simpl in *.
  - split; [reflexivity|]. split; [reflexivity|]. now apply (Hcode st w').
  - specialize (Htame err eq_refl). unfold tame in Htame.
    apply andb_true_iff in Htame as [Hc Ha]. rewrite Hc.
    unfold TcpipTransfer_except, bind, lift, ret, args_0.
    destruct (exc_args err) as [|a rest]; [discriminate|]. simpl.
    split; [reflexivity|]. exists a.
    split; [reflexivity|]. split; [reflexivity|]. apply error_text_says_ERROR.
  - split; reflexivity.
Qed.

(** ** The direct transfer and its socket *)

Lemma recv_events_keep_open fd evs :
  forallb recv_event evs = true ->
  closed fd evs = false /\ shut_down fd evs = false.
Proof.
  induction evs as [|e evs IH]; [auto|].
  simpl. intros H. apply andb_true_iff in H as [He H].
  destruct e; try discriminate. simpl. auto.
Qed.

Lemma closed_app fd l1 l2 : closed fd (l1 ++ l2) = closed fd l1 || closed fd l2.
Proof. apply existsb_app. Qed.

Lemma shut_down_app fd l1 l2 :
  shut_down fd (l1 ++ l2) = shut_down fd l1 || shut_down fd l2.
Proof. apply existsb_app. Qed.

(** When [shutdown] and [close] themselves cannot fail, the [try] block
    shuts its socket down and closes it exactly when it returns. *)
Lemma TcpipTransfer_try_closes fuel self message rr T w :
  shutdown_fault (peers w (sockets w)) = None ->
  close_fault (peers w (sockets w)) = None ->
  exists evs,
    log (snd (TcpipTransfer_try fuel self message rr T w)) = log w ++ evs
    /\ closed (sockets w) evs
       = returns (fst (TcpipTransfer_try fuel self message rr T w))
    /\ shut_down (sockets w) evs
       = returns (fst (TcpipTransfer_try fuel self message rr T w)).
Proof.
  intros Hsd Hcl.
  unfold TcpipTransfer_try, bind, socket_socket, settimeout, connect, sendall,
    shutdown, close, socket_call, lift, ret.
  destruct (socket_fault (peers w (sockets w))); simpl;
    [now eexists [_]|].
  destruct (settimeout_fault (peers w (sockets w))); simpl;
    [rewrite <- app_assoc; now eexists [_; _]|].
  destruct (connect_fault (peers w (sockets w))); simpl;
    [rewrite <- !app_assoc; now eexists [_; _; _]|].
  destruct (encode message) as [data|e|]; simpl;
    try (rewrite <- !app_assoc; now eexists [_; _; _]).
  destruct (sendall_fault (peers w (sockets w))); simpl;
    [rewrite <- !app_assoc; now eexists [_; _; _; _]|].
  set (pre := [EvSocket (sockets w); EvSetTimeout (sockets w) T;
               EvConnect (sockets w) (device_ip_address self)
                 (device_port self);
               EvSendall (sockets w) data]).
  set (w4 := emit _ (emit _ (emit _ (mkWorld _ _ _)))).
  assert (Hw4 : peers w4 = peers w /\ log w4 = log w ++ pre).
  { subst w4 pre. simpl. rewrite <- !app_assoc. auto. }
  destruct Hw4 as (Hp4 & Hl4).
  assert (Hpre : closed (sockets w) pre = false
                 /\ shut_down (sockets w) pre = false) by (split; reflexivity).
  destruct Hpre as (Hc0 & Hs0). clearbody w4 pre.
  destruct rr.
  - destruct (recv_loop_log fuel self (sockets w) [] w4)
      as (Hp & _ & evs & Hl & He).
    destruct (recv_events_keep_open (sockets w) evs He) as (Hc1 & Hs1).
    destruct (recv_loop fuel self (sockets w) [] w4) as [[s|e|] w5];
      simpl in *.
    + rewrite Hp, Hp4, Hsd, Hcl. simpl.
      exists (pre ++ evs ++ [EvShutdown (sockets w); EvClose (sockets w)]).
      rewrite Hl, Hl4, <- !app_assoc.
      split; [reflexivity|].
      rewrite !closed_app, !shut_down_app, Hc0, Hc1, Hs0, Hs1. simpl.
      rewrite Nat.eqb_refl. auto.
    + exists (pre ++ evs). rewrite Hl, Hl4, <- app_assoc.
      rewrite closed_app, shut_down_app, Hc0, Hc1, Hs0, Hs1. auto.
    + exists (pre ++ evs). rewrite Hl, Hl4, <- app_assoc.
      rewrite closed_app, shut_down_app, Hc0, Hc1, Hs0, Hs1. auto.
  - simpl. rewrite Hp4, Hsd, Hcl. simpl. rewrite Hl4.
    exists (pre ++ [EvShutdown (sockets w); EvClose (sockets w)]).
    rewrite <- !app_assoc. split; [reflexivity|].
    rewrite !closed_app, !shut_down_app, Hc0, Hs0. simpl.
    rewrite Nat.eqb_refl. auto.
Qed.

(** C8 (what the code does). Take a connection whose [shutdown] and [close]
    cannot fail.  A direct transfer that returns has shut down and closed
    the socket it created exactly when its status code is 0: on every path
    through the [except] clause the call returns the status [-1] without
    having called [shutdown] or [close]. *)
Theorem socket_closed_only_on_success fuel self message rr T w st w' :
  shutdown_fault (peers w (sockets w)) = None ->
  close_fault (peers w (sockets w)) = None ->
  __TcpipTransfer fuel self message rr T w = (Return st, w') ->
  exists evs,
    log w' = log w ++ EvTransfer message rr :: evs
    /\ (closed (sockets w) evs = true <-> status_0 st = 0%Z)
    /\ (shut_down (sockets w) evs = true <-> status_0 st = 0%Z).
Proof.
  intros Hsd Hcl.
  destruct (TcpipTransfer_try_closes fuel self message rr T
              (emit (EvTransfer message rr) w) Hsd Hcl)
    as (evs & Hl & Hc & Hs).
  pose proof (TcpipTransfer_try_code fuel self message rr T
                (emit (EvTransfer message rr) w)) as Hcode.
  unfold __TcpipTransfer, try_except_Exception.
  destruct (TcpipTransfer_try fuel self message rr T
              (emit (EvTransfer message rr) w)) as [[st0|err|] w0];
    simpl in *.
  - intros [= <- <-]. exists evs. rewrite Hl, <- app_assoc, Hc, Hs.
    rewrite (Hcode st0 w0 eq_refl). repeat split; auto.
  - destruct (is_Exception (exc_class err)); [|discriminate].
    unfold TcpipTransfer_except, bind, lift, ret.
    destruct (args_0 err); try discriminate.
    intros [= <- <-]. exists evs. rewrite Hl, <- app_assoc, Hc, Hs. simpl.
    repeat split; auto; discriminate.
  - discriminate.
Qed.

(** ** Decoding what was received *)

Lemma cons_opt_Some c r x :
  cons_opt c r = Some x -> exists s, r = Some s /\ x = c :: s.
Proof. destruct r as [s|]; [|discriminate]. intros [= <-]. now exists s. Qed.

(** Decoding distributes over chunks that each decode on their own. *)
Lemma utf8_decode_app a b x y :
  utf8_decode a = Some x -> utf8_decode b = Some y ->
  utf8_decode (a ++ b) = Some (x ++ y).
Proof.
  intros Ha Hb. revert x Ha.
  assert (H : forall n a, (List.length a <= n)%nat -> forall x,
            utf8_decode a = Some x -> utf8_decode (a ++ b) = Some (x ++ y)).
  { clear a. induction n as [|n IH]; intros a Hn x Ha.
    - destruct a; [|simpl in Hn; lia]. simpl in Ha. injection Ha as <-.
      exact Hb.
    - destruct a as [|x0 r0]; [simpl in Ha; injection Ha as <-; exact Hb|].
      cbn [utf8_decode app] in *.
      destruct (Byte.to_N x0 <? 128)%N.
      { apply cons_opt_Some in Ha as (s & Hs & ->).
        rewrite (IH r0 ltac:(simpl in Hn; lia) s Hs). reflexivity. }
      destruct r0 as [|x1 r1]; [discriminate|]. cbn [app].
      destruct (lead2 (Byte.to_N x0) && cont (Byte.to_N x1)).
      { apply cons_opt_Some in Ha as (s & Hs & ->).
        rewrite (IH r1 ltac:(simpl in Hn; lia) s Hs). reflexivity. }
      destruct r1 as [|x2 r2]; [discriminate|]. cbn [app].
      destruct (lead3 (Byte.to_N x0) (Byte.to_N x1) && cont (Byte.to_N x2)).
      { apply cons_opt_Some in Ha as (s & Hs & ->).
        rewrite (IH r2 ltac:(simpl in Hn; lia) s Hs). reflexivity. }
      destruct r2 as [|x3 r3]; [discriminate|]. cbn [app].
      destruct (lead4 (Byte.to_N x0) (Byte.to_N x1) && cont (Byte.to_N x2)
                && cont (Byte.to_N x3)); [|discriminate].
      apply cons_opt_Some in Ha as (s & Hs & ->).
      rewrite (IH r3 ltac:(simpl in Hn; lia) s Hs). reflexivity. }
  intros x Ha. exact (H (List.length a) a (le_n _) x Ha).
Qed.

Lemma utf8_decode_concat chunks texts :
  Forall2 (fun d x => utf8_decode d = Some x) chunks texts ->
  utf8_decode (List.concat chunks) = Some (List.concat texts).
Proof.
  induction 1 as [|d x chunks texts Hd _ IH]; [reflexivity|].
  simpl. now apply utf8_decode_app.
Qed.

(** A receive loop that returns has read chunks that each decode; it
    returns the text it started with followed by their decodings; that text
    ends with the terminator, and no shorter run of chunks gave a text that
    did. *)
Lemma recv_loop_returns fuel self fd : forall acc w s w',
  recv_loop fuel self fd acc w = (Return s, w') ->
  exists chunks texts,
    log w' = log w ++ map (fun d => EvRecv fd 4096 (Some d)) chunks
    /\ Forall2 (fun d x => utf8_decode d = Some x) chunks texts
    /\ s = acc ++ List.concat texts
    /\ index_last s = Return (message_termination_character self)
    /\ (forall k, (0 < k < List.length texts)%nat ->
          index_last (acc ++ List.concat (firstn k texts))
          <> Return (message_termination_character self)).
Proof.
  induction fuel as [|fuel IH]; intros acc w s w'; simpl; [discriminate|].
  unfold bind, recv, lift, ret.
  destruct (nth _ _ _) as [e|d]; simpl; [discriminate|].
  unfold decode. destruct (utf8_decode d) as [x|] eqn:Hd; [|discriminate].
  destruct (index_last (acc ++ x)) as [c|e|] eqn:Hc; try discriminate.
  destruct (str_eqb c (message_termination_character self)) eqn:Ht.
  - intros [= <- <-]. apply str_eqb_eq in Ht. subst c.
    exists [d], [x]. simpl. rewrite app_nil_r.
    split; [reflexivity|]. split; [now repeat constructor|].
    split; [reflexivity|]. split; [exact Hc|]. intros k Hk. lia.
  - intros Hrec. apply IH in Hrec
      as (chunks & texts & Hl & Hf & -> & Hlast & Hmin).
    exists (d :: chunks), (x :: texts). simpl in *.
    rewrite Hl, <- !app_assoc. simpl.
    split; [reflexivity|]. split; [now constructor|].
    split; [reflexivity|]. split; [now rewrite app_assoc|].
    intros [|k] Hk; [lia|]. simpl. rewrite app_assoc.
    destruct k as [|k].
    + simpl. rewrite app_nil_r, Hc. apply str_eqb_neq in Ht. congruence.
    + apply Hmin. lia.
Qed.

Lemma received_app l1 l2 : received (l1 ++ l2) = received l1 ++ received l2.
Proof.
  induction l1 as [|e l1 IH]; [reflexivity|].
  destruct e as [| | | | |? ? [?|]| |]; simpl; now rewrite ?IH.
Qed.

Lemma received_recv fd n chunks :
  received (map (fun d => EvRecv fd n (Some d)) chunks) = chunks.
Proof. induction chunks as [|d l IH]; simpl; now rewrite ?IH. Qed.

Lemma index_last_single s term :
  index_last s = Return term ->
  exists t, term = [t] /\ ends_with t s = true.
Proof.
  unfold index_last, ends_with. destruct (rev s) as [|c r]; [discriminate|].
  intros [= <-]. exists c. split; [reflexivity|apply N.eqb_refl].
Qed.

Lemma upto_first_all t s :
  ends_with t s = true ->
  (upto_first t s = s <-> ~ In t (removelast s)).
Proof.
  induction s as [|c s IH]; [discriminate|].
  intros He. destruct s as [|c' s'].
  - unfold ends_with in He. simpl in *. rewrite He. tauto.
  - assert (He' : ends_with t (c' :: s') = true).
    { unfold ends_with in *. simpl in *.
      destruct (rev s' ++ [c']) eqn:E; [now destruct (rev s')|].
      simpl in He. exact He. }
    specialize (IH He').
    change (removelast (c :: c' :: s')) with (c :: removelast (c' :: s')).
    change (upto_first t (c :: c' :: s'))
      with (if N.eqb c t then [c] else c :: upto_first t (c' :: s')).
    destruct (N.eqb_spec c t) as [->|Hn].
    + split; [discriminate|]. intros H. exfalso. apply H. now left.
    + split.
      * intros [= H]. apply IH in H. intros [Hc|Hin]; [congruence|auto].
      * intros H. f_equal. apply IH. intros Hin. apply H. now right.
Qed.

Lemma Forall2_firstn {A B} (R : A -> B -> Prop) k : forall l l',
  Forall2 R l l' -> Forall2 R (firstn k l) (firstn k l').
Proof.
  induction k as [|k IH]; intros l l' H; [constructor|].
  destruct H; simpl; constructor; auto.
Qed.

Lemma ends_with_index_last t s : ends_with t s = true -> index_last s = Return [t].
Proof.
  unfold ends_with, index_last. destruct (rev s) as [|c r]; [discriminate|].
  intros H. apply N.eqb_eq in H. now subst.
Qed.

(** A [try] block that returns from a transfer with response has run the
    receive loop to its end, and nothing else it did received data. *)
Lemma TcpipTransfer_try_received fuel self message T w st w' :
  TcpipTransfer_try fuel self message true T w = (Return st, w') ->
  exists s w4 w5,
    recv_loop fuel self (sockets w) [] w4 = (Return s, w5)
    /\ received (log w4) = received (log w)
    /\ received (log w') = received (log w5)
    /\ st = mkStatus 0 s.
Proof.
  unfold TcpipTransfer_try, bind, socket_socket, settimeout, connect, sendall,
    shutdown, close, socket_call, lift, ret.
  destruct (socket_fault (peers w (sockets w))); simpl; [discriminate|].
  destruct (settimeout_fault (peers w (sockets w))); simpl; [discriminate|].
  destruct (connect_fault (peers w (sockets w))); simpl; [discriminate|].
  destruct (encode message) as [data|e|]; simpl; try discriminate.
  destruct (sendall_fault (peers w (sockets w))); simpl; [discriminate|].
  set (w4 := emit _ (emit _ (emit _ (mkWorld _ _ _)))).
  assert (H4 : received (log w4) = received (log w)).
  { subst w4. simpl. rewrite !received_app. simpl. now rewrite !app_nil_r. }
  clearbody w4.
  destruct (recv_loop fuel self (sockets w) [] w4) as [[s|e|] w5] eqn:E;
    try discriminate.
  destruct (fail_or_unit (shutdown_fault (peers w5 (sockets w))));
    try discriminate.
  destruct (fail_or_unit (close_fault (peers w5 (sockets w))));
    try discriminate.
  intros [= <- <-]. exists s, w4, w5.
  split; [exact E|]. split; [exact H4|]. split; [|reflexivity].
  simpl. rewrite !received_app. simpl. now rewrite !app_nil_r.
Qed.

(** C5 (as the code has it). The payload of a successful direct-transport
    query is the decoding of all the data its [recv] calls returned, in
    order: it ends with the terminator, which is kept, and reading stopped
    after the first chunk at whose end the text read so far ended with the
    terminator.  It is the text up to and including the first terminator
    exactly when the terminator occurs nowhere before its last character. *)
Theorem direct_query_payload fuel self message T w st w' :
  __TcpipTransfer fuel self message true T w = (Return st, w') ->
  status_0 st = 0%Z ->
  exists t chunks,
    message_termination_character self = [t]
    /\ received (log w') = received (log w) ++ chunks
    /\ utf8_decode (List.concat chunks) = Some (status_1 st)
    /\ ends_with t (status_1 st) = true
    /\ (forall k x, (0 < k < List.length chunks)%nat ->
          utf8_decode (List.concat (firstn k chunks)) = Some x ->
          ends_with t x = false)
    /\ (upto_first t (status_1 st) = status_1 st
        <-> ~ In t (removelast (status_1 st))).
Proof.
  unfold __TcpipTransfer, try_except_Exception.
  destruct (TcpipTransfer_try fuel self message true T
              (emit (EvTransfer message true) w)) as [[st0|err|] w0] eqn:E.
  - intros [= <- <-] _.
    apply TcpipTransfer_try_received in E
      as (s & w4 & w5 & Hloop & H4 & H5 & ->).
    apply recv_loop_returns in Hloop
      as (chunks & texts & Hl & Hf & Hs & Hlast & Hmin).
    simpl in Hs. subst s.
    destruct (index_last_single _ _ Hlast) as (t & Ht & He).
    exists t, chunks. split; [exact Ht|].
    split.
    { rewrite H5, Hl, received_app, received_recv, H4. simpl.
      rewrite received_app. simpl. now rewrite app_nil_r. }
    split; [exact (utf8_decode_concat _ _ Hf)|].
    split; [exact He|]. split; [|exact (upto_first_all _ _ He)].
    intros k x Hk Hx.
    rewrite (utf8_decode_concat _ _ (Forall2_firstn _ k _ _ Hf)) in Hx.
    injection Hx as <-.
    rewrite (Forall2_length Hf) in Hk. specialize (Hmin k Hk). simpl in Hmin.
    destruct (ends_with t (List.concat (firstn k texts))) eqn:Ek;
      [|reflexivity].
    exfalso. apply Hmin. rewrite Ht. now apply ends_with_index_last.
  - destruct (is_Exception (exc_class err)); [|discriminate].
    unfold TcpipTransfer_except, bind, lift, ret.
    destruct (args_0 err); try discriminate.
    intros [= <- _]. discriminate.
  - discriminate.
Qed.

(** ** Further properties: the calls of a direct transfer *)

Lemma recv_loop_trace fuel self fd acc w :
  exists evs,
    log (snd (recv_loop fuel self fd acc w)) = log w ++ evs
    /\ forallb (recv_on fd) evs = true.
Proof.
  revert acc w. induction fuel as [|fuel IH]; intros acc w; simpl.
  - exists []. now rewrite app_nil_r.
  - assert (Hone : forall g, forallb (recv_on fd) [EvRecv fd 4096 g] = true)
      by (intros g; simpl; now rewrite Nat.eqb_refl).
    unfold bind, recv, lift, ret.
    destruct (nth _ _ _) as [e|d]; simpl; [solve [eexists [_]; split; auto]|].
    destruct (decode d) as [s|e|]; simpl; try solve [eexists [_]; split; auto].
    destruct (index_last (acc ++ s)) as [c|e|]; simpl;
      try solve [eexists [_]; split; auto].
    destruct (str_eqb c (message_termination_character self)); simpl;
      try solve [eexists [_]; split; auto].
    destruct (IH (acc ++ s) (emit (EvRecv fd 4096 (Some d)) w))
      as (evs & Hl & He).
    exists (EvRecv fd 4096 (Some d) :: evs). rewrite Hl. simpl.
    rewrite <- app_assoc, Nat.eqb_refl. auto.
Qed.

Lemma prefix_of_app {A} (l rest : list A) : prefix_of l (l ++ rest).
Proof. now exists rest. Qed.

(** The calls of the [try] block, and that they are all made when it
    returns. *)
Lemma TcpipTransfer_try_trace fuel self message rr T w :
  sockets (snd (TcpipTransfer_try fuel self message rr T w)) = S (sockets w)
  /\ exists evs recvs,
       log (snd (TcpipTransfer_try fuel self message rr T w)) = log w ++ evs
       /\ forallb (recv_on (sockets w)) recvs = true
       /\ (rr = false -> recvs = [])
       /\ prefix_of evs (full_trace (sockets w) self T message recvs)
       /\ evs <> []
       /\ (returns (fst (TcpipTransfer_try fuel self message rr T w)) = true ->
           evs = full_trace (sockets w) self T message recvs).
Proof.
  unfold TcpipTransfer_try, bind, socket_socket, settimeout, connect, sendall,
    shutdown, close, socket_call, lift, ret, full_trace.
  set (fd := sockets w).
  destruct (socket_fault (peers w fd)); simpl.
  { split; [reflexivity|]. exists [EvSocket fd], [].
    repeat apply conj; auto; try discriminate. eexists; reflexivity. }
  destruct (settimeout_fault (peers w fd)); simpl.
  { split; [reflexivity|]. exists [EvSocket fd; EvSetTimeout fd T], [].
    rewrite <- app_assoc.
    repeat apply conj; auto; try discriminate. eexists; reflexivity. }
  destruct (connect_fault (peers w fd)); simpl.
  { split; [reflexivity|].
    exists [EvSocket fd; EvSetTimeout fd T;
            EvConnect fd (device_ip_address self) (device_port self)], [].
    rewrite <- !app_assoc.
    repeat apply conj; auto; try discriminate. eexists; reflexivity. }
  unfold encode, wire_data.
  destruct (utf8_encode message) as [data|]; simpl.
  2:{ split; [reflexivity|].
      exists [EvSocket fd; EvSetTimeout fd T;
              EvConnect fd (device_ip_address self) (device_port self)], [].
      rewrite <- !app_assoc.
      repeat apply conj; auto; try discriminate. eexists; reflexivity. }
  destruct (sendall_fault (peers w fd)); simpl.
  { split; [reflexivity|].
    exists [EvSocket fd; EvSetTimeout fd T;
            EvConnect fd (device_ip_address self) (device_port self);
            EvSendall fd data], [].
    rewrite <- !app_assoc.
    repeat apply conj; auto; try discriminate. eexists; reflexivity. }
  set (w4 := emit _ (emit _ (emit _ (mkWorld _ _ _)))).
  assert (H4 : sockets w4 = S fd
               /\ log w4
                  = log w
                    ++ [EvSocket fd; EvSetTimeout fd T;
                        EvConnect fd (device_ip_address self)
                          (device_port self);
                        EvSendall fd data]).
  { subst w4. simpl. rewrite <- !app_assoc. auto. }
  destruct H4 as (Hs4 & Hl4). clearbody w4.
  destruct rr.
  - destruct (recv_loop_log fuel self fd [] w4) as (_ & Hs & _).
    destruct (recv_loop_trace fuel self fd [] w4) as (evs & Hl & He).
    destruct (recv_loop fuel self fd [] w4) as [[s|e|] w5];
      cbn [fst snd] in *.
    + destruct (fail_or_unit (shutdown_fault (peers w5 fd)));
        [destruct (fail_or_unit (close_fault (peers w5 fd)))| |];
        cbn [fst snd emit log sockets returns];
        (split; [congruence|]); rewrite Hl, Hl4, <- !app_assoc;
        eexists; exists evs;
        (split; [reflexivity|]); (split; [exact He|]);
        (split; [discriminate|]);
        (split; [|split; [simpl; discriminate|]]);
        try discriminate; try (intros _; reflexivity);
        first [ exists []; simpl; rewrite ?app_nil_r, <- ?app_assoc;
                reflexivity
              | exists [EvClose fd]; simpl; rewrite <- ?app_assoc;
                reflexivity ].
    + split; [congruence|]. rewrite Hl, Hl4, <- !app_assoc.
      eexists; exists evs.
      split; [reflexivity|]. split; [exact He|]. split; [discriminate|].
      split; [|split; [simpl; discriminate|discriminate]].
      exists [EvShutdown fd; EvClose fd]. simpl. reflexivity.
    + split; [congruence|]. rewrite Hl, Hl4, <- !app_assoc.
      eexists; exists evs.
      split; [reflexivity|]. split; [exact He|]. split; [discriminate|].
      split; [|split; [simpl; discriminate|discriminate]].
      exists [EvShutdown fd; EvClose fd]. simpl. reflexivity.
  - cbn [fst snd ret].
    destruct (fail_or_unit (shutdown_fault (peers w4 fd)));
      [destruct (fail_or_unit (close_fault (peers w4 fd)))| |];
      cbn [fst snd emit log sockets returns];
      (split; [congruence|]); rewrite Hl4, <- !app_assoc;
      eexists; exists [];
      (split; [reflexivity|]); (split; [reflexivity|]);
      (split; [reflexivity|]);
      (split; [|split; [simpl; discriminate|]]);
      try discriminate; try (intros _; reflexivity);
      first [ exists []; simpl; rewrite ?app_nil_r; reflexivity
            | exists [EvClose fd]; simpl; reflexivity ].
Qed.

(** The direct transfer, with its [except] clause spelled out. *)
Lemma TcpipTransfer_unfold fuel self message rr T w :
  __TcpipTransfer fuel self message rr T w
  = match TcpipTransfer_try fuel self message rr T
            (emit (EvTransfer message rr) w) with
    | (Raise err, w') =>
        if is_Exception (exc_class err)
        then (res_bind (args_0 err)
                (fun a => Return (mkStatus (-1) (error_text a))), w')
        else (Raise err, w')
    | other => other
    end.
Proof.
  unfold __TcpipTransfer, try_except_Exception.
  destruct (TcpipTransfer_try fuel self message rr T
              (emit (EvTransfer message rr) w)) as [[st|err|] w']; auto.
  destruct (is_Exception (exc_class err)); [|reflexivity].
  unfold TcpipTransfer_except, bind, lift, ret.
  now destruct (args_0 err).
Qed.

(** X1. One direct transfer creates exactly one socket and makes its calls
    on it in a fixed order: [socket], [settimeout] with the caller's
    time-out, [connect] to the configured address and port, [sendall] with
    the encoded message, the [recv] calls with buffer size 4096 (none when
    no response is wanted), [shutdown], [close].  What it logs is a
    non-empty prefix of that sequence, and the whole of it when the status
    returned is 0. *)
Theorem direct_transfer_calls fuel self message rr T w :
  sockets (snd (__TcpipTransfer fuel self message rr T w)) = S (sockets w)
  /\ exists evs recvs,
       log (snd (__TcpipTransfer fuel self message rr T w))
       = log w ++ EvTransfer message rr :: evs
       /\ forallb (recv_on (sockets w)) recvs = true
       /\ (rr = false -> recvs = [])
       /\ prefix_of evs (full_trace (sockets w) self T message recvs)
       /\ evs <> []
       /\ (forall st,
             fst (__TcpipTransfer fuel self message rr T w) = Return st ->
             status_0 st = 0%Z ->
             evs = full_trace (sockets w) self T message recvs).
Proof.
  rewrite TcpipTransfer_unfold.
  destruct (TcpipTransfer_try_trace fuel self message rr T
              (emit (EvTransfer message rr) w))
    as (Hs & evs & recvs & Hl & Hr & Hrr & Hp & Hne & Hfull).
  cbn [emit sockets log] in *. rewrite <- app_assoc in Hl. simpl in Hl.
  destruct (TcpipTransfer_try fuel self message rr T
              (emit (EvTransfer message rr) w)) as [[st|err|] w'];
    cbn [fst snd] in *.
  - split; [exact Hs|]. exists evs, recvs.
    repeat (split; [assumption|]). intros _ _ _. now apply Hfull.
  - destruct (is_Exception (exc_class err)); cbn [fst snd];
      (split; [exact Hs|]); exists evs, recvs;
      repeat (split; [assumption|]); intros st; [|discriminate].
    destruct (args_0 err); cbn; try discriminate.
    intros [= <-]. discriminate.
  - split; [exact Hs|]. exists evs, recvs.
    repeat (split; [assumption|]). discriminate.
Qed.

Lemma received_full_trace_nil fd self T message :
  received (full_trace fd self T message []) = [].
Proof. reflexivity. Qed.

(** A transfer without response reads nothing, cannot be out of fuel, and
    when its [try] block returns the payload is empty. *)
Lemma TcpipTransfer_try_no_response fuel self message T w :
  fst (TcpipTransfer_try fuel self message false T w) <> OutOfFuel
  /\ (forall st,
        fst (TcpipTransfer_try fuel self message false T w) = Return st ->
        st = mkStatus 0 [])
  /\ received (log (snd (TcpipTransfer_try fuel self message false T w)))
     = received (log w).
Proof.
  split; [|split].
  - unfold TcpipTransfer_try, bind, socket_socket, settimeout, connect,
      sendall, shutdown, close, socket_call, lift, ret, fail_or_unit, encode.
    repeat match goal with
           | |- context [match ?c with Some _ => _ | None => _ end] =>
               destruct c; cbn [fst snd]; try discriminate
           end.
  - unfold TcpipTransfer_try, bind, socket_socket, settimeout, connect,
      sendall, shutdown, close, socket_call, lift, ret, fail_or_unit, encode.
    intros st.
    repeat match goal with
           | |- context [match ?c with Some _ => _ | None => _ end] =>
               destruct c; cbn [fst snd]; try discriminate
           end.
    now intros [= <-].
  - destruct (TcpipTransfer_try_trace fuel self message false T w)
      as (_ & evs & recvs & Hl & _ & Hrr & (rest & Hp) & _).
    rewrite (Hrr eq_refl) in Hp. rewrite Hl, received_app.
    apply (f_equal received) in Hp.
    rewrite received_full_trace_nil, received_app in Hp.
    symmetry in Hp. apply app_eq_nil in Hp as [-> _]. apply app_nil_r.
Qed.

(** X2. On a direct connection [write] has no receive loop to be caught in:
    it never runs out of fuel, it makes no [recv] call, and whenever it
    returns, what it returns is the status [[0, ""]]. *)
Theorem direct_write_returns_empty_status fuel self message T w :
  connection_type self <> Some (py "gpiboe") ->
  fst (write fuel self message T w) <> OutOfFuel
  /\ (forall st, fst (write fuel self message T w) = Return st ->
                 st = mkStatus 0 [])
  /\ received (log (snd (write fuel self message T w))) = received (log w).
Proof.
  intros Hk. apply opt_str_eqb_neq in Hk.
  unfold write, bind, lift. destruct (index_last message) as [c|e|] eqn:Hc;
    cbn [fst snd].
  - rewrite Hk.
    set (m := if negb (str_eqb c (message_termination_character self))
              then message ++ message_termination_character self
              else message).
    rewrite TcpipTransfer_unfold.
    destruct (TcpipTransfer_try_no_response fuel self m T
                (emit (EvTransfer m false) w)) as (Hf & Hr & Hrecv).
    assert (Hw : received (log (emit (EvTransfer m false) w))
                 = received (log w)).
    { simpl. rewrite received_app. simpl. apply app_nil_r. }
    rewrite Hw in Hrecv.
    destruct (TcpipTransfer_try fuel self m false T
                (emit (EvTransfer m false) w)) as [[st|err|] w'];
      cbn [fst snd] in *.
    + rewrite (Hr st eq_refl). cbn.
      split; [discriminate|]. split; [now intros st' [= <-]|assumption].
    + destruct (is_Exception (exc_class err)); cbn [fst snd].
      * unfold args_0. destruct (exc_args err); cbn;
          (split; [discriminate|]);
          (split; [intros st'; discriminate|assumption]).
      * split; [discriminate|].
        split; [intros st'; discriminate|assumption].
    + now contradiction Hf.
  - split; [discriminate|]. split; [intros st'; discriminate|reflexivity].
  - unfold index_last in Hc. destruct (rev message); discriminate.
Qed.

(** ** Further properties: the receive loop *)

Lemma no_fault_None f : no_fault f = true -> f = None.
Proof. now destruct f. Qed.

(** With a peer that accepts, the [try] block of a transfer with response
    is the receive loop in the connected world, then [shutdown] and
    [close]. *)
Lemma TcpipTransfer_try_connected fuel self message T w data :
  accepts (peers w (sockets w)) = true ->
  utf8_encode message = Some data ->
  TcpipTransfer_try fuel self message true T w
  = bind (recv_loop fuel self (sockets w) [])
      (fun recv_msg =>
         bind (shutdown (sockets w))
           (fun _ => bind (close (sockets w))
                       (fun _ => ret (mkStatus 0 recv_msg))))
      (connected w self T data).
Proof.
  unfold accepts. intros Ha He.
  repeat (apply andb_true_iff in Ha as [Ha ?]).
  unfold TcpipTransfer_try, bind at 1 2 3 4 5, socket_socket, settimeout,
    connect, sendall, socket_call, lift, encode.
  rewrite (no_fault_None _ Ha). cbn [fst snd emit peers sockets log].
  rewrite (no_fault_None _ H1), (no_fault_None _ H0), He,
    (no_fault_None _ H).
  cbn [fail_or_unit]. unfold connected, emit. cbn [peers sockets log].
  rewrite <- !app_assoc. reflexivity.
Qed.

Lemma recv_count_app fd l1 l2 :
  recv_count fd (l1 ++ l2) = (recv_count fd l1 + recv_count fd l2)%nat.
Proof.
  induction l1 as [|e l1 IH]; [reflexivity|].
  destruct e; simpl; try exact IH. destruct (Nat.eqb fd fd0); simpl; lia.
Qed.

Lemma recv_count_connected fd w self T data :
  recv_count fd (log (connected w self T data)) = recv_count fd (log w).
Proof. unfold connected. simpl. rewrite recv_count_app. simpl. lia. Qed.

Lemma recv_count_emit fd n g w :
  recv_count fd (log (emit (EvRecv fd n g) w)) = S (recv_count fd (log w)).
Proof.
  simpl. rewrite recv_count_app. simpl. rewrite Nat.eqb_refl. lia.
Qed.

(** One turn of the loop when [recv] delivers data that decodes. *)
Lemma recv_loop_step fuel self fd acc w d x :
  nth (recv_count fd (log w)) (recv_script (peers w fd))
    (recv_after (peers w fd)) = inr d ->
  utf8_decode d = Some x ->
  recv_loop (S fuel) self fd acc w
  = match index_last (acc ++ x) with
    | Return c =>
        if str_eqb c (message_termination_character self)
        then (Return (acc ++ x), emit (EvRecv fd 4096 (Some d)) w)
        else recv_loop fuel self fd (acc ++ x)
               (emit (EvRecv fd 4096 (Some d)) w)
    | Raise e => (Raise e, emit (EvRecv fd 4096 (Some d)) w)
    | OutOfFuel => (OutOfFuel, emit (EvRecv fd 4096 (Some d)) w)
    end.
Proof.
  intros Hn Hd. simpl. unfold bind, recv, lift, decode, ret.
  rewrite Hn, Hd. destruct (index_last (acc ++ x)); try reflexivity.
  now destruct (str_eqb a (message_termination_character self)).
Qed.

(** Data that never brings the terminator to the end, followed by a
    connection that delivers the given chunks and then nothing but empty
    data: the loop does not end. *)
Lemma recv_loop_unterminated self fd : forall chunks texts fuel acc w,
  Forall2 (fun d x => utf8_decode d = Some x) chunks texts ->
  unterminated (message_termination_character self) acc texts ->
  (forall i, nth (recv_count fd (log w) + i) (recv_script (peers w fd))
               (recv_after (peers w fd)) = inr (nth i chunks [])) ->
  (chunks <> []
   \/ (acc <> []
       /\ index_last acc <> Return (message_termination_character self))) ->
  fst (recv_loop fuel self fd acc w) = OutOfFuel.
Proof.
  induction chunks as [|d chunks IH]; intros texts fuel acc w Hf Hu Hn Hne.
  - destruct Hne as [Hne|(Hacc & Hlast)]; [now contradiction Hne|].
    clear Hf Hu texts. revert w Hn.
    induction fuel as [|fuel IHf]; intros w Hn; [reflexivity|].
    pose proof (Hn 0%nat) as H0. rewrite Nat.add_0_r in H0. simpl in H0.
    rewrite (recv_loop_step fuel self fd acc w [] [] H0 eq_refl).
    rewrite app_nil_r.
    destruct (index_last acc) as [c|e|] eqn:Hc.
    + destruct (str_eqb c (message_termination_character self)) eqn:Ht.
      * apply str_eqb_eq in Ht. congruence.
      * apply IHf. intros i. rewrite recv_count_emit.
        cbn [emit peers]. replace (S (recv_count fd (log w)) + i)%nat
          with (recv_count fd (log w) + S i)%nat by lia.
        rewrite Hn. now destruct i.
    + unfold index_last in Hc. destruct (rev acc) eqn:Hr; [|discriminate].
      apply (f_equal (@rev _)) in Hr. rewrite rev_involutive in Hr.
      now contradiction Hacc.
    + unfold index_last in Hc. destruct (rev acc); discriminate.
  - inversion Hf as [|d' x chunks' texts' Hd Hf' E1 E2]; subst.
    destruct Hu as (Hx & Hlast & Hu).
    destruct fuel as [|fuel]; [reflexivity|].
    pose proof (Hn 0%nat) as H0. rewrite Nat.add_0_r in H0. simpl in H0.
    rewrite (recv_loop_step fuel self fd acc w d x H0 Hd).
    destruct (index_last (acc ++ x)) as [c|e|] eqn:Hc.
    + destruct (str_eqb c (message_termination_character self)) eqn:Ht.
      * apply str_eqb_eq in Ht. congruence.
      * apply (IH texts' fuel (acc ++ x));
          [exact Hf'|exact Hu| |right; split; [exact Hx|now rewrite Hc]].
        intros i. rewrite recv_count_emit. cbn [emit peers].
        replace (S (recv_count fd (log w)) + i)%nat
          with (recv_count fd (log w) + S i)%nat by lia.
        now rewrite Hn.
    + unfold index_last in Hc.
      destruct (rev (acc ++ x)) eqn:Hr; [|discriminate].
      apply (f_equal (@rev _)) in Hr. rewrite rev_involutive in Hr.
      now contradiction Hx.
    + unfold index_last in Hc. destruct (rev (acc ++ x)); discriminate.
Qed.

Lemma recv_count_transfer fd m r w :
  recv_count fd (log (emit (EvTransfer m r) w)) = recv_count fd (log w).
Proof. simpl. rewrite recv_count_app. simpl. lia. Qed.

(** X3. The peer accepts the connection and the message and then delivers
    empty data, as a closed connection does: the first look at the last
    character of the empty text raises [IndexError] inside the [try] block,
    and the transfer returns the status [-1] with the text of that error;
    the socket has been neither shut down nor closed. *)
Theorem empty_read_is_reported fuel self message T w data :
  accepts (peers w (sockets w)) = true ->
  utf8_encode message = Some data ->
  nth (recv_count (sockets w) (log w))
    (recv_script (peers w (sockets w))) (recv_after (peers w (sockets w)))
  = inr [] ->
  __TcpipTransfer (S fuel) self message true T w
  = (Return (mkStatus (-1)
               (py "[ERROR] during TCPIP transfer: string index out of range")),
     mkWorld (peers w) (S (sockets w))
       (log w
        ++ [EvTransfer message true; EvSocket (sockets w);
            EvSetTimeout (sockets w) T;
            EvConnect (sockets w) (device_ip_address self) (device_port self);
            EvSendall (sockets w) data;
            EvRecv (sockets w) 4096 (Some [])])).
Proof.
  intros Ha He Hn. rewrite TcpipTransfer_unfold.
  rewrite (TcpipTransfer_try_connected (S fuel) self message T
             (emit (EvTransfer message true) w) data Ha He).
  cbn [emit sockets]. unfold bind at 1.
  rewrite (recv_loop_step fuel self (sockets w) [] _ [] []).
  - cbn. unfold connected, emit. cbn. rewrite <- !app_assoc. reflexivity.
  - rewrite recv_count_connected, recv_count_transfer. exact Hn.
  - reflexivity.
Qed.

(** X4. The peer accepts the connection and the message, delivers data
    that decodes but never brings the terminator to the end of the text
    read so far, and then, like a closed connection, empty data for ever:
    the transfer neither returns nor raises, whatever the fuel; no time-out
    ends it, since every [recv] returns at once. *)
Theorem unterminated_reply_never_returns
  fuel self message T w data chunks texts :
  accepts (peers w (sockets w)) = true ->
  utf8_encode message = Some data ->
  recv_count (sockets w) (log w) = 0%nat ->
  recv_script (peers w (sockets w)) = map inr chunks ->
  recv_after (peers w (sockets w)) = inr [] ->
  Forall2 (fun d x => utf8_decode d = Some x) chunks texts ->
  chunks <> [] ->
  unterminated (message_termination_character self) [] texts ->
  fst (__TcpipTransfer fuel self message true T w) = OutOfFuel.
Proof.
  intros Ha He Hc Hs Hr Hf Hne Hu. rewrite TcpipTransfer_unfold.
  rewrite (TcpipTransfer_try_connected fuel self message T
             (emit (EvTransfer message true) w) data Ha He).
  unfold bind at 1.
  match goal with
  | |- context [recv_loop fuel self ?fd [] ?W] =>
      assert (Hloop : fst (recv_loop fuel self fd [] W) = OutOfFuel);
      [|destruct (recv_loop fuel self fd [] W) as [r w5];
        cbn [fst] in Hloop; now rewrite Hloop]
  end.
  apply (recv_loop_unterminated self _ chunks texts); [exact Hf|exact Hu|
                                                       |now left].
  intros i. rewrite recv_count_connected, recv_count_transfer.
  cbn [peers connected emit sockets]. rewrite Hc, Hs, Hr.
  apply (map_nth (@inr PyExc bytes)).
Qed.

(** The loop reads a reply that arrives in several chunks to its end. *)
Lemma recv_loop_reads self fd last_chunk last_text :
  utf8_decode last_chunk = Some last_text ->
  forall chunks texts fuel acc w,
    Forall2 (fun d x => utf8_decode d = Some x) chunks texts ->
    unterminated (message_termination_character self) acc texts ->
    (forall i, (i <= List.length chunks)%nat ->
       nth (recv_count fd (log w) + i) (recv_script (peers w fd))
         (recv_after (peers w fd))
       = inr (nth i (chunks ++ [last_chunk]) [])) ->
    index_last (acc ++ List.concat texts ++ last_text)
    = Return (message_termination_character self) ->
    (List.length chunks < fuel)%nat ->
    recv_loop fuel self fd acc w
    = (Return (acc ++ List.concat texts ++ last_text),
       mkWorld (peers w) (sockets w)
         (log w ++ recv_events fd (chunks ++ [last_chunk]))).
Proof.
  intros Hd.
  induction chunks as [|d chunks IH]; intros texts fuel acc w Hf Hu Hn Hl Hfu.
  - inversion Hf; subst. simpl in Hl.
    destruct fuel as [|fuel]; [simpl in Hfu; lia|].
    pose proof (Hn 0%nat (Nat.le_0_l _)) as H0.
    rewrite Nat.add_0_r in H0. simpl in H0.
    rewrite (recv_loop_step fuel self fd acc w last_chunk last_text H0 Hd).
    simpl. rewrite Hl, str_eqb_refl. reflexivity.
  - inversion Hf as [|d' x chunks' texts' Hdx Hf' E1 E2]; subst.
    destruct Hu as (Hx & Hlast & Hu).
    destruct fuel as [|fuel]; [simpl in Hfu; lia|].
    pose proof (Hn 0%nat (Nat.le_0_l _)) as H0.
    rewrite Nat.add_0_r in H0. simpl in H0.
    rewrite (recv_loop_step fuel self fd acc w d x H0 Hdx).
    destruct (index_last (acc ++ x)) as [c|e|] eqn:Hc.
    + destruct (str_eqb c (message_termination_character self)) eqn:Ht.
      * apply str_eqb_eq in Ht. congruence.
      * rewrite (IH texts' fuel (acc ++ x)
                   (emit (EvRecv fd 4096 (Some d)) w) Hf' Hu).
        -- simpl. rewrite <- !app_assoc. reflexivity.
        -- intros i Hi. rewrite recv_count_emit. cbn [emit peers].
           replace (S (recv_count fd (log w)) + i)%nat
             with (recv_count fd (log w) + S i)%nat by lia.
           rewrite Hn by (simpl; lia). reflexivity.
        -- simpl in Hl. now rewrite <- !app_assoc in *.
        -- simpl in Hfu. lia.
    + unfold index_last in Hc.
      destruct (rev (acc ++ x)) eqn:Hr; [|discriminate].
      apply (f_equal (@rev _)) in Hr. rewrite rev_involutive in Hr.
      now contradiction Hx.
    + unfold index_last in Hc. destruct (rev (acc ++ x)); discriminate.
Qed.

(** A reply that arrives in several chunks, of which only the last brings
    the terminator to the end of the text, is read to its end. *)
Lemma TcpipTransfer_reassembles
  fuel self message T w data chunks texts last_chunk last_text more :
  accepts (peers w (sockets w)) = true ->
  releases (peers w (sockets w)) = true ->
  utf8_encode message = Some data ->
  recv_count (sockets w) (log w) = 0%nat ->
  recv_script (peers w (sockets w))
  = map inr (chunks ++ [last_chunk]) ++ more ->
  Forall2 (fun d x => utf8_decode d = Some x) chunks texts ->
  utf8_decode last_chunk = Some last_text ->
  unterminated (message_termination_character self) [] texts ->
  index_last (List.concat texts ++ last_text)
  = Return (message_termination_character self) ->
  (List.length chunks < fuel)%nat ->
  __TcpipTransfer fuel self message true T w
  = (Return (mkStatus 0 (List.concat texts ++ last_text)),
     mkWorld (peers w) (S (sockets w))
       (log w
        ++ EvTransfer message true
           :: full_trace (sockets w) self T message
                (recv_events (sockets w) (chunks ++ [last_chunk])))).
Proof.
  intros Ha Hrel He Hc Hs Hf Hd Hu Hl Hfu. rewrite TcpipTransfer_unfold.
  rewrite (TcpipTransfer_try_connected fuel self message T
             (emit (EvTransfer message true) w) data Ha He).
  unfold bind at 1.
  rewrite (recv_loop_reads self _ last_chunk last_text Hd
             chunks texts fuel [] _ Hf Hu); [|  |exact Hl|exact Hfu].
  - unfold releases in Hrel. apply andb_true_iff in Hrel as [H1 H2].
    unfold bind, shutdown, close, socket_call, ret.
    cbn [peers connected emit sockets fst snd].
    rewrite (no_fault_None _ H1), (no_fault_None _ H2).
    cbn. unfold full_trace, wire_data, emit. rewrite He.
    cbn [peers sockets log]. rewrite <- !app_assoc. reflexivity.
  - intros i Hi. rewrite recv_count_connected, recv_count_transfer.
    cbn [peers connected emit sockets]. rewrite Hc, Hs. simpl.
    rewrite app_nth1 by (rewrite length_map, length_app; simpl; lia).
    transitivity (nth i (map (@inr PyExc bytes) (chunks ++ [last_chunk]))
                    (inr [])).
    + apply nth_indep. rewrite length_map, length_app. simpl. lia.
    + apply (map_nth (@inr PyExc bytes)).
Qed.

(** ** Further properties: the gateway *)

(** X6. Whatever the direct transport delivers other than a status of code
    0, be it a status with another code, an exception it let through or the
    end of the fuel, is the outcome of the gateway transfer, unchanged and
    in the same world: after a Write transfer that failed nothing more is
    done, and a Read transfer that failed ends the call the same way. *)
Theorem gateway_passes_transport_outcomes fuel self message rr T w :
  (forall r w1,
     __TcpipTransfer fuel self (write_frame self message) true T w = (r, w1) ->
     (forall st, r = Return st -> status_0 st <> 0%Z) ->
     __GpiboeTransfer fuel self message rr T w = (r, w1))
  /\ (forall ack text r w1 w2,
        __TcpipTransfer fuel self (write_frame self message) true T w
        = (Return (mkStatus 0 ack), w1) ->
        __ParseGpiboeReceiveMessage ack = Return (mkStatus 0 text) ->
        __TcpipTransfer fuel self (read_frame self) true T w1 = (r, w2) ->
        (forall st, r = Return st -> status_0 st <> 0%Z) ->
        __GpiboeTransfer fuel self message true T w = (r, w2)).
Proof.
  split.
  - intros r w1 E1 Hr. unfold __GpiboeTransfer, bind, ret.
    fold (write_frame self message). rewrite E1.
    destruct r as [st| |]; try reflexivity.
    specialize (Hr st eq_refl). apply Z.eqb_neq in Hr. now rewrite Hr.
  - intros ack text r w1 w2 E1 Hack E2 Hr.
    unfold __GpiboeTransfer, bind, lift, ret.
    fold (write_frame self message). fold (read_frame self).
    rewrite E1. simpl. rewrite Hack. simpl. rewrite E2.
    destruct r as [st| |]; try reflexivity.
    specialize (Hr st eq_refl). apply Z.eqb_neq in Hr. now rewrite Hr.
Qed.

(** X7. Through a gateway that acknowledges the Write frame with status 0,
    [write] returns the parsed acknowledgement after that one transfer, and
    [query] goes on to the Read transfer and answers with its parsed reply:
    it returns the reply's status and payload when the status is 0 and
    raises the [ConnectionError] that carries them when it is not. *)
Theorem gateway_query_answer
  fuel self message T w ack text reply g w1 w2 :
  connection_type self = Some (py "gpiboe") ->
  message <> [] ->
  __TcpipTransfer fuel self (write_frame self (outgoing self message)) true T w
  = (Return (mkStatus 0 ack), w1) ->
  __ParseGpiboeReceiveMessage ack = Return (mkStatus 0 text) ->
  __TcpipTransfer fuel self (read_frame self) true T w1
  = (Return (mkStatus 0 reply), w2) ->
  __ParseGpiboeReceiveMessage reply = Return g ->
  write fuel self message T w = (Return (mkStatus 0 text), w1)
  /\ query fuel self message T w
     = (if (status_0 g =? 0)%Z then Return g
        else Raise (mkExc ConnectionError
                      [AStr (py "ERROR: " ++ str_of_int (status_0 g)
                             ++ py ", " ++ status_1 g)]), w2).
Proof.
  intros Hk Hm E1 Hack E2 Hg. apply opt_str_eqb_eq in Hk.
  rewrite write_unfold, query_unfold by assumption.
  unfold transport, __GpiboeTransfer, bind, lift, ret. rewrite Hk.
  fold (write_frame self (outgoing self message)). fold (read_frame self).
  rewrite E1. simpl. rewrite Hack. simpl. rewrite E2. simpl. rewrite Hg.
  split; reflexivity.
Qed.

Lemma split1_shape sep s :
  (split1 sep s = [s] /\ ~ In sep s)
  \/ exists a b, split1 sep s = [a; b] /\ s = a ++ sep :: b /\ ~ In sep a.
Proof.
  induction s as [|c s IH].
  - left. split; [reflexivity|]. intros [].
  - simpl. destruct (N.eqb_spec c sep) as [->|Hn].
    + right. exists [], s. split; [reflexivity|]. split; [reflexivity|].
      intros [].
    + destruct IH as [(-> & Hs)|(a & b & -> & -> & Ha)].
      * left. split; [reflexivity|]. intros [H|H]; [congruence|auto].
      * right. exists (c :: a), b. split; [reflexivity|].
        split; [reflexivity|]. intros [H|H]; [congruence|auto].
Qed.

(** X8. Parsing a gateway reply loses no character: a reply that parses is
    its status field, free of ['|'], on which [int()] gave the status code,
    followed either by nothing (and then the payload is empty) or by ['|']
    and the payload; a reply that does not parse raises what [int()] raised
    on its status field. *)
Theorem parse_keeps_every_character reply :
  ~ In PIPE (status_field reply)
  /\ match __ParseGpiboeReceiveMessage reply with
     | Return st =>
         py_int (status_field reply) = Return (status_0 st)
         /\ ((reply = status_field reply /\ status_1 st = [])
             \/ reply = status_field reply ++ PIPE :: status_1 st)
     | Raise e => py_int (status_field reply) = Raise e
     | OutOfFuel => False
     end.
Proof.
  rewrite Parse_field. unfold status_field.
  destruct (split1_shape PIPE reply) as [(Hs & Hn)|(a & b & Hs & Hr & Hn)];
    rewrite Hs; cbn [nth].
  - split; [exact Hn|].
    destruct (py_int reply) as [z|e|] eqn:Hi; cbn; auto.
    now apply (py_int_fuel reply).
  - split; [exact Hn|].
    destruct (py_int a) as [z|e|] eqn:Hi; cbn; auto.
    now apply (py_int_fuel a).
Qed.

(** ** Further properties: [write] and [query] on a direct connection *)

Lemma utf8_encode_ascii s :
  Forall (fun c => (c < 128)%N) s -> utf8_encode s = Some (map byte_of s).
Proof.
  induction 1 as [|c s Hc _ IH]; [reflexivity|].
  simpl. rewrite IH. unfold utf8_encode_char.
  apply N.ltb_lt in Hc. now rewrite Hc.
Qed.

(** With a peer that accepts, the [try] block hands the encoded message to
    [sendall], and nothing else. *)
Lemma TcpipTransfer_try_sends fuel self message rr T w data :
  accepts (peers w (sockets w)) = true ->
  utf8_encode message = Some data ->
  sent (log (snd (TcpipTransfer_try fuel self message rr T w)))
  = sent (log w) ++ [data].
Proof.
  unfold accepts. intros Ha He.
  repeat (apply andb_true_iff in Ha as [Ha ?]).
  unfold TcpipTransfer_try, bind at 1 2 3 4 5, socket_socket, settimeout,
    connect, sendall, socket_call, lift, encode.
  rewrite (no_fault_None _ Ha). cbn [fst snd emit peers sockets log].
  rewrite (no_fault_None _ H1), (no_fault_None _ H0), He,
    (no_fault_None _ H).
  cbn [fail_or_unit].
  set (w4 := emit _ (emit _ (emit _ (mkWorld _ _ _)))).
  assert (H4 : sent (log w4) = sent (log w) ++ [data]).
  { subst w4. simpl. rewrite !sent_app. simpl. now rewrite !app_nil_r. }
  clearbody w4. unfold bind, shutdown, close, socket_call, ret.
  destruct rr.
  - destruct (recv_loop_log fuel self (sockets w) [] w4)
      as (_ & _ & evs & Hl & Hev).
    apply sent_recv_events in Hev.
    destruct (recv_loop fuel self (sockets w) [] w4) as [[s|e|] w5];
      cbn [fst snd] in *.
    + destruct (fail_or_unit (shutdown_fault (peers w5 (sockets w))));
        [destruct (fail_or_unit
                     (close_fault
                        (peers (emit (EvShutdown (sockets w)) w5)
                           (sockets w))))| |];
        simpl; sent_simpl; rewrite Hl, sent_app, Hev, H4;
        now rewrite ?app_nil_r.
    + rewrite Hl, sent_app, Hev, H4. now rewrite app_nil_r.
    + rewrite Hl, sent_app, Hev, H4. now rewrite app_nil_r.
  - cbn [fst snd].
    destruct (fail_or_unit (shutdown_fault (peers w4 (sockets w))));
      [destruct (fail_or_unit
                   (close_fault
                      (peers (emit (EvShutdown (sockets w)) w4)
                         (sockets w))))| |];
      simpl; sent_simpl; rewrite H4; now rewrite ?app_nil_r.
Qed.

Lemma TcpipTransfer_sends fuel self message rr T w data :
  accepts (peers w (sockets w)) = true ->
  utf8_encode message = Some data ->
  sent (log (snd (__TcpipTransfer fuel self message rr T w)))
  = sent (log w) ++ [data].
Proof.
  intros Ha He. rewrite TcpipTransfer_unfold.
  pose proof (TcpipTransfer_try_sends fuel self message rr T
                (emit (EvTransfer message rr) w) data Ha He) as Hs.
  assert (Hw : sent (log (emit (EvTransfer message rr) w)) = sent (log w)).
  { simpl. rewrite sent_app. simpl. apply app_nil_r. }
  rewrite Hw in Hs.
  destruct (TcpipTransfer_try fuel self message rr T
              (emit (EvTransfer message rr) w)) as [[st|err|] w'];
    cbn [snd] in *; try exact Hs.
  now destruct (is_Exception (exc_class err)).
Qed.

Lemma write_world fuel self message T w :
  message <> [] ->
  snd (write fuel self message T w)
  = snd (transport fuel self (outgoing self message) false T w).
Proof. intros Hm. now rewrite write_unfold, snd_bind_lift. Qed.

Lemma query_world fuel self message T w :
  message <> [] ->
  snd (query fuel self message T w)
  = snd (transport fuel self (outgoing self message) true T w).
Proof. intros Hm. now rewrite query_unfold, snd_bind_lift. Qed.

Lemma terminated_ascii t message :
  Forall (fun c => (c < 128)%N) message -> (t < 128)%N ->
  Forall (fun c => (c < 128)%N) (terminated t message).
Proof.
  intros Hm Ht. unfold terminated. destruct (ends_with t message); auto.
  apply Forall_app. auto.
Qed.

(** X9. On a direct connection whose peer accepts, a non-empty ASCII
    command goes on the wire byte for byte, with the terminator once at its
    end: [write] and [query] hand [sendall] exactly that data, once. *)
Theorem ascii_command_on_the_wire fuel self message t T w :
  connection_type self <> Some (py "gpiboe") ->
  message_termination_character self = [t] ->
  message <> [] ->
  Forall (fun c => (c < 128)%N) message ->
  (t < 128)%N ->
  accepts (peers w (sockets w)) = true ->
  sent (log (snd (write fuel self message T w)))
  = sent (log w) ++ [map byte_of (terminated t message)]
  /\ sent (log (snd (query fuel self message T w)))
     = sent (log w) ++ [map byte_of (terminated t message)].
Proof.
  intros Hk Ht Hm Hascii Hta Ha. apply opt_str_eqb_neq in Hk.
  rewrite write_world, query_world by assumption.
  unfold transport. rewrite Hk, (outgoing_terminated _ _ _ Ht Hm).
  pose proof (utf8_encode_ascii _ (terminated_ascii t message Hascii Hta))
    as He.
  split; now apply TcpipTransfer_sends.
Qed.

(** X10. In a world whose faults are all instances of [Exception] with an
    argument, a call on a direct connection can end in three ways only: it
    returns a status of code 0; it raises the [IndexError] of the empty
    command; or it raises the [ConnectionError] whose message is
    ["ERROR: -1, [ERROR] during TCPIP transfer: "] followed by the first
    argument of the fault.  Only [query] can be out of fuel. *)
Theorem direct_call_outcomes fuel self message (rr : bool) T w :
  connection_type self <> Some (py "gpiboe") ->
  tame_world w ->
  match fst ((if rr then query else write) fuel self message T w) with
  | Return st => status_0 st = 0%Z
  | Raise e =>
      (message = []
       /\ e = mkExc IndexError [AStr (py "string index out of range")])
      \/ exists a,
           e = mkExc ConnectionError
                 [AStr (py "ERROR: -1, " ++ error_text a)]
  | OutOfFuel => rr = true
  end.
Proof.
  intros Hk Hw. apply opt_str_eqb_neq in Hk.
  destruct message as [|c0 message'] eqn:Em.
  { destruct rr; cbn; left; auto. }
  rewrite <- Em. assert (Hm : message <> []) by (rewrite Em; discriminate).
  clear Em.
  assert (Hcall : (if rr then query else write) fuel self message T w
                  = bind (transport fuel self (outgoing self message) rr T)
                      (fun status => lift (__HandleStatus status)) w).
  { destruct rr; [apply query_unfold|apply write_unfold]; assumption. }
  rewrite Hcall. unfold transport, bind, lift. rewrite Hk.
  set (m := outgoing self message). rewrite TcpipTransfer_unfold.
  assert (Hw0 : tame_world (emit (EvTransfer m rr) w)) by exact Hw.
  destruct (safe_TcpipTransfer_try fuel self m rr T
              (emit (EvTransfer m rr) w)) as (_ & Htame).
  specialize (Htame Hw0).
  pose proof (TcpipTransfer_try_code fuel self m rr T
                (emit (EvTransfer m rr) w)) as Hcode.
  assert (Hfuel : rr = false ->
            fst (TcpipTransfer_try fuel self m rr T
                   (emit (EvTransfer m rr) w)) <> OutOfFuel).
  { intros ->. apply TcpipTransfer_try_no_response. }
  destruct (TcpipTransfer_try fuel self m rr T
              (emit (EvTransfer m rr) w)) as [[st|err|] w'];
    cbn [fst snd] in *.
  - pose proof (Hcode st w' eq_refl) as H0.
    pose proof (proj2 (Z.eqb_eq _ _) H0) as H0'.
    unfold __HandleStatus. rewrite H0'. exact H0.
  - specialize (Htame err eq_refl). unfold tame in Htame.
    apply andb_true_iff in Htame as [Hc Ha]. rewrite Hc.
    unfold args_0. destruct (exc_args err) as [|a rest]; [discriminate|].
    cbn. right. exists a. reflexivity.
  - destruct rr; [reflexivity|]. now contradiction (Hfuel eq_refl).
Qed.

(** ** Further properties: constructors and the driver *)

(** A [write] makes one request, whatever the connection: the command with
    its terminator, bare or in its Write frame, and never a Read frame. *)
Lemma write_requests fuel self message T w :
  message <> [] ->
  requests (log (snd (write fuel self message T w)))
  = requests (log w) ++ [first_request self (outgoing self message) false].
Proof.
  intros Hm. rewrite write_world by assumption.
  unfold transport, first_request, first_frame.
  destruct (opt_str_eqb (connection_type self) (py "gpiboe")).
  - rewrite GpiboeTransfer_requests. now rewrite andb_false_r.
  - apply TcpipTransfer_requests.
Qed.

Lemma query_requests fuel self message T w :
  message <> [] ->
  exists rest,
    requests (log (snd (query fuel self message T w)))
    = requests (log w) ++ first_request self (outgoing self message) true
                          :: rest.
Proof.
  intros Hm. rewrite query_world by assumption. apply transport_requests.
Qed.

(** X11. The named constructors and where their connections send: [tcpip]
    always constructs, and a [write] on its connection makes the one
    request of the bare, terminated command; [gpiboe] constructs exactly
    for addresses 1 to 30, keeps the gateway's address as the address to
    connect to, and a [write] on its connection makes the one request of
    the Write frame with that GPIB address. *)
Theorem named_constructors_route fuel ip gw a message T w0 w :
  message <> [] ->
  tcpip ip w0
  = (Return (mkConnection (Some (py "tcpip")) ip 5025 None [LF]), w0)
  /\ (forall c, fst (tcpip ip w0) = Return c ->
        requests (log (snd (write fuel c message T w)))
        = requests (log w) ++ [(terminated LF message, false)])
  /\ (returns (fst (gpiboe (Some a) gw w0)) = true <-> (1 <= a <= 30)%Z)
  /\ (forall c, fst (gpiboe (Some a) gw w0) = Return c ->
        c = mkConnection (Some (py "gpiboe")) gw 5025 (Some a) [LF]
        /\ requests (log (snd (write fuel c message T w)))
           = requests (log w)
             ++ [(py "W|" ++ str_of_int a ++ py "|" ++ terminated LF message,
                  true)]).
Proof.
  intros Hm.
  assert (Hg : gpiboe (Some a) gw w0
               = (if ((1 <=? a) && (a <=? 30))%Z
                  then Return (mkConnection (Some (py "gpiboe")) gw 5025
                                 (Some a) [LF])
                  else Raise (mkExc ValueError
                                [AStr (py "GPIB address out of range!")]),
                  w0)).
  { unfold gpiboe, __init__, bind, lift, raise, ret.
    replace (opt_str_eqb (Some (py "gpiboe")) (py "tcpip")) with false
      by reflexivity.
    replace (opt_str_eqb (Some (py "gpiboe")) (py "gpiboe")) with true
      by reflexivity.
    cbn [negb orb]. rewrite ValidateGpibAddress_range.
    now destruct ((1 <=? a) && (a <=? 30))%Z. }
  split; [reflexivity|]. split; [|split].
  - intros c [= <-]. rewrite write_requests by assumption.
    unfold first_request, first_frame. cbn [connection_type].
    replace (opt_str_eqb (Some (py "tcpip")) (py "gpiboe")) with false
      by reflexivity.
    now rewrite (outgoing_terminated
                   (mkConnection (Some (py "tcpip")) ip 5025 None [LF])
                   message LF eq_refl Hm).
  - rewrite Hg. cbn [fst].
    destruct ((1 <=? a) && (a <=? 30))%Z eqn:E; cbn; split; auto;
      try discriminate; lia.
  - intros c. rewrite Hg. cbn [fst].
    destruct ((1 <=? a) && (a <=? 30))%Z; [|discriminate].
    intros [= <-]. split; [reflexivity|].
    rewrite write_requests by assumption.
    unfold first_request, first_frame, write_frame.
    cbn [connection_type device_gpib_address str_of_opt_int].
    replace (opt_str_eqb (Some (py "gpiboe")) (py "gpiboe")) with true
      by reflexivity.
    now rewrite (outgoing_terminated
                   (mkConnection (Some (py "gpiboe")) gw 5025 (Some a) [LF])
                   message LF eq_refl Hm).
Qed.

Lemma outgoing_snoc self s c t :
  message_termination_character self = [t] -> c <> t ->
  outgoing self (s ++ [c]) = s ++ [c] ++ [t].
Proof.
  intros Ht Hc. unfold outgoing. rewrite index_last_snoc, Ht, str_eqb_single.
  apply N.eqb_neq in Hc. rewrite Hc. now rewrite <- app_assoc.
Qed.

Lemma snd_bind_ret {A B} (c : M A) (b : B) w :
  snd (bind c (fun _ => ret b) w) = snd (c w)
  /\ fst (bind c (fun _ => ret b) w) = res_bind (fst (c w)) (fun _ => Return b).
Proof. unfold bind, ret. now destruct (c w) as [[a| |] w1]. Qed.

Section Driver.
Context {fl : PyFloat}.

(** X12. [set_output_state] sends one command, ["OUTP 0"] for [False] and
    ["OUTP 1"] for [True], with the terminator added: on a connection whose
    terminator is the newline it makes exactly one request, of that command
    bare or in its Write frame, never expecting a response; it returns
    [None] exactly when the [write] returns and raises what it raises. *)
Theorem output_state_command fuel self (value : bool) w :
  message_termination_character self = [LF] ->
  requests (log (snd (set_output_state fuel self value w)))
  = requests (log w)
    ++ [first_request self
          (py (if value then "OUTP 1" else "OUTP 0") ++ [LF]) false]
  /\ fst (set_output_state fuel self value w)
     = res_bind
         (fst (write fuel self (py (if value then "OUTP 1" else "OUTP 0")) 1 w))
         (fun _ => Return tt).
Proof.
  intros Ht. unfold set_output_state.
  destruct value; cbn [negb];
    match goal with
    | |- context [bind ?c (fun _ => ret tt) w] =>
        destruct (snd_bind_ret c tt w) as [-> ->]
    end;
    (split; [|reflexivity]);
    (rewrite write_requests by discriminate);
    [change (py "OUTP 1") with (py "OUTP " ++ [49%N])
    |change (py "OUTP 0") with (py "OUTP " ++ [48%N])];
    rewrite (outgoing_snoc self _ _ LF Ht) by discriminate;
    now rewrite <- app_assoc.
Qed.

(** X13. [set_voltage] and [set_current] send ["VOLT " + str(value) + "V"]
    and ["CURR " + str(value) + "A"]: whatever [str(value)] is, the command
    is not empty and does not end in the newline, so the terminator is
    always added and exactly one request is made, never expecting a
    response; the call returns [None] exactly when the [write] returns. *)
Theorem set_value_commands fuel self (value : float) w :
  message_termination_character self = [LF] ->
  requests (log (snd (set_voltage fuel self value w)))
  = requests (log w)
    ++ [first_request self
          (py "VOLT " ++ str_of_float value ++ py "V" ++ [LF]) false]
  /\ requests (log (snd (set_current fuel self value w)))
     = requests (log w)
       ++ [first_request self
             (py "CURR " ++ str_of_float value ++ py "A" ++ [LF]) false]
  /\ fst (set_voltage fuel self value w)
     = res_bind
         (fst (write fuel self (py "VOLT " ++ str_of_float value ++ py "V")
                 1 w))
         (fun _ => Return tt)
  /\ fst (set_current fuel self value w)
     = res_bind
         (fst (write fuel self (py "CURR " ++ str_of_float value ++ py "A")
                 1 w))
         (fun _ => Return tt).
Proof.
  intros Ht. unfold set_voltage, set_current.
  assert (Hne : forall (a b : str) (c : codepoint), a ++ b ++ [c] <> []).
  { intros a b c H. apply app_eq_nil in H as [_ H].
    apply app_eq_nil in H as [_ H]. discriminate. }
  repeat match goal with
         | |- context [bind ?c (fun _ => ret tt) w] =>
             destruct (snd_bind_ret c tt w) as [-> ->]
         end.
  split; [|split; [|split; reflexivity]].
  - rewrite write_requests by apply Hne.
    change (py "V") with [86%N]. rewrite app_assoc.
    rewrite (outgoing_snoc self _ _ LF Ht) by discriminate.
    now rewrite <- !app_assoc.
  - rewrite write_requests by apply Hne.
    change (py "A") with [65%N]. rewrite app_assoc.
    rewrite (outgoing_snoc self _ _ LF Ht) by discriminate.
    now rewrite <- !app_assoc.
Qed.

(** X14. [measure_voltage] and [measure_current] query ["MEAS:VOLT?"] and
    ["MEAS:CURR?"] with the terminator added, expecting a response; when
    the query returns a status they hand its payload, the second element,
    to [float()], and its result or error is theirs; when the query raises
    they raise the same. *)
Theorem measure_commands fuel self w :
  message_termination_character self = [LF] ->
  (exists rest,
     requests (log (snd (measure_voltage fuel self w)))
     = requests (log w)
       ++ first_request self (py "MEAS:VOLT?" ++ [LF]) true :: rest)
  /\ (exists rest,
        requests (log (snd (measure_current fuel self w)))
        = requests (log w)
          ++ first_request self (py "MEAS:CURR?" ++ [LF]) true :: rest)
  /\ measure_voltage fuel self w
     = (res_bind (fst (query fuel self (py "MEAS:VOLT?") 1 w))
          (fun read_data => float_of_str (status_1 read_data)),
        snd (query fuel self (py "MEAS:VOLT?") 1 w))
  /\ measure_current fuel self w
     = (res_bind (fst (query fuel self (py "MEAS:CURR?") 1 w))
          (fun read_data => float_of_str (status_1 read_data)),
        snd (query fuel self (py "MEAS:CURR?") 1 w)).
Proof.
  intros Ht.
  assert (Hv : measure_voltage fuel self w
               = (res_bind (fst (query fuel self (py "MEAS:VOLT?") 1 w))
                    (fun read_data => float_of_str (status_1 read_data)),
                  snd (query fuel self (py "MEAS:VOLT?") 1 w))).
  { unfold measure_voltage, bind, lift.
    now destruct (query fuel self (py "MEAS:VOLT?") 1 w) as [[st| |] w']. }
  assert (Hc : measure_current fuel self w
               = (res_bind (fst (query fuel self (py "MEAS:CURR?") 1 w))
                    (fun read_data => float_of_str (status_1 read_data)),
                  snd (query fuel self (py "MEAS:CURR?") 1 w))).
  { unfold measure_current, bind, lift.
    now destruct (query fuel self (py "MEAS:CURR?") 1 w) as [[st| |] w']. }
  split; [|split; [|split; assumption]].
  - rewrite Hv. cbn [snd].
    destruct (query_requests fuel self (py "MEAS:VOLT?") 1 w
                ltac:(discriminate)) as (rest & ->).
    exists rest. change (py "MEAS:VOLT?") with (py "MEAS:VOLT" ++ [63%N]).
    rewrite (outgoing_snoc self _ _ LF Ht) by discriminate.
    now rewrite <- app_assoc.
  - rewrite Hc. cbn [snd].
    destruct (query_requests fuel self (py "MEAS:CURR?") 1 w
                ltac:(discriminate)) as (rest & ->).
    exists rest. change (py "MEAS:CURR?") with (py "MEAS:CURR" ++ [63%N]).
    rewrite (outgoing_snoc self _ _ LF Ht) by discriminate.
    now rewrite <- app_assoc.
Qed.

End Driver.

(** X5. On a direct connection whose peer accepts, a reply that arrives in
    several chunks, of which only the last brings the terminator to the end
    of the text read so far, is put together again: with fuel for one
    [recv] per chunk, [query] returns status 0 with the decodings of all
    the chunks joined in order, having made exactly the calls of one
    complete transfer, one [recv] per chunk. *)
Theorem split_reply_is_reassembled
  fuel self message T w data chunks texts last_chunk last_text more :
  connection_type self <> Some (py "gpiboe") ->
  message <> [] ->
  accepts (peers w (sockets w)) = true ->
  releases (peers w (sockets w)) = true ->
  utf8_encode (outgoing self message) = Some data ->
  recv_count (sockets w) (log w) = 0%nat ->
  recv_script (peers w (sockets w))
  = map inr (chunks ++ [last_chunk]) ++ more ->
  Forall2 (fun d x => utf8_decode d = Some x) chunks texts ->
  utf8_decode last_chunk = Some last_text ->
  unterminated (message_termination_character self) [] texts ->
  index_last (List.concat texts ++ last_text)
  = Return (message_termination_character self) ->
  (List.length chunks < fuel)%nat ->
  query fuel self message T w
  = (Return (mkStatus 0 (List.concat texts ++ last_text)),
     mkWorld (peers w) (S (sockets w))
       (log w
        ++ EvTransfer (outgoing self message) true
           :: full_trace (sockets w) self T (outgoing self message)
                (recv_events (sockets w) (chunks ++ [last_chunk])))).
Proof.
  intros Hk Hm Ha Hrel He Hc Hs Hf Hd Hu Hl Hfu.
  apply opt_str_eqb_neq in Hk.
  rewrite query_unfold by assumption. unfold transport, bind, lift.
  rewrite Hk.
  rewrite (TcpipTransfer_reassembles fuel self (outgoing self message) T w
             data chunks texts last_chunk last_text more
             Ha Hrel He Hc Hs Hf Hd Hu Hl Hfu).
  reflexivity.
Qed.

Lemma is_ascii_Forall s :
  is_ascii s = true -> Forall (fun c => (c < 128)%N) s.
Proof.
  unfold is_ascii. rewrite forallb_forall, Forall_forall.
  intros H c Hc. apply N.ltb_lt. now apply H.
Qed.

End Properties.

(** * The codec on both sides of the wire *)

Section Codec.
Context {rt : PyRuntime}.
Local Open Scope N_scope.

Lemma to_N_byte_of n : n < 256 -> Byte.to_N (byte_of n) = n.
Proof.
  intros Hn. unfold byte_of.
  pose proof (Byte.to_of_N_option_map n) as H.
  replace (n <=? 255) with true in H by (symmetry; apply N.leb_le; lia).
  destruct (Byte.of_N n); simpl in H; congruence.
Qed.

Ltac Zify.zify_post_hook ::= Z.to_euclidean_division_equations.

Lemma decode_1 n0 rest :
  n0 < 128 ->
  utf8_decode (byte_of n0 :: rest) = cons_opt n0 (utf8_decode rest).
Proof.
  intros H. cbn [utf8_decode]. rewrite to_N_byte_of by lia.
  apply N.ltb_lt in H. now rewrite H.
Qed.

Lemma decode_2 n0 n1 rest :
  n0 < 256 -> n1 < 256 -> 128 <= n0 ->
  (lead2 n0 && cont n1)%bool = true ->
  utf8_decode (byte_of n0 :: byte_of n1 :: rest)
  = cons_opt ((n0 - 0xC0) * 0x40 + (n1 - 0x80)) (utf8_decode rest).
Proof.
  intros H0 H1 Hh Hc. cbn [utf8_decode]. rewrite !to_N_byte_of by lia.
  apply N.ltb_ge in Hh. now rewrite Hh, Hc.
Qed.

Lemma decode_3 n0 n1 n2 rest :
  n0 < 256 -> n1 < 256 -> n2 < 256 -> 128 <= n0 ->
  lead2 n0 = false ->
  (lead3 n0 n1 && cont n2)%bool = true ->
  utf8_decode (byte_of n0 :: byte_of n1 :: byte_of n2 :: rest)
  = cons_opt ((n0 - 0xE0) * 0x1000 + (n1 - 0x80) * 0x40 + (n2 - 0x80))
      (utf8_decode rest).
Proof.
  intros H0 H1 H2 Hh Hl Hc. cbn [utf8_decode].
  rewrite !to_N_byte_of by lia.
  apply N.ltb_ge in Hh. now rewrite Hh, Hl, Hc.
Qed.

Lemma decode_4 n0 n1 n2 n3 rest :
  n0 < 256 -> n1 < 256 -> n2 < 256 -> n3 < 256 -> 128 <= n0 ->
  lead2 n0 = false -> lead3 n0 n1 = false ->
  (lead4 n0 n1 && cont n2 && cont n3)%bool = true ->
  utf8_decode (byte_of n0 :: byte_of n1 :: byte_of n2 :: byte_of n3 :: rest)
  = cons_opt ((n0 - 0xF0) * 0x40000 + (n1 - 0x80) * 0x1000
              + (n2 - 0x80) * 0x40 + (n3 - 0x80))
      (utf8_decode rest).
Proof.
  intros H0 H1 H2 H3 Hh Hl2 Hl3 Hc. cbn [utf8_decode].
  rewrite !to_N_byte_of by lia.
  apply N.ltb_ge in Hh. now rewrite Hh, Hl2, Hl3, Hc.
Qed.

Ltac bool_solve :=
  repeat match goal with
         | |- (_ && _)%bool = true => apply andb_true_iff; split
         | |- (_ <=? _) = true => apply N.leb_le
         | |- (_ <? _) = true => apply N.ltb_lt
         | |- (_ =? _) = true => apply N.eqb_eq
         end; try lia.

Lemma lead3_true n0 n1 :
  (n0 = 0xE0 /\ 0xA0 <= n1 <= 0xBF)
  \/ (0xE1 <= n0 <= 0xEC /\ 0x80 <= n1 <= 0xBF)
  \/ (n0 = 0xED /\ 0x80 <= n1 <= 0x9F)
  \/ (0xEE <= n0 <= 0xEF /\ 0x80 <= n1 <= 0xBF) ->
  lead3 n0 n1 = true.
Proof.
  unfold lead3, cont. intros H. rewrite !orb_true_iff, !andb_true_iff.
  rewrite !N.leb_le, !N.eqb_eq. lia.
Qed.

Lemma lead4_true n0 n1 :
  (n0 = 0xF0 /\ 0x90 <= n1 <= 0xBF)
  \/ (0xF1 <= n0 <= 0xF3 /\ 0x80 <= n1 <= 0xBF)
  \/ (n0 = 0xF4 /\ 0x80 <= n1 <= 0x8F) ->
  lead4 n0 n1 = true.
Proof.
  unfold lead4, cont. intros H. rewrite !orb_true_iff, !andb_true_iff.
  rewrite !N.leb_le, !N.eqb_eq. lia.
Qed.

Lemma lead2_false n0 : 0xDF < n0 -> lead2 n0 = false.
Proof.
  intros H. unfold lead2. apply andb_false_iff. right. apply N.leb_gt. lia.
Qed.

Lemma lead3_false n0 n1 : 0xEF < n0 -> lead3 n0 n1 = false.
Proof.
  intros H. unfold lead3.
  rewrite !orb_false_iff, !andb_false_iff, !N.leb_gt, !N.eqb_neq. lia.
Qed.

Lemma cont_true n : 0x80 <= n <= 0xBF -> cont n = true.
Proof. intros H. unfold cont. bool_solve. Qed.

Lemma decode_encoded_char c bs rest :
  utf8_encode_char c = Some bs ->
  utf8_decode (bs ++ rest) = cons_opt c (utf8_decode rest).
Proof.
  unfold utf8_encode_char.
  destruct (N.ltb_spec c 0x80) as [H1|H1].
  { intros H. assert (Hb : bs = [byte_of c]) by congruence. subst bs.
    apply decode_1. lia. }
  destruct (N.ltb_spec c 0x800) as [H2|H2].
  { intros H.
    assert (Hb : bs = [byte_of (0xC0 + c / 0x40); byte_of (0x80 + c mod 0x40)])
      by congruence.
    subst bs. cbn [app]. rewrite decode_2; try lia.
    - f_equal. lia.
    - apply andb_true_iff. split; [unfold lead2; bool_solve|].
      apply cont_true. lia. }
  destruct (N.ltb_spec c 0x10000) as [H3|H3].
  { destruct ((0xD800 <=? c) && (c <=? 0xDFFF))%bool eqn:Hs; [discriminate|].
    assert (Hns : c < 0xD800 \/ 0xDFFF < c).
    { apply andb_false_iff in Hs as [Hs|Hs]; apply N.leb_gt in Hs; lia. }
    intros H.
    assert (Hb : bs = [byte_of (0xE0 + c / 0x1000);
                       byte_of (0x80 + (c / 0x40) mod 0x40);
                       byte_of (0x80 + c mod 0x40)]) by congruence.
    subst bs. cbn [app]. rewrite decode_3; try lia.
    - f_equal. lia.
    - apply lead2_false. lia.
    - apply andb_true_iff. split; [apply lead3_true; lia|apply cont_true; lia]. }
  destruct (N.ltb_spec c 0x110000) as [H4|H4]; [|discriminate].
  intros H.
  assert (Hb : bs = [byte_of (0xF0 + c / 0x40000);
                     byte_of (0x80 + (c / 0x1000) mod 0x40);
                     byte_of (0x80 + (c / 0x40) mod 0x40);
                     byte_of (0x80 + c mod 0x40)]) by congruence.
  subst bs. cbn [app]. rewrite decode_4; try lia.
  - f_equal. lia.
  - apply lead2_false. lia.
  - apply lead3_false. lia.
  - rewrite !andb_true_iff. repeat split;
      [apply lead4_true; lia|apply cont_true; lia|apply cont_true; lia].
Qed.

(** What [encode] produces, [decode] reads back. *)
Lemma utf8_round_trip s data :
  utf8_encode s = Some data -> utf8_decode data = Some s.
Proof.
  revert data. induction s as [|c s IH]; intros data; simpl.
  - now intros [= <-].
  - destruct (utf8_encode_char c) as [bs|] eqn:Hc; [|discriminate].
    destruct (utf8_encode s) as [ds|]; [|discriminate].
    intros [= <-]. rewrite (decode_encoded_char c bs ds Hc).
    now rewrite (IH ds eq_refl).
Qed.

(** X15. A peer that sends back what it was sent: on a direct connection
    [query] returns status 0 with the command itself, terminator included,
    whatever characters the command is made of, as long as it encodes; the
    bytes that went out are the bytes that came in, once each. *)
Theorem echo_returns_the_command fuel self message t T w data more :
  connection_type self <> Some (py "gpiboe") ->
  message_termination_character self = [t] ->
  message <> [] ->
  utf8_encode (terminated t message) = Some data ->
  accepts (peers w (sockets w)) = true ->
  releases (peers w (sockets w)) = true ->
  recv_count (sockets w) (log w) = 0%nat ->
  recv_script (peers w (sockets w)) = inr data :: more ->
  (0 < fuel)%nat ->
  fst (query fuel self message T w)
  = Return (mkStatus 0 (terminated t message))
  /\ sent (log (snd (query fuel self message T w))) = sent (log w) ++ [data]
  /\ received (log (snd (query fuel self message T w)))
     = received (log w) ++ [data].
Proof.
  intros Hk Ht Hm He Ha Hrel Hc Hs Hfu.
  pose proof (outgoing_terminated self message t Ht Hm) as Ho.
  apply opt_str_eqb_neq in Hk.
  rewrite query_unfold by assumption. unfold transport, bind, lift.
  rewrite Hk, Ho.
  assert (Hend : index_last (terminated t message) = Return [t]).
  { apply ends_with_index_last. unfold terminated.
    destruct (ends_with t message) eqn:E; [exact E|].
    rewrite ends_with_snoc. apply N.eqb_refl. }
  rewrite (TcpipTransfer_reassembles fuel self (terminated t message) T w
             data [] [] data (terminated t message) more
             Ha Hrel He Hc Hs (Forall2_nil _) (utf8_round_trip _ _ He) I
             ltac:(rewrite Ht; exact Hend) Hfu).
  cbn [fst snd log]. split; [reflexivity|].
  unfold full_trace, wire_data, recv_events. rewrite He. cbn [map app].
  split.
  - rewrite sent_app. cbn. reflexivity.
  - rewrite received_app. cbn. reflexivity.
Qed.

End Codec.

(** * The statements at concrete connections *)

(** C1, at the bench.  The supply answers the query with ["12.500\n"]: what
    [query] returns is the list [[0, "12.500\n"]], not the text; and [write]
    returns the list [[0, ""]], not [None]. *)
Lemma query_returns_the_status_list :
  exists st st',
    fst (query (rt:=ascii_runtime) 5 supply (py "MEAS:VOLT?") 1 w_volt)
    = Return st
    /\ value_of_status st = PList [PInt 0; PStr (py "12.500" ++ [LF])]
    /\ value_of_status st <> PStr (py "12.500" ++ [LF])
    /\ fst (write (rt:=ascii_runtime) 5 supply (py "VOLT 5V") 1 w_volt)
       = Return st'
    /\ value_of_status st' = PList [PInt 0; PStr []]
    /\ value_of_status st' <> PNone.
Proof.
  exists (mkStatus 0 (py "12.500" ++ [LF])), (mkStatus 0 []).
  repeat apply conj; try reflexivity; discriminate.
Qed.

(** The status gate at the bench: the query answered with ["12.500\n"]
    returns the status [[0, "12.500\n"]]; a write the gateway refuses with
    status 2 raises the [ConnectionError] that carries 2 and the gateway's
    text. *)
Lemma status_gate_at_the_bench :
  fst (query (rt:=ascii_runtime) 5 supply (py "MEAS:VOLT?") 1 w_volt)
  = Return (mkStatus 0 (py "12.500" ++ [LF]))
  /\ fst (write (rt:=ascii_runtime) 5 behind_gateway (py "VOLT 5V") 1
            w_gateway_error)
     = Raise (mkExc ConnectionError
                [AStr (py "ERROR: 2, no listener" ++ [LF])]).
Proof.
  split.
  - assert (Hm : py "MEAS:VOLT?" <> []) by discriminate.
    assert (Ht : transport (rt:=ascii_runtime) 5 supply
                   (outgoing supply (py "MEAS:VOLT?")) true 1 w_volt
                 = (Return (mkStatus 0 (py "12.500" ++ [LF])),
                    snd (transport (rt:=ascii_runtime) 5 supply
                           (outgoing supply (py "MEAS:VOLT?")) true 1 w_volt)))
      by (vm_compute; reflexivity).
    pose proof (proj1 (status_gate (rt:=ascii_runtime) 5 supply
                         (py "MEAS:VOLT?") true 1 w_volt _ _ Hm Ht)) as H.
    destruct (H eq_refl) as [Hq _]. cbv iota in Hq. rewrite Hq. reflexivity.
  - assert (Hm : py "VOLT 5V" <> []) by discriminate.
    assert (Ht : transport (rt:=ascii_runtime) 5 behind_gateway
                   (outgoing behind_gateway (py "VOLT 5V")) false 1
                   w_gateway_error
                 = (Return (mkStatus 2 (py "no listener" ++ [LF])),
                    snd (transport (rt:=ascii_runtime) 5 behind_gateway
                           (outgoing behind_gateway (py "VOLT 5V")) false 1
                           w_gateway_error)))
      by (vm_compute; reflexivity).
    pose proof (proj2 (status_gate (rt:=ascii_runtime) 5 behind_gateway
                         (py "VOLT 5V") false 1 w_gateway_error _ _ Hm Ht))
      as H.
    assert (Hn : status_0 (mkStatus 2 (py "no listener" ++ [LF])) <> 0%Z)
      by discriminate.
    specialize (H Hn). cbv iota in H. rewrite H. reflexivity.
Defined.

(** C2, at the bench.  The gateway acknowledges with ["BUSY|try later\n"]
    and the gateway transfer raises a [ValueError]; the operator interrupts
    a query and the direct transfer lets the [KeyboardInterrupt] through. *)
Lemma transport_raises :
  raises_class ValueError
    (fst (__GpiboeTransfer (rt:=ascii_runtime) 5 behind_gateway
            (py "VOLT 5V" ++ [LF]) false 1 w_bad_ack))
  /\ fst (__TcpipTransfer 5 supply (py "MEAS:VOLT?" ++ [LF]) true 1
            w_interrupt)
     = Raise interrupted.
Proof.
  split.
  - eexists. vm_compute. reflexivity.
  - reflexivity.
Qed.

(** A device that never answers: the time-out of [recv] comes back as the
    status [-1] with its text. *)
Lemma direct_transfer_captures_timeout :
  tame_world w_silent
  /\ fst (__TcpipTransfer 5 supply (py "MEAS:VOLT?" ++ [LF]) true 1 w_silent)
     = Return (mkStatus (-1) (py "[ERROR] during TCPIP transfer: timed out")).
Proof.
  assert (Hw : tame_world w_silent) by (intros n; reflexivity).
  split; [exact Hw|].
  pose proof (proj2 (direct_transfer_captures 5 supply
                       (py "MEAS:VOLT?" ++ [LF]) true 1 w_silent Hw)) as H.
  destruct H as (a & Ha & H & _).
  vm_compute in Ha. injection Ha as <-. rewrite H. reflexivity.
Defined.

(** C5, at the bench.  Two answer lines arrive in one segment: the query
    returns both, while the bytes received up to and including the first
    terminator decode to the first line only. *)
Lemma payload_past_first_terminator :
  exists st w',
    __TcpipTransfer 5 supply (py "MEAS:VOLT?" ++ [LF]) true 1 w_two_lines
    = (Return st, w')
    /\ status_0 st = 0%Z
    /\ status_1 st = py "1.0" ++ [LF] ++ py "2.0" ++ [LF]
    /\ utf8_decode
         (bytes_upto_first (byte_of LF) (List.concat (received (log w'))))
       = Some (py "1.0" ++ [LF])
    /\ Some (status_1 st)
       <> utf8_decode
            (bytes_upto_first (byte_of LF) (List.concat (received (log w')))).
Proof.
  eexists. eexists. split; [vm_compute; reflexivity|].
  repeat apply conj; try reflexivity. vm_compute. discriminate.
Qed.

(** The query answered with ["12.500\n"] in one chunk: that chunk is all
    that was received, and its decoding is the payload. *)
Lemma direct_query_payload_at_the_bench :
  exists chunks,
    received
      (log (snd (__TcpipTransfer 5 supply (py "MEAS:VOLT?" ++ [LF]) true 1
                   w_volt)))
    = chunks
    /\ utf8_decode (List.concat chunks) = Some (py "12.500" ++ [LF])
    /\ ends_with LF (py "12.500" ++ [LF]) = true.
Proof.
  assert (E : __TcpipTransfer 5 supply (py "MEAS:VOLT?" ++ [LF]) true 1 w_volt
              = (Return (mkStatus 0 (py "12.500" ++ [LF])),
                 snd (__TcpipTransfer 5 supply (py "MEAS:VOLT?" ++ [LF]) true
                        1 w_volt)))
    by (vm_compute; reflexivity).
  destruct (direct_query_payload 5 supply (py "MEAS:VOLT?" ++ [LF]) 1 w_volt
              _ _ E eq_refl) as (t & chunks & Ht & Hr & Hd & He & _).
  injection Ht as <-.
  exists chunks. split; [exact Hr|]. split; [exact Hd|exact He].
Defined.

(** C6, at the bench.  The empty command does not end in the terminator,
    yet none is appended and nothing is sent: [write] and [query] raise
    before any transfer is requested. *)
Lemma empty_command_is_not_terminated :
  ends_with LF [] = false
  /\ write (rt:=ascii_runtime) 5 supply [] 1 w_volt
     = (Raise (mkExc IndexError [AStr (py "string index out of range")]),
        w_volt)
  /\ query (rt:=ascii_runtime) 5 supply [] 1 w_volt
     = (Raise (mkExc IndexError [AStr (py "string index out of range")]),
        w_volt)
  /\ ~ (exists rest,
          requests (log (snd (write (rt:=ascii_runtime) 5 supply [] 1 w_volt)))
          = requests (log w_volt)
            ++ first_request supply (terminated LF []) false :: rest)
  /\ ~ (exists rest,
          requests (log (snd (query (rt:=ascii_runtime) 5 supply [] 1 w_volt)))
          = requests (log w_volt)
            ++ first_request supply (terminated LF []) true :: rest).
Proof.
  repeat apply conj; try reflexivity;
    intros (rest & H); vm_compute in H; discriminate.
Qed.

(** The terminator at the bench: the unterminated command reaches the supply
    with one terminator added, and the terminated command reaches the
    gateway inside the Write frame as it was given. *)
Lemma terminator_appended_once_at_the_bench :
  (exists rest,
     requests (log (snd (write (rt:=ascii_runtime) 5 supply (py "VOLT 5V") 1
                           w_volt)))
     = (py "VOLT 5V" ++ [LF], false) :: rest)
  /\ (exists rest,
        requests (log (snd (write (rt:=ascii_runtime) 5 behind_gateway
                              (py "VOLT 5V" ++ [LF]) 1 w_gateway)))
        = (py "W|5|VOLT 5V" ++ [LF], true) :: rest).
Proof.
  split.
  - destruct (terminator_appended_once (rt:=ascii_runtime) 5 supply
                (py "VOLT 5V") LF 1 w_volt eq_refl ltac:(discriminate))
      as (_ & _ & _ & (rest & Hr) & _).
    exists rest. rewrite Hr. reflexivity.
  - destruct (terminator_appended_once (rt:=ascii_runtime) 5 behind_gateway
                (py "VOLT 5V" ++ [LF]) LF 1 w_gateway eq_refl
                ltac:(discriminate))
      as (_ & _ & _ & (rest & Hr) & _).
    exists rest. rewrite Hr. reflexivity.
Defined.

(** The two replies of the gateway's protocol. *)
Lemma parse_gateway_replies :
  __ParseGpiboeReceiveMessage (rt:=ascii_runtime) (py "0|3.14159")
  = Return (mkStatus 0 (py "3.14159"))
  /\ __ParseGpiboeReceiveMessage (rt:=ascii_runtime) (py "0")
     = Return (mkStatus 0 []).
Proof.
  assert (Hs : ~ In PIPE (py "0")) by (intros [H|[]]; discriminate).
  exact (parse_splits_on_first_pipe (rt:=ascii_runtime) (py "0")
           (py "3.14159") 0 Hs eq_refl).
Defined.

(** C8, at the bench.  The device accepts the query and never answers: the
    transfer returns the status [-1], having created socket 0 and called
    neither [shutdown] nor [close] on it. *)
Lemma silent_device_leaves_socket_open :
  exists evs,
    __TcpipTransfer 5 supply (py "MEAS:VOLT?" ++ [LF]) true 1 w_silent
    = (Return (mkStatus (-1) (py "[ERROR] during TCPIP transfer: timed out")),
       mkWorld (peers w_silent) 1
         (EvTransfer (py "MEAS:VOLT?" ++ [LF]) true :: evs))
    /\ opened evs = [0%nat]
    /\ closed 0 evs = false
    /\ shut_down 0 evs = false.
Proof.
  assert (E : __TcpipTransfer 5 supply (py "MEAS:VOLT?" ++ [LF]) true 1
                w_silent
              = (Return (mkStatus (-1)
                           (py "[ERROR] during TCPIP transfer: timed out")),
                 snd (__TcpipTransfer 5 supply (py "MEAS:VOLT?" ++ [LF]) true
                        1 w_silent)))
    by (vm_compute; reflexivity).
  destruct (socket_closed_only_on_success 5 supply (py "MEAS:VOLT?" ++ [LF])
              true 1 w_silent _ _ eq_refl eq_refl E)
    as (evs & Hl & Hc & Hs).
  exists evs. split.
  - rewrite E at 1. f_equal.
    destruct (snd (__TcpipTransfer 5 supply (py "MEAS:VOLT?" ++ [LF]) true 1
                     w_silent)) as [p n l] eqn:Ew.
    simpl in Hl. subst l.
    apply (f_equal peers) in Ew as Hp. apply (f_equal sockets) in Ew as Hn.
    simpl in Hp, Hn. rewrite <- Hp, <- Hn. reflexivity.
  - assert (Hevs : log (snd (__TcpipTransfer 5 supply
                               (py "MEAS:VOLT?" ++ [LF]) true 1 w_silent))
                   = EvTransfer (py "MEAS:VOLT?" ++ [LF]) true
                     :: [EvSocket 0; EvSetTimeout 0 1;
                         EvConnect 0 (Some (py "192.168.0.10")) 5025;
                         EvSendall 0 (wire ("MEAS:VOLT?" ++ newline));
                         EvRecv 0 4096 None])
      by (vm_compute; reflexivity).
    rewrite Hl in Hevs. simpl in Hevs. injection Hevs as ->.
    repeat apply conj; reflexivity.
Defined.

(** C10, at the bench.  The gateway acknowledges the Write frame with
    ["BUSY|try later\n"]: [write] and [query] raise the [ValueError] of
    [int("BUSY")].  They raise it as well when the acknowledgement is
    ["0|\n"] behind the separator U+001C, which [int()] does not strip. *)
Lemma busy_gateway_raises_ValueError :
  (exists e,
     exc_class e = ValueError
     /\ fst (write (rt:=ascii_runtime) 5 behind_gateway (py "VOLT 5V") 1
               w_bad_ack) = Raise e
     /\ fst (query (rt:=ascii_runtime) 5 behind_gateway (py "VOLT 5V") 1
               w_bad_ack) = Raise e)
  /\ fst (write (rt:=ascii_runtime) 5 behind_gateway (py "VOLT 5V") 1
            w_separator_ack)
     = Raise (mkExc ValueError
                [AStr (py "invalid literal for int() with base 10: '\x1c0'")])
  /\ requests
       (log (snd (query (rt:=ascii_runtime) 5 behind_gateway (py "VOLT 5V") 1
                    w_separator_ack)))
     = [(py "W|5|VOLT 5V" ++ [LF], true)].
Proof.
  split.
  - destruct (malformed_status_raises_ValueError (rt:=ascii_runtime) 5
                behind_gateway (py "VOLT 5V") 1 w_bad_ack
                (py "BUSY|try later" ++ [LF]) eq_refl ltac:(discriminate)
                eq_refl) as (e & Hc & _ & Hack & _).
    exists e. split; [exact Hc|].
    assert (E : __TcpipTransfer 5 behind_gateway
                  (write_frame behind_gateway
                     (outgoing behind_gateway (py "VOLT 5V"))) true 1
                  w_bad_ack
                = (Return (mkStatus 0 (py "BUSY|try later" ++ [LF])),
                   snd (__TcpipTransfer 5 behind_gateway
                          (write_frame behind_gateway
                             (outgoing behind_gateway (py "VOLT 5V"))) true 1
                          w_bad_ack)))
      by (vm_compute; reflexivity).
    destruct (Hack _ E) as [-> ->]. split; reflexivity.
  - destruct (malformed_status_raises_ValueError (rt:=ascii_runtime) 5
                behind_gateway (py "VOLT 5V") 1 w_separator_ack
                (28%N :: py "0|" ++ [LF]) eq_refl ltac:(discriminate)
                eq_refl) as (e & _ & Hp & Hack & _).
    assert (E : __TcpipTransfer 5 behind_gateway
                  (write_frame behind_gateway
                     (outgoing behind_gateway (py "VOLT 5V"))) true 1
                  w_separator_ack
                = (Return (mkStatus 0 (28%N :: py "0|" ++ [LF])),
                   snd (__TcpipTransfer 5 behind_gateway
                          (write_frame behind_gateway
                             (outgoing behind_gateway (py "VOLT 5V"))) true 1
                          w_separator_ack)))
      by (vm_compute; reflexivity).
    destruct (Hack _ E) as [Hw Hq]. rewrite Hw, Hq.
    injection Hp as <-. split; reflexivity.
Defined.

(** C3, at the bench.  A query through the gateway at GPIB address 5 hands
    over the Write frame and then the Read frame, and their bytes go out in
    that order; a write the gateway refuses with status 2 hands over and
    sends the Write frame only and returns the gateway's status and text;
    when no route leads to the gateway the Write frame is requested and
    nothing is sent. *)
Lemma gateway_frames_at_the_bench :
  requests
    (log (snd (__GpiboeTransfer (rt:=ascii_runtime) 5 behind_gateway
                 (py "MEAS:VOLT?" ++ [LF]) true 1 w_gateway)))
  = [(py "W|5|MEAS:VOLT?" ++ [LF], true); (py "R|5" ++ [LF], true)]
  /\ sent
       (log (snd (__GpiboeTransfer (rt:=ascii_runtime) 5 behind_gateway
                    (py "MEAS:VOLT?" ++ [LF]) true 1 w_gateway)))
     = [wire ("W|5|MEAS:VOLT?" ++ newline); wire ("R|5" ++ newline)]
  /\ requests
       (log (snd (__GpiboeTransfer (rt:=ascii_runtime) 5 behind_gateway
                    (py "VOLT 5V" ++ [LF]) true 1 w_gateway_error)))
     = [(py "W|5|VOLT 5V" ++ [LF], true)]
  /\ sent
       (log (snd (__GpiboeTransfer (rt:=ascii_runtime) 5 behind_gateway
                    (py "VOLT 5V" ++ [LF]) true 1 w_gateway_error)))
     = [wire ("W|5|VOLT 5V" ++ newline)]
  /\ fst (__GpiboeTransfer (rt:=ascii_runtime) 5 behind_gateway
            (py "VOLT 5V" ++ [LF]) true 1 w_gateway_error)
     = Return (mkStatus 2 (py "no listener" ++ [LF]))
  /\ requests
       (log (snd (__GpiboeTransfer (rt:=ascii_runtime) 5 behind_gateway
                    (py "VOLT 5V" ++ [LF]) true 1 w_unreachable)))
     = [(py "W|5|VOLT 5V" ++ [LF], true)]
  /\ sent
       (log (snd (__GpiboeTransfer (rt:=ascii_runtime) 5 behind_gateway
                    (py "VOLT 5V" ++ [LF]) true 1 w_unreachable)))
     = [].
Proof.
  destruct (gateway_frames_in_order (rt:=ascii_runtime) 5 behind_gateway
              (py "MEAS:VOLT?" ++ [LF]) true 1 w_gateway)
    as (_ & H1 & _ & _ & _ & H6).
  destruct (gateway_frames_in_order (rt:=ascii_runtime) 5 behind_gateway
              (py "VOLT 5V" ++ [LF]) true 1 w_gateway_error)
    as (_ & H2 & H3 & _ & H5 & _).
  destruct (gateway_frames_in_order (rt:=ascii_runtime) 5 behind_gateway
              (py "VOLT 5V" ++ [LF]) true 1 w_unreachable)
    as (_ & H7 & _ & H8 & _).
  assert (EW : __TcpipTransfer 5 behind_gateway
                 (write_frame behind_gateway (py "MEAS:VOLT?" ++ [LF])) true 1
                 w_gateway
               = (Return (mkStatus 0 (py "0|" ++ [LF])),
                  snd (__TcpipTransfer 5 behind_gateway
                         (write_frame behind_gateway (py "MEAS:VOLT?" ++ [LF]))
                         true 1 w_gateway)))
    by (vm_compute; reflexivity).
  assert (E : __TcpipTransfer 5 behind_gateway
                (write_frame behind_gateway (py "VOLT 5V" ++ [LF])) true 1
                w_gateway_error
              = (Return (mkStatus 0 (py "2|no listener" ++ [LF])),
                 snd (__TcpipTransfer 5 behind_gateway
                        (write_frame behind_gateway (py "VOLT 5V" ++ [LF]))
                        true 1 w_gateway_error)))
    by (vm_compute; reflexivity).
  split; [rewrite H1; reflexivity|].
  split.
  { destruct (H6 _ _ (mkStatus 0 (py "0|1.5" ++ [LF])) EW eq_refl eq_refl
                eq_refl eq_refl) as (dW & dR & HW & HR & ->).
    injection HW as <-. injection HR as <-. reflexivity. }
  split; [rewrite H2; reflexivity|].
  split.
  { destruct (H5 (mkStatus 0 (py "2|no listener" ++ [LF]))
                ltac:(rewrite E; reflexivity) eq_refl)
      as (dW & tail & HW & -> & Ht).
    injection HW as <-. rewrite (Ht eq_refl). reflexivity. }
  split.
  { destruct (H3 _ _ (mkStatus 2 (py "no listener" ++ [LF])) E eq_refl
                eq_refl ltac:(discriminate)) as [-> _].
    reflexivity. }
  split; [rewrite H7; reflexivity|rewrite H8; reflexivity].
Defined.

(** C4, at the bench.  The two named constructors with the addresses of the
    supply and of the gateway; GPIB address 31 and the kind ['usb'] are
    refused. *)
Lemma construction_at_the_bench :
  fst (tcpip (Some (py "192.168.0.10")) (fresh (fun _ => answering [])))
  = Return supply
  /\ fst (gpiboe (Some 5%Z) (Some (py "192.168.0.20"))
            (fresh (fun _ => answering [])))
     = Return behind_gateway
  /\ raises_class ValueError
       (fst (gpiboe (Some 31%Z) (Some (py "192.168.0.20"))
               (fresh (fun _ => answering []))))
  /\ raises_class AttributeError
       (fst (__init__ (Some (py "usb")) None None
               (fresh (fun _ => answering [])))).
Proof.
  split; [reflexivity|]. split; [reflexivity|]. split.
  - exact (proj1 (proj2 (proj2 (proj2 (proj2
             (construction_validates (Some (py "gpiboe"))
                (Some (py "192.168.0.20")) (Some 31%Z)
                (fresh (fun _ => answering []))))))) 31%Z
             (or_intror eq_refl)).
  - apply (construction_validates (Some (py "usb")) None None
             (fresh (fun _ => answering []))); discriminate.
Defined.

(** * The further properties at concrete connections *)

(** X2, at the bench: a write to the supply reads nothing and is not out of
    fuel. *)
Lemma direct_write_at_the_bench :
  fst (write (rt:=ascii_runtime) 5 supply (py "VOLT 5V") 1 w_volt)
  <> OutOfFuel
  /\ received
       (log (snd (write (rt:=ascii_runtime) 5 supply (py "VOLT 5V") 1 w_volt)))
     = [].
Proof.
  assert (Hk : connection_type supply <> Some (py "gpiboe"))
    by (intros H; vm_compute in H; discriminate).
  destruct (direct_write_returns_empty_status (rt:=ascii_runtime) 5 supply
              (py "VOLT 5V") 1 w_volt Hk) as (H1 & _ & H3).
  split; [exact H1|exact H3].
Defined.

(** X3, at the bench: the device closes the connection without an answer. *)
Lemma empty_read_at_the_bench :
  fst (__TcpipTransfer 1 supply (py "MEAS:VOLT?" ++ [LF]) true 1 w_closed)
  = Return (mkStatus (-1)
              (py "[ERROR] during TCPIP transfer: string index out of range")).
Proof.
  rewrite (empty_read_is_reported 0 supply (py "MEAS:VOLT?" ++ [LF]) 1
             w_closed (wire ("MEAS:VOLT?" ++ newline))
             eq_refl eq_refl eq_refl).
  reflexivity.
Defined.

(** X4, at the bench: the reading ["12.5"] arrives without terminator and the
    device closes; a thousand turns of the loop do not end the query. *)
Lemma cut_off_reply_at_the_bench :
  fst (__TcpipTransfer 1000 supply (py "MEAS:VOLT?" ++ [LF]) true 1 w_cut_off)
  = OutOfFuel.
Proof.
  apply (unterminated_reply_never_returns 1000 supply
           (py "MEAS:VOLT?" ++ [LF]) 1 w_cut_off
           (wire ("MEAS:VOLT?" ++ newline)) [wire "12.5"] [py "12.5"]);
    try reflexivity.
  - repeat constructor.
  - discriminate.
  - cbn. repeat split; discriminate.
Defined.

(** X5, at the bench: the reading arrives as ["12."] and ["500\n"]. *)
Lemma split_reply_at_the_bench :
  fst (query (rt:=ascii_runtime) 2 supply (py "MEAS:VOLT?") 1 w_split)
  = Return (mkStatus 0 (py "12.500" ++ [LF])).
Proof.
  assert (Hk : connection_type supply <> Some (py "gpiboe"))
    by (intros H; vm_compute in H; discriminate).
  assert (Hu : unterminated (message_termination_character supply) []
                 [py "12."]) by (cbn; repeat split; discriminate).
  rewrite (split_reply_is_reassembled (rt:=ascii_runtime) 2 supply
             (py "MEAS:VOLT?") 1 w_split (wire ("MEAS:VOLT?" ++ newline))
             [wire "12."] [py "12."] (wire ("500" ++ newline))
             (py "500" ++ [LF]) []
             Hk ltac:(discriminate) eq_refl eq_refl eq_refl eq_refl eq_refl
             ltac:(repeat constructor) eq_refl Hu eq_refl (le_n 2)).
  reflexivity.
Defined.

(** X7, at the bench: a write and a query through the gateway. *)
Lemma gateway_answer_at_the_bench :
  fst (write (rt:=ascii_runtime) 5 behind_gateway (py "MEAS:VOLT?") 1
         w_gateway)
  = Return (mkStatus 0 [LF])
  /\ fst (query (rt:=ascii_runtime) 5 behind_gateway (py "MEAS:VOLT?") 1
            w_gateway)
     = Return (mkStatus 0 (py "1.5" ++ [LF])).
Proof.
  assert (E1 : __TcpipTransfer 5 behind_gateway
                 (write_frame behind_gateway
                    (outgoing behind_gateway (py "MEAS:VOLT?"))) true 1
                 w_gateway
               = (Return (mkStatus 0 (py "0|" ++ [LF])),
                  snd (__TcpipTransfer 5 behind_gateway
                         (write_frame behind_gateway
                            (outgoing behind_gateway (py "MEAS:VOLT?")))
                         true 1 w_gateway)))
    by (vm_compute; reflexivity).
  assert (E2 : __TcpipTransfer 5 behind_gateway (read_frame behind_gateway)
                 true 1
                 (snd (__TcpipTransfer 5 behind_gateway
                         (write_frame behind_gateway
                            (outgoing behind_gateway (py "MEAS:VOLT?")))
                         true 1 w_gateway))
               = (Return (mkStatus 0 (py "0|1.5" ++ [LF])),
                  snd (__TcpipTransfer 5 behind_gateway
                         (read_frame behind_gateway) true 1
                         (snd (__TcpipTransfer 5 behind_gateway
                                 (write_frame behind_gateway
                                    (outgoing behind_gateway
                                       (py "MEAS:VOLT?")))
                                 true 1 w_gateway)))))
    by (vm_compute; reflexivity).
  destruct (gateway_query_answer (rt:=ascii_runtime) 5 behind_gateway
              (py "MEAS:VOLT?") 1 w_gateway _ [LF] _
              (mkStatus 0 (py "1.5" ++ [LF])) _ _
              eq_refl ltac:(discriminate) E1 eq_refl E2 eq_refl)
    as [Hw Hq].
  rewrite Hw, Hq. split; reflexivity.
Defined.

(** X9, at the bench: the bytes of ["VOLT 5V\n"] go to the supply. *)
Lemma ascii_command_at_the_bench :
  sent (log (snd (write (rt:=ascii_runtime) 5 supply (py "VOLT 5V") 1 w_volt)))
  = [wire ("VOLT 5V" ++ newline)].
Proof.
  assert (Hk : connection_type supply <> Some (py "gpiboe"))
    by (intros H; vm_compute in H; discriminate).
  destruct (ascii_command_on_the_wire (rt:=ascii_runtime) 5 supply
              (py "VOLT 5V") LF 1 w_volt Hk eq_refl ltac:(discriminate)
              (is_ascii_Forall (py "VOLT 5V") eq_refl) eq_refl eq_refl)
    as [Hw _].
  rewrite Hw. reflexivity.
Defined.

(** X10, at the bench: the supply never answers the query. *)
Lemma direct_call_outcome_at_the_bench :
  exists a,
    fst (query (rt:=ascii_runtime) 5 supply (py "MEAS:VOLT?") 1 w_silent)
    = Raise (mkExc ConnectionError [AStr (py "ERROR: -1, " ++ error_text a)])
    /\ a = AStr (py "timed out").
Proof.
  assert (Hk : connection_type supply <> Some (py "gpiboe"))
    by (intros H; vm_compute in H; discriminate).
  assert (Hw : tame_world w_silent) by (intros n; reflexivity).
  pose proof (direct_call_outcomes (rt:=ascii_runtime) 5 supply
                (py "MEAS:VOLT?") true 1 w_silent Hk Hw) as H.
  assert (E : fst (query (rt:=ascii_runtime) 5 supply (py "MEAS:VOLT?") 1
                     w_silent)
              = Raise (mkExc ConnectionError
                         [AStr (py "ERROR: -1, "
                                ++ error_text (AStr (py "timed out")))]))
    by (vm_compute; reflexivity).
  cbv iota in H. rewrite E in H. destruct H as [[Hm _]|_]; [discriminate|].
  exists (AStr (py "timed out")). split; [exact E|reflexivity].
Defined.

(** X11, at the bench: the connection to GPIB address 5 behind the gateway. *)
Lemma named_constructors_at_the_bench :
  fst (gpiboe (Some 5%Z) (Some (py "192.168.0.20")) w_gateway)
  = Return behind_gateway
  /\ requests
       (log (snd (write (rt:=ascii_runtime) 5 behind_gateway (py "VOLT 5V") 1
                    w_gateway)))
     = [(py "W|5|VOLT 5V" ++ [LF], true)].
Proof.
  destruct (named_constructors_route (rt:=ascii_runtime) 5 None
              (Some (py "192.168.0.20")) 5%Z (py "VOLT 5V") 1 w_gateway
              w_gateway ltac:(discriminate)) as (_ & _ & _ & H).
  destruct (H behind_gateway eq_refl) as [_ Hr].
  split; [reflexivity|]. rewrite Hr. reflexivity.
Defined.

(** X12, at the bench: switching the output on through the gateway. *)
Lemma output_state_at_the_bench :
  requests
    (log (snd (set_output_state (rt:=ascii_runtime) 5 behind_gateway true
                 w_gateway)))
  = [(py "W|5|OUTP 1" ++ [LF], true)].
Proof.
  destruct (output_state_command (rt:=ascii_runtime) 5 behind_gateway true
              w_gateway eq_refl) as [Hr _].
  rewrite Hr. reflexivity.
Defined.

(** X13, at the bench: five volts for the supply. *)
Lemma set_value_at_the_bench :
  requests
    (log (snd (set_voltage (rt:=ascii_runtime) (fl:=textual_floats) 5 supply
                 (py "5.0") w_volt)))
  = [(py "VOLT 5.0V" ++ [LF], false)].
Proof.
  destruct (set_value_commands (rt:=ascii_runtime) (fl:=textual_floats) 5
              supply (py "5.0") w_volt eq_refl) as [Hr _].
  rewrite Hr. reflexivity.
Defined.

(** X14, at the bench: the supply's reading, as the text handed to
    [float()]. *)
Lemma measure_at_the_bench :
  fst (measure_voltage (rt:=ascii_runtime) (fl:=textual_floats) 5 supply
         w_volt)
  = Return (py "12.500" ++ [LF]).
Proof.
  destruct (measure_commands (rt:=ascii_runtime) (fl:=textual_floats) 5
              supply w_volt eq_refl) as (_ & _ & Hv & _).
  rewrite Hv. reflexivity.
Defined.

(** X15, at the bench: the device sends the identification query back. *)
Lemma echo_at_the_bench :
  fst (query (rt:=ascii_runtime) 1 supply (py "*IDN?") 1 w_echo)
  = Return (mkStatus 0 (py "*IDN?" ++ [LF])).
Proof.
  assert (Hk : connection_type supply <> Some (py "gpiboe"))
    by (intros H; vm_compute in H; discriminate).
  destruct (echo_returns_the_command (rt:=ascii_runtime) 1 supply
              (py "*IDN?") LF 1 w_echo (wire ("*IDN?" ++ newline)) []
              Hk eq_refl ltac:(discriminate) eq_refl eq_refl eq_refl eq_refl
              eq_refl (le_n 1)) as [Hq _].
  rewrite Hq. reflexivity.
Defined.
